(** * PHM2: quotes, tenancy and error handling of the API package

    A shallow embedding of the route handlers of [packages/api] (quotes,
    customers, products, auth, users, boilers), of the zod schemas of
    [packages/shared] they validate with, and of the error classes of
    [utils/errors], followed by the properties proved about them.

    Conventions of the embedding.
    - A JavaScript [number] that carries money or a percentage is an exact
      rational ([Q]); integers (ids, quantities, page numbers, timestamps) are
      [Z]; sequence numbers and years are [N].  IEEE-754 rounding and the
      rounding of the NUMERIC(10,2) columns are outside the model.
    - A table is the list of its rows in insertion order.  [serial] primary
      keys come from a per-table counter, and the UNIQUE constraints that the
      drizzle schema declares (users.email, products.sku, quotes.quote_number)
      are checked on insert; a violation is thrown by the driver as an error
      that is not an [AppError].  Column widths and foreign keys are not
      modelled.
    - A handler is a function from the database and the request to a
      [Result]: either the new database with the response, or the exception it
      throws.  A throw leaves the database as it was (the multi-statement
      handlers run in one transaction, the others throw before they write);
      a failed insert does not use up a value of the sequence.
    - Time enters through the clock reading of each request, which stamps
      [createdAt] and gives the current year. *)

From Stdlib Require Import ZArith NArith QArith Qround List Bool Lia.
From Stdlib Require Import Ascii String DecimalString DecimalN.
From Stdlib Require Import Permutation Sorted.
Import ListNotations.

Local Open Scope string_scope.
Local Open Scope list_scope.
Local Open Scope Z_scope.

(** ** JavaScript values and string helpers *)

Module Js.

(** The values that reach the fields of an error object. *)
Inductive value : Type :=
| Undefined
| Num (n : Z)
| Str (s : string)
| Opaque.  (* an object the model does not look into *)

(** [x || d] on a number: [0] is falsy. *)
Definition or_num (x d : Q) : Q := if Qeq_bool x 0 then d else x.

(** [x || d] where [x] may be [undefined]. *)
Definition or_opt_num (x : option Q) (d : Q) : Q :=
  match x with
  | Some v => or_num v d
  | None => d
  end.

Definition is_digit (c : ascii) : bool :=
  let n := nat_of_ascii c in (48 <=? n)%nat && (n <=? 57)%nat.

Definition to_lower (c : ascii) : ascii :=
  let n := nat_of_ascii c in
  if (65 <=? n)%nat && (n <=? 90)%nat then ascii_of_nat (n + 32) else c.

(** [n.toString()] for a non-negative integer. *)
Definition toString (n : N) : string := NilEmpty.string_of_uint (N.to_uint n).

Fixpoint repeat_char (c : ascii) (k : nat) : string :=
  match k with
  | O => EmptyString
  | S k' => String c (repeat_char c k')
  end.

(** [s.padStart(len, c)] with a one-character filler: nothing is cut when
    [s] is already longer. *)
Definition padStart (len : nat) (c : ascii) (s : string) : string :=
  repeat_char c (len - String.length s) ++ s.

(** The longest prefix of digits, and what follows it. *)
Fixpoint span_digits (s : string) : string * string :=
  match s with
  | EmptyString => (EmptyString, EmptyString)
  | String c r =>
      if is_digit c
      then let (d, rest) := span_digits r in (String c d, rest)
      else (EmptyString, s)
  end.

Fixpoint strip_prefix (p s : string) : option string :=
  match p, s with
  | EmptyString, _ => Some s
  | String a p', String b s' => if Ascii.eqb a b then strip_prefix p' s' else None
  | String _ _, EmptyString => None
  end.

(** [parseInt(s)] on a string of decimal digits ([None] stands for NaN). *)
Definition parseInt (s : string) : option N :=
  match s with
  | EmptyString => None
  | _ => option_map N.of_uint (NilEmpty.uint_of_string s)
  end.

End Js.

(** ** utils/errors: the error classes *)

Module Errors.

(** An instance of [AppError] or of one of its subclasses.  The fields hold
    whatever the constructor call passed: nothing checks their types at run
    time. *)
Record AppError : Type := mkAppError {
  name : string;
  statusCode : Js.value;
  message : Js.value;
  details : Js.value
}.

(** [new AppError(statusCode, message, details)]. *)
Definition new_AppError (statusCode message details : Js.value) : AppError :=
  mkAppError "AppError" statusCode message details.


Definition new_UnauthorizedError (message : string) : AppError :=
  mkAppError "UnauthorizedError" (Js.Num 401) (Js.Str message) Js.Undefined.

Definition new_ForbiddenError (message : string) : AppError :=
  mkAppError "ForbiddenError" (Js.Num 403) (Js.Str message) Js.Undefined.

Definition new_NotFoundError (message : string) : AppError :=
  mkAppError "NotFoundError" (Js.Num 404) (Js.Str message) Js.Undefined.

Definition new_ConflictError (message : string) : AppError :=
  mkAppError "ConflictError" (Js.Num 409) (Js.Str message) Js.Undefined.

(** What a handler can throw: an [AppError], or an error of the database
    driver (a violated constraint), which is not an [AppError]. *)
Inductive exn : Type :=
| App (e : AppError)
| Driver (reason : string).

(** middleware/errorHandler: the status passed to [c.json]. *)
Definition errorHandler_status (e : exn) : Js.value :=
  match e with
  | App a => statusCode a
  | Driver _ => Js.Num 500
  end.

(** [formatErrorResponse(err).error] for an [AppError]. *)
Definition response_error_kind (e : exn) : option string :=
  match e with
  | App a => Some (name a)
  | Driver _ => None
  end.

End Errors.

(** ** Results of handlers *)

Inductive Result (A : Type) : Type :=
| Ok (a : A)
| Throw (e : Errors.exn).

Arguments Ok {A} a.
Arguments Throw {A} e.

Definition bind {A B : Type} (r : Result A) (k : A -> Result B) : Result B :=
  match r with
  | Ok a => k a
  | Throw e => Throw e
  end.

Notation "x <- r ;; k" := (bind r (fun x => k))
  (at level 61, r at next level, right associativity).

(** ** Quote totals (routes/quotes.ts) *)

Module Totals.

(** The shape [calculateQuoteTotals] reads from a line. *)
Record LineAmounts : Type := mkLineAmounts {
  quantity : Q;
  unitPrice : Q;
  discount : Q
}.

Record QuoteTotals : Type := mkQuoteTotals {
  subtotal : Q;
  taxAmount : Q;
  total : Q
}.

Definition lineTotal (line : LineAmounts) : Q :=
  (quantity line * unitPrice line - discount line)%Q.

(** [lines.reduce((sum, line) => sum + lineTotal, 0)], then the tax. *)
Definition calculateQuoteTotals (lines : list LineAmounts) (taxRate : Q) : QuoteTotals :=
  let subtotal := fold_left (fun sum line => (sum + lineTotal line)%Q) lines 0%Q in
  let taxAmount := (subtotal * taxRate / 100)%Q in
  let total := (subtotal + taxAmount)%Q in
  mkQuoteTotals subtotal taxAmount total.

(** The sum the specification writes, [Σ (quantity_i × unitPrice_i − discount_i)],
    by recursion on the list. *)
Fixpoint sum_of_line_totals (lines : list LineAmounts) : Q :=
  match lines with
  | [] => 0%Q
  | l :: rest => (quantity l * unitPrice l - discount l + sum_of_line_totals rest)%Q
  end.

End Totals.

(** ** Query helpers (drizzle / Postgres) *)

Module Sql.

(** Postgres [LIKE] with the default escape character: [%] matches any run of
    characters, [_] one character, a backslash takes the next pattern
    character literally.  A pattern that ends in a lone backslash is an error
    in Postgres; the patterns built by the handlers all end in [%]. *)
Fixpoint like (p s : string) {struct p} : bool :=
  match p with
  | EmptyString => match s with EmptyString => true | _ => false end
  | String c p' =>
      if Ascii.eqb c "%" then
        (fix star (t : string) : bool :=
           like p' t || match t with
                        | EmptyString => false
                        | String _ t' => star t'
                        end) s
      else if Ascii.eqb c "_" then
        match s with
        | EmptyString => false
        | String _ s' => like p' s'
        end
      else if Ascii.eqb c "\" then
        match p' with
        | EmptyString => false
        | String e p'' =>
            match s with
            | EmptyString => false
            | String d s' => Ascii.eqb e d && like p'' s'
            end
        end
      else
        match s with
        | EmptyString => false
        | String d s' => Ascii.eqb c d && like p' s'
        end
  end.

Fixpoint lower (s : string) : string :=
  match s with
  | EmptyString => EmptyString
  | String c r => String (Js.to_lower c) (lower r)
  end.

(** [ilike(column, pattern)]: [LIKE] up to letter case. *)
Definition ilike (s pattern : string) : bool := like (lower pattern) (lower s).

(** [ilike] on a nullable column: NULL never satisfies the condition. *)
Definition ilike_opt (s : option string) (pattern : string) : bool :=
  match s with
  | Some v => ilike v pattern
  | None => false
  end.

Section Ordering.
Context {A : Type} (key : A -> Z).

Fixpoint insert_desc (x : A) (l : list A) : list A :=
  match l with
  | [] => [x]
  | y :: r => if key y <? key x then x :: l else y :: insert_desc x r
  end.

(** [ORDER BY key DESC]; rows with equal keys keep their table order. *)
Definition orderBy_desc (l : list A) : list A :=
  fold_right insert_desc [] l.

Fixpoint insert_asc (x : A) (l : list A) : list A :=
  match l with
  | [] => [x]
  | y :: r => if key x <? key y then x :: l else y :: insert_asc x r
  end.

(** [ORDER BY key ASC]. *)
Definition orderBy_asc (l : list A) : list A :=
  fold_right insert_asc [] l.
End Ordering.

(** [findFirst]: the first row of the result, if any. *)
Definition findFirst {A : Type} (where_ : A -> bool) (rows : list A) : option A :=
  hd_error (filter where_ rows).

(** [LIMIT limit OFFSET offset]. *)
Definition limit_offset {A : Type} (limit offset : Z) (rows : list A) : list A :=
  firstn (Z.to_nat limit) (skipn (Z.to_nat offset) rows).

End Sql.

(** ** db/schema: the tables *)

Module Account.
Record row : Type := mk {
  id : Z;
  name : string;
  plan : string;
  isActive : bool
}.
End Account.

Module User.
Record row : Type := mk {
  id : Z;
  accountId : Z;
  email : string;
  name : string;
  passwordHash : option string;
  authProvider : string;
  role : string;
  phone : option string;
  isActive : bool;
  updatedAt : Z
}.
End User.

Module Customer.
Record row : Type := mk {
  id : Z;
  accountId : Z;
  firstName : string;
  lastName : string;
  email : option string;
  postcode : string;
  createdAt : Z
}.
End Customer.

Module Product.
Record row : Type := mk {
  id : Z;
  accountId : Z;
  sku : string;
  name : string;
  manufacturer : option string;
  category : option string;
  description : option string;
  sellPrice : Q;
  stockLevel : Z;
  minStockLevel : Z;
  isActive : bool;
  createdAt : Z
}.
End Product.

Inductive QuoteStatus : Type :=
| draft | sent | viewed | accepted | rejected | expired.

Definition QuoteStatus_eqb (a b : QuoteStatus) : bool :=
  match a, b with
  | draft, draft | sent, sent | viewed, viewed
  | accepted, accepted | rejected, rejected | expired, expired => true
  | _, _ => false
  end.

Module Quote.
Record row : Type := mk {
  id : Z;
  accountId : Z;
  customerId : Z;
  leadId : option Z;
  quoteNumber : string;
  title : option string;
  status : QuoteStatus;
  validUntil : option Z;
  subtotal : Q;
  taxRate : Q;
  taxAmount : Q;
  total : Q;
  depositAmount : option Q;
  notes : option string;
  termsAndConditions : option string;
  createdBy : Z;
  createdAt : Z;
  updatedAt : Z
}.
End Quote.

Module QuoteLine.
Record row : Type := mk {
  id : Z;
  quoteId : Z;
  productId : option Z;
  sortOrder : Z;
  description : string;
  quantity : Z;
  unitPrice : Q;
  discount : Q;
  lineTotal : Q;
  notes : option string
}.
End QuoteLine.

Module Boiler.
Record row : Type := mk {
  id : Z;
  manufacturer : string;
  model : string;
  isActive : bool
}.
End Boiler.

(** The database: the tables and the next value of each [serial] sequence. *)
Record Db : Type := mkDb {
  accounts : list Account.row;
  users : list User.row;
  customers : list Customer.row;
  products : list Product.row;
  quotes : list Quote.row;
  quoteLines : list QuoteLine.row;
  boilerSpecifications : list Boiler.row;
  next_account : Z;
  next_user : Z;
  next_customer : Z;
  next_product : Z;
  next_quote : Z;
  next_quoteLine : Z;
  next_boiler : Z
}.

(** The caller's identity, as the auth middleware stores it in the context. *)
Record JwtPayload : Type := mkJwtPayload {
  userId : Z;
  accountId : Z;
  email : string;
  role : string
}.

(** What a request reads from the clock: [new Date()] / [defaultNow()] as a
    timestamp, and [new Date().getFullYear()]. *)
Record Clock : Type := mkClock {
  now : Z;
  year : N
}.

(** [requireAccountAccess(c)] once the auth middleware has set the user. *)
Definition requireAccountAccess (user : JwtPayload) : Z := accountId user.

(** ** shared/validation: the zod schemas and the validated inputs *)

Module QuoteLineInput.
Record t : Type := mk {
  productId : option Z;
  description : string;
  quantity : Z;
  unitPrice : Q;
  discount : Q;
  notes : option string
}.
End QuoteLineInput.

Module CreateQuoteInput.
Record t : Type := mk {
  customerId : Z;
  leadId : option Z;
  title : option string;
  validUntil : option Z;
  taxRate : Q;
  depositAmount : option Q;
  notes : option string;
  termsAndConditions : option string;
  lines : list QuoteLineInput.t
}.
End CreateQuoteInput.

Module UpdateQuoteInput.
Record t : Type := mk {
  customerId : option Z;
  leadId : option Z;
  title : option string;
  validUntil : option Z;
  taxRate : option Q;
  depositAmount : option Q;
  notes : option string;
  termsAndConditions : option string;
  lines : option (list QuoteLineInput.t);
  status : option QuoteStatus
}.
End UpdateQuoteInput.

Module QuoteQueryInput.
Record t : Type := mk {
  page : Z;
  pageSize : Z;
  search : option string;
  status : option QuoteStatus;
  customerId : option Z
}.
End QuoteQueryInput.

Module CreateProductInput.
Record t : Type := mk {
  sku : string;
  name : string;
  manufacturer : option string;
  category : option string;
  description : option string;
  sellPrice : Q;
  stockLevel : Z;
  minStockLevel : Z
}.
End CreateProductInput.

Module RegisterInput.
Record t : Type := mk {
  accountName : string;
  email : string;
  name : string;
  password : string
}.
End RegisterInput.

Module CreateUserInput.
Record t : Type := mk {
  email : string;
  name : string;
  password : string;
  role : string;
  phone : option string
}.
End CreateUserInput.

Module CreateBoilerInput.
Record t : Type := mk {
  manufacturer : string;
  model : string
}.
End CreateBoilerInput.

(** The request bodies before validation: a JSON number is a rational, an
    absent property is [None]. *)
Module RawLine.
Record t : Type := mk {
  productId : option Q;
  description : option string;
  quantity : option Q;
  unitPrice : option Q;
  discount : option Q;
  notes : option string
}.
End RawLine.

Module RawQuoteBody.
Record t : Type := mk {
  customerId : option Q;
  leadId : option Q;
  title : option string;
  validUntil : option Z;
  taxRate : option Q;
  depositAmount : option Q;
  notes : option string;
  termsAndConditions : option string;
  lines : option (list RawLine.t);
  status : option string
}.
End RawQuoteBody.

Module RawPagination.
Record t : Type := mk {
  page : option Z;
  pageSize : option Z
}.
End RawPagination.

Module Validation.








(** [schema.default(d)]: an absent value is replaced by [d], which is not
    validated again. *)
Definition default {A B : Type} (schema : A -> option B) (d : B) (x : option A)
  : option B :=
  match x with
  | None => Some d
  | Some v => schema v
  end.


Definition obind {A B : Type} (x : option A) (k : A -> option B) : option B :=
  match x with
  | Some a => k a
  | None => None
  end.

Notation "x <-? r ;; k" := (obind r (fun x => k))
  (at level 61, r at next level, right associativity).







(** [paginationSchema]: [page] an integer at least 1 (default 1), [pageSize]
    an integer from 1 to 100 (default 20).  The coercion of the query strings
    to numbers has already happened. *)
Definition paginationSchema (raw : RawPagination.t) : option (Z * Z) :=
  page <-? default (fun n => if 1 <=? n then Some n else None) 1
             (RawPagination.page raw) ;;
  pageSize <-? default (fun n => if (1 <=? n) && (n <=? 100) then Some n else None) 20
             (RawPagination.pageSize raw) ;;
  Some (page, pageSize).


End Validation.

(** ** routes/quotes.ts *)

Module Quotes.

Import Errors.

(** A line as [calculateQuoteTotals] sees it. *)
Definition amounts (line : QuoteLineInput.t) : Totals.LineAmounts :=
  Totals.mkLineAmounts (inject_Z (QuoteLineInput.quantity line))
    (QuoteLineInput.unitPrice line) (QuoteLineInput.discount line).

(** The pattern [`QUO-${year}-%`]. *)
Definition year_pattern (year : N) : string :=
  ("QUO-" ++ Js.toString year ++ "-%")%string.

(** The regular expression [/QUO-\d+-(\d+)/] tried at the start of [s]: the
    text of its group.  Digits and ["-"] are disjoint, so the greedy choice
    of each [\d+] is the only one that can succeed. *)
Definition match_here (s : string) : option string :=
  match Js.strip_prefix "QUO-" s with
  | None => None
  | Some r =>
      match Js.span_digits r with
      | (EmptyString, _) => None
      | (_, String c r2) =>
          if Ascii.eqb c "-" then
            match Js.span_digits r2 with
            | (EmptyString, _) => None
            | (group, _) => Some group
            end
          else None
      | (_, EmptyString) => None
      end
  end.

(** [s.match(/QUO-\d+-(\d+)/)]: group 1 of the leftmost match. *)
Fixpoint match_quote_number (s : string) : option string :=
  match match_here s with
  | Some group => Some group
  | None =>
      match s with
      | EmptyString => None
      | String _ s' => match_quote_number s'
      end
  end.

(** The [where] of [generateQuoteNumber]. *)
Definition in_year (year : N) (accountId : Z) (q : Quote.row) : bool :=
  (Quote.accountId q =? accountId)
  && Sql.ilike (Quote.quoteNumber q) (year_pattern year).

(** The quote [generateQuoteNumber] reads: the most recently created one of
    the account whose number matches the year. *)
Definition latestQuote (db : Db) (year : N) (accountId : Z) : option Quote.row :=
  hd_error (Sql.orderBy_desc Quote.createdAt
              (filter (in_year year accountId) (quotes db))).

(** [nextNumber.toString()]; [None] from [parseInt] is NaN. *)
Definition nextNumber_toString (latest : option Quote.row) : string :=
  match latest with
  | None => Js.toString 1
  | Some q =>
      match Quote.quoteNumber q with
      | EmptyString => Js.toString 1
      | number =>
          match match_quote_number number with
          | None => Js.toString 1
          | Some group =>
              match Js.parseInt group with
              | Some n => Js.toString (n + 1)
              | None => "NaN"
              end
          end
      end
  end.

Definition generateQuoteNumber (db : Db) (year : N) (accountId : Z) : string :=
  ("QUO-" ++ Js.toString year ++ "-"
   ++ Js.padStart 3 "0" (nextNumber_toString (latestQuote db year accountId)))%string.

(** [insert(quotes)]: the row takes the next id of the sequence; the insert
    fails when [quote_number] is already in the table, in any account. *)
Definition insert_quote (db : Db) (q : Quote.row) : Result Db :=
  if existsb (fun r => String.eqb (Quote.quoteNumber r) (Quote.quoteNumber q)) (quotes db)
  then Throw (Driver "duplicate key value violates unique constraint quotes_quote_number_unique")
  else Ok (mkDb (accounts db) (users db) (customers db) (products db)
             (quotes db ++ [q]) (quoteLines db) (boilerSpecifications db)
             (next_account db) (next_user db) (next_customer db) (next_product db)
             (next_quote db + 1) (next_quoteLine db) (next_boiler db)).

Definition set_quotes_and_lines (db : Db) (qs : list Quote.row)
    (ls : list QuoteLine.row) (next_line : Z) : Db :=
  mkDb (accounts db) (users db) (customers db) (products db)
    qs ls (boilerSpecifications db)
    (next_account db) (next_user db) (next_customer db) (next_product db)
    (next_quote db) next_line (next_boiler db).

(** The rows of [data.lines.map((line, index) => insert(quoteLines).values({...}))],
    numbered from [firstId], with [sortOrder] from [index]. *)
Fixpoint new_lines (quoteId firstId index : Z) (lines : list QuoteLineInput.t)
  : list QuoteLine.row :=
  match lines with
  | [] => []
  | line :: rest =>
      QuoteLine.mk firstId quoteId
        (QuoteLineInput.productId line)
        index
        (QuoteLineInput.description line)
        (QuoteLineInput.quantity line)
        (QuoteLineInput.unitPrice line)
        (Js.or_num (QuoteLineInput.discount line) 0)
        (inject_Z (QuoteLineInput.quantity line) * QuoteLineInput.unitPrice line
           - Js.or_num (QuoteLineInput.discount line) 0)%Q
        (QuoteLineInput.notes line)
      :: new_lines quoteId (firstId + 1) (index + 1) rest
  end.

Definition insert_lines (db : Db) (rows : list QuoteLine.row) : Db :=
  set_quotes_and_lines db (quotes db) (quoteLines db ++ rows)
    (next_quoteLine db + Z.of_nat (List.length rows)).

(** The lines of a quote (the [lines] relation). *)
Definition lines_of (db : Db) (quoteId : Z) : list QuoteLine.row :=
  filter (fun l => QuoteLine.quoteId l =? quoteId) (quoteLines db).

(** A quote with its lines, as the handlers return it. *)
Record QuoteWithLines : Type := mkQuoteWithLines {
  quote : Quote.row;
  lines : list QuoteLine.row
}.

(** [findFirst({ where: eq(quotes.id, id), with: { lines } })]. *)
Definition fetch (db : Db) (id : Z) : option QuoteWithLines :=
  option_map (fun q => mkQuoteWithLines q (lines_of db id))
    (Sql.findFirst (fun q => Quote.id q =? id) (quotes db)).

(** The same with [orderBy: asc(quoteLines.sortOrder)] on the lines. *)
Definition fetch_sorted (db : Db) (id : Z) : option QuoteWithLines :=
  option_map (fun q => mkQuoteWithLines q
                         (Sql.orderBy_asc QuoteLine.sortOrder (lines_of db id)))
    (Sql.findFirst (fun q => Quote.id q =? id) (quotes db)).

(** The [where] shared by the item routes: the id, in the caller's account. *)
Definition owned (id accountId : Z) (q : Quote.row) : bool :=
  (Quote.id q =? id) && (Quote.accountId q =? accountId).

(** The row [POST /api/quotes] inserts; [status] takes the column default. *)
Definition new_quote (db : Db) (clock : Clock) (user : JwtPayload)
    (data : CreateQuoteInput.t) : Quote.row :=
  let accountId := requireAccountAccess user in
  let totals :=
    Totals.calculateQuoteTotals (map amounts (CreateQuoteInput.lines data))
      (Js.or_num (CreateQuoteInput.taxRate data) 20) in
  let quoteNumber := generateQuoteNumber db (year clock) accountId in
  Quote.mk (next_quote db) accountId
    (CreateQuoteInput.customerId data)
    (CreateQuoteInput.leadId data)
    quoteNumber
    (CreateQuoteInput.title data)
    draft
    (CreateQuoteInput.validUntil data)
    (Totals.subtotal totals)
    (Js.or_num (CreateQuoteInput.taxRate data) 20)
    (Totals.taxAmount totals)
    (Totals.total totals)
    (CreateQuoteInput.depositAmount data)
    (CreateQuoteInput.notes data)
    (CreateQuoteInput.termsAndConditions data)
    (userId user) (now clock) (now clock).

(** [POST /api/quotes]. *)
Definition post (db : Db) (clock : Clock) (user : JwtPayload)
    (data : CreateQuoteInput.t) : Result (Db * option QuoteWithLines) :=
  let accountId := requireAccountAccess user in
  match Sql.findFirst
          (fun c => (Customer.id c =? CreateQuoteInput.customerId data)
                    && (Customer.accountId c =? accountId))
          (customers db) with
  | None => Throw (App (new_NotFoundError "Customer not found"))
  | Some _ =>
      let quote := new_quote db clock user data in
      db1 <- insert_quote db quote ;;
      let db2 :=
        insert_lines db1
          (new_lines (Quote.id quote) (next_quoteLine db1) 0
             (CreateQuoteInput.lines data)) in
      Ok (db2, fetch db2 (Quote.id quote))
  end.


(** [GET /api/quotes/:id]. *)
Definition get_by_id (db : Db) (user : JwtPayload) (id : Z) : Result QuoteWithLines :=
  let accountId := requireAccountAccess user in
  match Sql.findFirst (owned id accountId) (quotes db) with
  | None => Throw (App (new_NotFoundError "Quote not found"))
  | Some q =>
      Ok (mkQuoteWithLines q (Sql.orderBy_asc QuoteLine.sortOrder (lines_of db id)))
  end.

(** [.set(updateData)]: a property that is [undefined] leaves its column. *)
Definition set_opt {A : Type} (new : option A) (old : option A) : option A :=
  match new with
  | Some v => Some v
  | None => old
  end.

Definition set_val {A : Type} (new : option A) (old : A) : A :=
  match new with
  | Some v => v
  | None => old
  end.

(** The row [update(quotes).set(updateData)] writes over [q]; [totals] is
    present when the request carried lines. *)
Definition updated_row (clock : Clock) (data : UpdateQuoteInput.t)
    (totals : option Totals.QuoteTotals) (q : Quote.row) : Quote.row :=
  Quote.mk (Quote.id q) (Quote.accountId q) (Quote.customerId q) (Quote.leadId q)
    (Quote.quoteNumber q)
    (set_opt (UpdateQuoteInput.title data) (Quote.title q))
    (set_val (UpdateQuoteInput.status data) (Quote.status q))
    (set_opt (UpdateQuoteInput.validUntil data) (Quote.validUntil q))
    (set_val (option_map Totals.subtotal totals) (Quote.subtotal q))
    (set_val (UpdateQuoteInput.taxRate data) (Quote.taxRate q))
    (set_val (option_map Totals.taxAmount totals) (Quote.taxAmount q))
    (set_val (option_map Totals.total totals) (Quote.total q))
    (set_opt (UpdateQuoteInput.depositAmount data) (Quote.depositAmount q))
    (set_opt (UpdateQuoteInput.notes data) (Quote.notes q))
    (set_opt (UpdateQuoteInput.termsAndConditions data) (Quote.termsAndConditions q))
    (Quote.createdBy q) (Quote.createdAt q) (now clock).

(** [PUT /api/quotes/:id]. *)
Definition put (db : Db) (clock : Clock) (user : JwtPayload) (id : Z)
    (data : UpdateQuoteInput.t) : Result (Db * option QuoteWithLines) :=
  let accountId := requireAccountAccess user in
  match Sql.findFirst (owned id accountId) (quotes db) with
  | None => Throw (App (new_NotFoundError "Quote not found"))
  | Some existing =>
      let '(totals, db1) :=
        match UpdateQuoteInput.lines data with
        | Some lines =>
            let totals :=
              Totals.calculateQuoteTotals (map amounts lines)
                (Js.or_opt_num (UpdateQuoteInput.taxRate data) (Quote.taxRate existing)) in
            let kept :=
              filter (fun l => negb (QuoteLine.quoteId l =? id)) (quoteLines db) in
            let rows := new_lines id (next_quoteLine db) 0 lines in
            (Some totals,
             set_quotes_and_lines db (quotes db) (kept ++ rows)
               (next_quoteLine db + Z.of_nat (List.length rows)))
        | None => (None, db)
        end in
      let db2 :=
        set_quotes_and_lines db1
          (map (fun q => if Quote.id q =? id then updated_row clock data totals q else q)
             (quotes db1))
          (quoteLines db1) (next_quoteLine db1) in
      Ok (db2, fetch_sorted db2 id)
  end.

(** [POST /api/quotes/:id/duplicate]. *)
Definition copied_line (quoteId lineId : Z) (line : QuoteLine.row) : QuoteLine.row :=
  QuoteLine.mk lineId quoteId
    (QuoteLine.productId line) (QuoteLine.sortOrder line)
    (QuoteLine.description line) (QuoteLine.quantity line)
    (QuoteLine.unitPrice line) (QuoteLine.discount line)
    (QuoteLine.lineTotal line) (QuoteLine.notes line).

Fixpoint copied_lines (quoteId firstId : Z) (lines : list QuoteLine.row)
  : list QuoteLine.row :=
  match lines with
  | [] => []
  | line :: rest =>
      copied_line quoteId firstId line :: copied_lines quoteId (firstId + 1) rest
  end.

(** [`${original.title} (Copy)`]: a null title prints as ["null"]. *)
Definition copy_title (title : option string) : string :=
  (match title with Some t => t | None => "null" end ++ " (Copy)")%string.

(** The row [POST /api/quotes/:id/duplicate] inserts for [original]. *)
Definition duplicated_quote (db : Db) (clock : Clock) (user : JwtPayload)
    (original : Quote.row) : Quote.row :=
  let accountId := requireAccountAccess user in
  let quoteNumber := generateQuoteNumber db (year clock) accountId in
  Quote.mk (next_quote db) accountId
    (Quote.customerId original) (Quote.leadId original)
    quoteNumber
    (Some (copy_title (Quote.title original)))
    draft
    (Quote.validUntil original)
    (Quote.subtotal original) (Quote.taxRate original)
    (Quote.taxAmount original) (Quote.total original)
    (Quote.depositAmount original) (Quote.notes original)
    (Quote.termsAndConditions original)
    (userId user) (now clock) (now clock).

Definition duplicate (db : Db) (clock : Clock) (user : JwtPayload) (id : Z)
  : Result (Db * option QuoteWithLines) :=
  let accountId := requireAccountAccess user in
  match Sql.findFirst (owned id accountId) (quotes db) with
  | None => Throw (App (new_NotFoundError "Quote not found"))
  | Some original =>
      let original_lines := lines_of db id in
      let newQuote := duplicated_quote db clock user original in
      db1 <- insert_quote db newQuote ;;
      let db2 :=
        insert_lines db1
          (copied_lines (Quote.id newQuote) (next_quoteLine db1) original_lines) in
      Ok (db2, fetch db2 (Quote.id newQuote))
  end.

(** The conditions of [GET /api/quotes]: [if (search)] skips an empty
    string, [if (customerId)] a missing one. *)
Definition list_where (accountId : Z) (query : QuoteQueryInput.t) (q : Quote.row) : bool :=
  (Quote.accountId q =? accountId)
  && match QuoteQueryInput.search query with
     | None | Some EmptyString => true
     | Some search =>
         let pattern := ("%" ++ search ++ "%")%string in
         Sql.ilike (Quote.quoteNumber q) pattern
         || Sql.ilike_opt (Quote.title q) pattern
         || Sql.ilike_opt (Quote.notes q) pattern
     end
  && match QuoteQueryInput.status query with
     | None => true
     | Some status => QuoteStatus_eqb (Quote.status q) status
     end
  && match QuoteQueryInput.customerId query with
     | None => true
     | Some c => Quote.customerId q =? c
     end.

Record Pagination : Type := mkPagination {
  page : Z;
  pageSize : Z;
  total : Z;
  totalPages : Z
}.

Record ListResponse : Type := mkListResponse {
  data : list Quote.row;
  pagination : Pagination
}.

(** [Math.ceil(count / pageSize)]. *)
Definition Math_ceil_div (count pageSize : Z) : Z :=
  Qceiling (inject_Z count / inject_Z pageSize).

(** [GET /api/quotes]. *)
Definition list_page (db : Db) (user : JwtPayload) (query : QuoteQueryInput.t) : ListResponse :=
  let accountId := requireAccountAccess user in
  let page := QuoteQueryInput.page query in
  let pageSize := QuoteQueryInput.pageSize query in
  let offset := (page - 1) * pageSize in
  let matching := filter (list_where accountId query) (quotes db) in
  let count := Z.of_nat (List.length matching) in
  let results :=
    Sql.limit_offset pageSize offset (Sql.orderBy_desc Quote.createdAt matching) in
  mkListResponse results
    (mkPagination page pageSize count (Math_ceil_div count pageSize)).

End Quotes.

(** ** routes/customers.ts *)

Module Customers.

Import Errors.

(** [GET /api/customers/:id]. *)
Definition get_by_id (db : Db) (user : JwtPayload) (id : Z) : Result Customer.row :=
  let accountId := requireAccountAccess user in
  match Sql.findFirst
          (fun c => (Customer.id c =? id) && (Customer.accountId c =? accountId))
          (customers db) with
  | None => Throw (App (new_NotFoundError "Customer not found"))
  | Some customer => Ok customer
  end.

End Customers.

(** ** routes/products.ts *)

Module Products.

Import Errors.

(** [GET /api/products/:id]. *)
Definition get_by_id (db : Db) (user : JwtPayload) (id : Z) : Result Product.row :=
  let accountId := requireAccountAccess user in
  match Sql.findFirst
          (fun p => (Product.id p =? id) && (Product.accountId p =? accountId))
          (products db) with
  | None => Throw (App (new_NotFoundError "Product not found"))
  | Some product => Ok product
  end.

(** [insert(products)]: [sku] is declared [unique()] on the column, so the
    insert fails when the SKU is in the table under any account. *)
Definition insert_product (db : Db) (p : Product.row) : Result Db :=
  if existsb (fun r => String.eqb (Product.sku r) (Product.sku p)) (products db)
  then Throw (Driver "duplicate key value violates unique constraint products_sku_unique")
  else Ok (mkDb (accounts db) (users db) (customers db) (products db ++ [p])
             (quotes db) (quoteLines db) (boilerSpecifications db)
             (next_account db) (next_user db) (next_customer db)
             (next_product db + 1)
             (next_quote db) (next_quoteLine db) (next_boiler db)).

(** [POST /api/products]. *)
Definition post (db : Db) (clock : Clock) (user : JwtPayload)
    (data : CreateProductInput.t) : Result (Db * Product.row) :=
  let accountId := requireAccountAccess user in
  match Sql.findFirst
          (fun p => String.eqb (Product.sku p) (CreateProductInput.sku data)
                    && (Product.accountId p =? accountId))
          (products db) with
  | Some _ => Throw (App (new_ConflictError "Product with this SKU already exists"))
  | None =>
      let product :=
        Product.mk (next_product db) accountId
          (CreateProductInput.sku data) (CreateProductInput.name data)
          (CreateProductInput.manufacturer data) (CreateProductInput.category data)
          (CreateProductInput.description data) (CreateProductInput.sellPrice data)
          (CreateProductInput.stockLevel data) (CreateProductInput.minStockLevel data)
          true (now clock) in
      db1 <- insert_product db product ;;
      Ok (db1, product)
  end.

End Products.

(** ** routes/auth.ts and routes/users.ts *)

Module Users.

Import Errors.

(** [insert(users)]: [email] is declared [unique()]. *)
Definition insert_user (db : Db) (u : User.row) : Result Db :=
  if existsb (fun r => String.eqb (User.email r) (User.email u)) (users db)
  then Throw (Driver "duplicate key value violates unique constraint users_email_unique")
  else Ok (mkDb (accounts db) (users db ++ [u]) (customers db) (products db)
             (quotes db) (quoteLines db) (boilerSpecifications db)
             (next_account db) (next_user db + 1) (next_customer db)
             (next_product db)
             (next_quote db) (next_quoteLine db) (next_boiler db)).

Definition insert_account (db : Db) (a : Account.row) : Db :=
  mkDb (accounts db ++ [a]) (users db) (customers db) (products db)
    (quotes db) (quoteLines db) (boilerSpecifications db)
    (next_account db + 1) (next_user db) (next_customer db) (next_product db)
    (next_quote db) (next_quoteLine db) (next_boiler db).

Definition set_users (db : Db) (us : list User.row) : Db :=
  mkDb (accounts db) us (customers db) (products db)
    (quotes db) (quoteLines db) (boilerSpecifications db)
    (next_account db) (next_user db) (next_customer db) (next_product db)
    (next_quote db) (next_quoteLine db) (next_boiler db).

(** [POST /api/auth/register]; [passwordHash] is the result of
    [bcrypt.hash(data.password, 12)]. *)
Definition register (db : Db) (clock : Clock) (data : RegisterInput.t)
    (passwordHash : string) : Result (Db * User.row) :=
  match Sql.findFirst
          (fun u => String.eqb (User.email u) (RegisterInput.email data))
          (users db) with
  | Some _ => Throw (App (new_ConflictError "User with this email already exists"))
  | None =>
      let account :=
        Account.mk (next_account db) (RegisterInput.accountName data) "free" true in
      let db1 := insert_account db account in
      let user :=
        User.mk (next_user db1) (Account.id account)
          (RegisterInput.email data) (RegisterInput.name data)
          (Some passwordHash) "local" "admin" None true (now clock) in
      db2 <- insert_user db1 user ;;
      Ok (db2, user)
  end.

(** [user.id] as the users routes read it: the payload the auth middleware
    stores has [userId] and no [id] property. *)
Definition payload_id (user : JwtPayload) : option Z := None.

(** [POST /api/users] (create team member); [passwordHash] is the result of
    [bcrypt.hash(data.password, 10)].  The route calls
    [new AppError(text, status)] on a constructor declared
    [(statusCode, message, details)]. *)
Definition post (db : Db) (clock : Clock) (user : JwtPayload)
    (data : CreateUserInput.t) (passwordHash : string) : Result (Db * User.row) :=
  if negb (String.eqb (role user) "admin")
  then Throw (App (new_AppError (Js.Str "Only admins can create users") (Js.Num 403)
                     Js.Undefined))
  else
    match filter (fun u => String.eqb (User.email u) (CreateUserInput.email data))
            (users db) with
    | _ :: _ =>
        Throw (App (new_AppError (Js.Str "Email already in use") (Js.Num 400)
                      Js.Undefined))
    | [] =>
        let newUser :=
          User.mk (next_user db) (accountId user)
            (CreateUserInput.email data) (CreateUserInput.name data)
            (Some passwordHash) "local" (CreateUserInput.role data)
            (CreateUserInput.phone data) true (now clock) in
        db1 <- insert_user db newUser ;;
        Ok (db1, newUser)
    end.

(** [DELETE /api/users/:id] (deactivate team member). *)
Definition delete (db : Db) (clock : Clock) (user : JwtPayload) (id : Z)
  : Result (Db * string) :=
  if negb (String.eqb (role user) "admin")
  then Throw (App (new_AppError (Js.Str "Only admins can deactivate users") (Js.Num 403)
                     Js.Undefined))
  else
    let is_self :=
      match payload_id user with
      | Some self => id =? self
      | None => false
      end in
    if is_self
    then Throw (App (new_AppError (Js.Str "Cannot deactivate your own account")
                       (Js.Num 400) Js.Undefined))
    else
      let target u := (User.id u =? id) && (User.accountId u =? accountId user) in
      match filter target (users db) with
      | [] => Throw (App (new_AppError (Js.Str "User not found") (Js.Num 404)
                            Js.Undefined))
      | _ :: _ =>
          let deactivate u :=
            if target u
            then User.mk (User.id u) (User.accountId u) (User.email u) (User.name u)
                   (User.passwordHash u) (User.authProvider u) (User.role u)
                   (User.phone u) false (now clock)
            else u in
          Ok (set_users db (map deactivate (users db)),
              "User deactivated successfully")
      end.

End Users.

(** ** routes/boilers.ts *)

Module Boilers.

Import Errors.

(** [POST /api/boilers] (create boiler specification). *)
Definition post (db : Db) (user : JwtPayload) (data : CreateBoilerInput.t)
  : Result (Db * Boiler.row) :=
  if negb (String.eqb (role user) "admin")
  then Throw (App (new_AppError (Js.Str "Unauthorized") (Js.Num 403) Js.Undefined))
  else
    let boiler :=
      Boiler.mk (next_boiler db) (CreateBoilerInput.manufacturer data)
        (CreateBoilerInput.model data) true in
    Ok (mkDb (accounts db) (users db) (customers db) (products db)
          (quotes db) (quoteLines db) (boilerSpecifications db ++ [boiler])
          (next_account db) (next_user db) (next_customer db) (next_product db)
          (next_quote db) (next_quoteLine db) (next_boiler db + 1),
        boiler).

End Boilers.

(** ** Vocabulary of the statements *)

(** A string of decimal digits. *)
Fixpoint all_digits (s : string) : bool :=
  match s with
  | EmptyString => true
  | String c r => Js.is_digit c && all_digits r
  end.

(** A character that stands for itself in a [LIKE] pattern. *)
Definition plain (c : ascii) : bool :=
  negb (Ascii.eqb c "%") && negb (Ascii.eqb c "_") && negb (Ascii.eqb c "\").

Fixpoint plain_string (s : string) : bool :=
  match s with
  | EmptyString => true
  | String c r => plain c && plain_string r
  end.

(** [QUO-<year>-<seq zero-padded to 3 digits>]. *)
Definition quote_number (year seq : N) : string :=
  ("QUO-" ++ Js.toString year ++ "-" ++ Js.padStart 3 "0" (Js.toString seq))%string.


(** The primary keys of the tenant-scoped tables read by id. *)
Definition primary_keys (db : Db) : Prop :=
  NoDup (map Customer.id (customers db))
  /\ NoDup (map Quote.id (quotes db))
  /\ NoDup (map Product.id (products db)).

(** The ids in use are below the next value of the quotes sequence, and
    every line belongs to a quote id already handed out. *)
Definition serials_fresh (db : Db) : Prop :=
  (forall q, In q (quotes db) -> Quote.id q < next_quote db)
  /\ (forall l, In l (quoteLines db) -> QuoteLine.quoteId l < next_quote db).



(** The two routes that create a quote. *)
Inductive creation : Type :=
| ByPost (data : CreateQuoteInput.t)
| ByDuplicate (id : Z).

Definition create_one (db : Db) (clock : Clock) (user : JwtPayload) (c : creation)
  : Result (Db * option Quotes.QuoteWithLines) :=
  match c with
  | ByPost data => Quotes.post db clock user data
  | ByDuplicate id => Quotes.duplicate db clock user id
  end.



(** A stored line as the totals equation reads it. *)
Definition row_amounts (l : QuoteLine.row) : Totals.LineAmounts :=
  Totals.mkLineAmounts (inject_Z (QuoteLine.quantity l)) (QuoteLine.unitPrice l)
    (QuoteLine.discount l).

(** The stored totals of [q] agree with the stored lines [ls] and the stored
    tax rate. *)
Definition totals_consistent (q : Quote.row) (ls : list QuoteLine.row) : Prop :=
  (Quote.subtotal q == Totals.sum_of_line_totals (map row_amounts ls)
   /\ Quote.taxAmount q == Quote.subtotal q * Quote.taxRate q / 100
   /\ Quote.total q == Quote.subtotal q + Quote.taxAmount q)%Q.

(** Every quote of the database agrees with its lines. *)
Definition quotes_consistent (db : Db) : Prop :=
  forall q, In q (quotes db) -> totals_consistent q (Quotes.lines_of db (Quote.id q)).

(** The totals an update computes when it carries lines. *)
Definition update_totals (data : UpdateQuoteInput.t) (existing : Quote.row)
  : option Totals.QuoteTotals :=
  option_map
    (fun lines =>
       Totals.calculateQuoteTotals (map Quotes.amounts lines)
         (Js.or_opt_num (UpdateQuoteInput.taxRate data) (Quote.taxRate existing)))
    (UpdateQuoteInput.lines data).


(** What [duplicate] copies from a line. *)
Definition line_content (l : QuoteLine.row)
  : option Z * Z * string * Z * Q * Q * Q * option string :=
  (QuoteLine.productId l, QuoteLine.sortOrder l, QuoteLine.description l,
   QuoteLine.quantity l, QuoteLine.unitPrice l, QuoteLine.discount l,
   QuoteLine.lineTotal l, QuoteLine.notes l).

(** The object the boilers route throws at a caller who is not an admin:
    [new AppError('Unauthorized', 403)]. *)
Definition boilers_rejection : Errors.AppError :=
  Errors.new_AppError (Js.Str "Unauthorized") (Js.Num 403) Js.Undefined.

(** The object the deactivate-user route throws at a caller who is not an
    admin: [new AppError('Only admins can deactivate users', 403)]. *)
Definition deactivate_rejection : Errors.AppError :=
  Errors.new_AppError (Js.Str "Only admins can deactivate users") (Js.Num 403)
    Js.Undefined.

(** The object the create-team-member route throws when the e-mail address
    is taken: [new AppError('Email already in use', 400)]. *)
Definition email_in_use : Errors.AppError :=
  Errors.new_AppError (Js.Str "Email already in use") (Js.Num 400) Js.Undefined.

(** ** A small database used to exercise the handlers

    Two accounts.  Account 1 has an admin (alice), a surveyor (bob), a
    customer, the product [X1] and the quote [QUO-2026-001] with one line;
    account 2 has an admin (carol) and a customer. *)

Module Demo.

Definition alice : JwtPayload := mkJwtPayload 1 1 "alice@one.example" "admin".
Definition bob : JwtPayload := mkJwtPayload 2 1 "bob@one.example" "surveyor".
Definition carol : JwtPayload := mkJwtPayload 3 2 "carol@two.example" "admin".

Definition clock : Clock := mkClock 200 2026.

Definition customer1 : Customer.row :=
  Customer.mk 1 1 "Ada" "Smith" None "AB1 2CD" 10.
Definition customer2 : Customer.row :=
  Customer.mk 2 2 "Bea" "Jones" None "EF3 4GH" 20.

Definition product1 : Product.row :=
  Product.mk 1 1 "X1" "Combi boiler" None None None 1200 5 1 true 30.

Definition quote1 : Quote.row :=
  Quote.mk 1 1 1 None "QUO-2026-001" (Some "Boiler") sent None
    1200 20 240 1440 None None None 1 100 100.

Definition line1 : QuoteLine.row :=
  QuoteLine.mk 1 1 (Some 1) 0 "Boiler" 1 1200 0 1200 None.

Definition db : Db :=
  mkDb
    [Account.mk 1 "One" "free" true; Account.mk 2 "Two" "free" true]
    [User.mk 1 1 "alice@one.example" "Alice" (Some "h1") "local" "admin" None true 1;
     User.mk 2 1 "bob@one.example" "Bob" (Some "h2") "local" "surveyor" None true 2;
     User.mk 3 2 "carol@two.example" "Carol" (Some "h3") "local" "admin" None true 3]
    [customer1; customer2]
    [product1]
    [quote1]
    [line1]
    []
    3 4 3 2 2 2 1.

(** The request body of the create-quote scenario of the specification. *)
Definition boiler_line : QuoteLineInput.t :=
  QuoteLineInput.mk None "Boiler" 1 1200 0 None.

Definition create_quote (taxRate : Q) : CreateQuoteInput.t :=
  CreateQuoteInput.mk 1 None (Some "Boiler") None taxRate None None None [boiler_line].


Definition product_X1 : CreateProductInput.t :=
  CreateProductInput.mk "X1" "Combi boiler" None None None 1200 0 0.

End Demo.

(** * The remaining routes of the cited files

    The routes below write some columns that the rows above do not carry
    (the lifecycle timestamps of a quote, [updated_at] of a product,
    [last_login_at] of a user).  They are kept beside the tables, by primary
    key.  A delete follows the foreign keys that the schema declares among
    the tables held here: [quotes.customer_id] and [quote_lines.quote_id]
    cascade, and [quote_lines.product_id], which has no delete rule, refuses
    the delete of a product that a line refers to.  Inserts are still not
    checked against foreign keys, and foreign keys to or from tables that
    the database record does not hold (leads, appointments, visit sessions)
    are taken not to stand in the way of a delete. *)

Module QuoteStamps.
Record t : Type := mk {
  sentAt : option Z;
  viewedAt : option Z;
  acceptedAt : option Z;
  rejectedAt : option Z
}.

(** The four columns of a quote that no action has touched: all NULL. *)
Definition none : t := mk None None None None.
End QuoteStamps.

Record Store : Type := mkStore {
  base : Db;
  quote_stamps : Z -> QuoteStamps.t;
  product_updatedAt : Z -> option Z;   (* [None]: as set when the row was inserted *)
  user_lastLoginAt : Z -> option Z
}.

(** A database whose rows have only been inserted so far. *)
Definition store_of (db : Db) : Store :=
  mkStore db (fun _ => QuoteStamps.none) (fun _ => None) (fun _ => None).

(** [f] with its value at [k] replaced. *)
Definition upd {A : Type} (f : Z -> A) (k : Z) (v : A) : Z -> A :=
  fun i => if i =? k then v else f i.

(** ** routes/quotes.ts: delete and the status actions *)

Module QuoteActions.

Import Errors.

(** [DELETE /api/quotes/:id]; the lines go with the quote
    ([onDelete: 'cascade'] on [quote_lines.quote_id]). *)
Definition delete (db : Db) (user : JwtPayload) (id : Z) : Result (Db * string) :=
  let accountId := requireAccountAccess user in
  match Sql.findFirst (Quotes.owned id accountId) (quotes db) with
  | None => Throw (App (new_NotFoundError "Quote not found"))
  | Some _ =>
      Ok (Quotes.set_quotes_and_lines db
            (filter (fun q => negb (Quote.id q =? id)) (quotes db))
            (filter (fun l => negb (QuoteLine.quoteId l =? id)) (quoteLines db))
            (next_quoteLine db),
          "Quote deleted successfully")
  end.

(** [.set({ status, updatedAt: new Date() })] on a row. *)
Definition set_status (clock : Clock) (status : QuoteStatus) (q : Quote.row) : Quote.row :=
  Quote.mk (Quote.id q) (Quote.accountId q) (Quote.customerId q) (Quote.leadId q)
    (Quote.quoteNumber q) (Quote.title q) status (Quote.validUntil q)
    (Quote.subtotal q) (Quote.taxRate q) (Quote.taxAmount q) (Quote.total q)
    (Quote.depositAmount q) (Quote.notes q) (Quote.termsAndConditions q)
    (Quote.createdBy q) (Quote.createdAt q) (now clock).

(** The shape the three status routes share: look the quote up in the
    caller's account, then [update(quotes).set({ status, <stamp>: new Date(),
    updatedAt: new Date() }).where(eq(quotes.id, id)).returning()]. *)
Definition act (status : QuoteStatus) (stamp : Z -> QuoteStamps.t -> QuoteStamps.t)
    (st : Store) (clock : Clock) (user : JwtPayload) (id : Z)
  : Result (Store * option (Quote.row * QuoteStamps.t)) :=
  let accountId := requireAccountAccess user in
  let db := base st in
  match Sql.findFirst (Quotes.owned id accountId) (quotes db) with
  | None => Throw (App (new_NotFoundError "Quote not found"))
  | Some _ =>
      let rows :=
        map (fun q => if Quote.id q =? id then set_status clock status q else q)
          (quotes db) in
      let stamps := upd (quote_stamps st) id (stamp (now clock) (quote_stamps st id)) in
      let st' :=
        mkStore (Quotes.set_quotes_and_lines db rows (quoteLines db) (next_quoteLine db))
          stamps (product_updatedAt st) (user_lastLoginAt st) in
      Ok (st', option_map (fun q => (q, stamps id))
                 (Sql.findFirst (fun q => Quote.id q =? id) rows))
  end.

(** [POST /api/quotes/:id/send]. *)
Definition send : Store -> Clock -> JwtPayload -> Z
                  -> Result (Store * option (Quote.row * QuoteStamps.t)) :=
  act sent (fun t s => QuoteStamps.mk (Some t) (QuoteStamps.viewedAt s)
                         (QuoteStamps.acceptedAt s) (QuoteStamps.rejectedAt s)).

(** [POST /api/quotes/:id/accept]. *)
Definition accept : Store -> Clock -> JwtPayload -> Z
                    -> Result (Store * option (Quote.row * QuoteStamps.t)) :=
  act accepted (fun t s => QuoteStamps.mk (QuoteStamps.sentAt s) (QuoteStamps.viewedAt s)
                             (Some t) (QuoteStamps.rejectedAt s)).

(** [POST /api/quotes/:id/reject]. *)
Definition reject : Store -> Clock -> JwtPayload -> Z
                    -> Result (Store * option (Quote.row * QuoteStamps.t)) :=
  act rejected (fun t s => QuoteStamps.mk (QuoteStamps.sentAt s) (QuoteStamps.viewedAt s)
                             (QuoteStamps.acceptedAt s) (Some t)).


End QuoteActions.

(** ** routes/customers.ts: delete and the quotes of a customer *)

Module CustomerRoutes.

Import Errors.

Definition owned (id accountId : Z) (c : Customer.row) : bool :=
  (Customer.id c =? id) && (Customer.accountId c =? accountId).

(** [DELETE /api/customers/:id]; the customer's quotes go with it
    ([onDelete: 'cascade'] on [quotes.customer_id]) and their lines with
    them. *)
Definition delete (db : Db) (user : JwtPayload) (id : Z) : Result (Db * string) :=
  let accountId := requireAccountAccess user in
  match Sql.findFirst (owned id accountId) (customers db) with
  | None => Throw (App (new_NotFoundError "Customer not found"))
  | Some _ =>
      let gone q := Quote.customerId q =? id in
      let gone_ids := map Quote.id (filter gone (quotes db)) in
      Ok (mkDb (accounts db) (users db)
            (filter (fun c => negb (Customer.id c =? id)) (customers db))
            (products db)
            (filter (fun q => negb (gone q)) (quotes db))
            (filter (fun l => negb (existsb (Z.eqb (QuoteLine.quoteId l)) gone_ids))
               (quoteLines db))
            (boilerSpecifications db)
            (next_account db) (next_user db) (next_customer db) (next_product db)
            (next_quote db) (next_quoteLine db) (next_boiler db),
          "Customer deleted successfully")
  end.

(** [GET /api/customers/:id/quotes]: the [quotes] relation of the customer,
    latest first. *)
Definition quotes_of (db : Db) (user : JwtPayload) (id : Z) : Result (list Quote.row) :=
  let accountId := requireAccountAccess user in
  match Sql.findFirst (owned id accountId) (customers db) with
  | None => Throw (App (new_NotFoundError "Customer not found"))
  | Some _ =>
      Ok (Sql.orderBy_desc Quote.createdAt
            (filter (fun q => Quote.customerId q =? id) (quotes db)))
  end.

End CustomerRoutes.

(** ** routes/products.ts: update and delete *)

Module UpdateProductInput.
Record t : Type := mk {
  sku : option string;
  name : option string;
  manufacturer : option string;
  category : option string;
  description : option string;
  sellPrice : option Q;
  stockLevel : option Z;
  minStockLevel : option Z;
  isActive : option bool
}.
End UpdateProductInput.

Module ProductRoutes.

Import Errors.

Definition owned (id accountId : Z) (p : Product.row) : bool :=
  (Product.id p =? id) && (Product.accountId p =? accountId).

(** [data.sku && data.sku !== existing.sku]. *)
Definition sku_changes (data : UpdateProductInput.t) (existing : Product.row) : option string :=
  match UpdateProductInput.sku data with
  | None | Some EmptyString => None
  | Some s => if String.eqb s (Product.sku existing) then None else Some s
  end.

(** The row [.set({ ...data })] writes over [p]. *)
Definition updated_row (data : UpdateProductInput.t) (p : Product.row) : Product.row :=
  Product.mk (Product.id p) (Product.accountId p)
    (Quotes.set_val (UpdateProductInput.sku data) (Product.sku p))
    (Quotes.set_val (UpdateProductInput.name data) (Product.name p))
    (Quotes.set_opt (UpdateProductInput.manufacturer data) (Product.manufacturer p))
    (Quotes.set_opt (UpdateProductInput.category data) (Product.category p))
    (Quotes.set_opt (UpdateProductInput.description data) (Product.description p))
    (Quotes.set_val (UpdateProductInput.sellPrice data) (Product.sellPrice p))
    (Quotes.set_val (UpdateProductInput.stockLevel data) (Product.stockLevel p))
    (Quotes.set_val (UpdateProductInput.minStockLevel data) (Product.minStockLevel p))
    (Quotes.set_val (UpdateProductInput.isActive data) (Product.isActive p))
    (Product.createdAt p).

(** The UNIQUE constraint on [sku] as an update of row [id] meets it. *)
Definition sku_taken_by_other (db : Db) (id : Z) (sku : string) : bool :=
  existsb (fun r => negb (Product.id r =? id) && String.eqb (Product.sku r) sku)
    (products db).

(** [PUT /api/products/:id]. *)
Definition put (st : Store) (clock : Clock) (user : JwtPayload) (id : Z)
    (data : UpdateProductInput.t) : Result (Store * option Product.row) :=
  let accountId := requireAccountAccess user in
  let db := base st in
  match Sql.findFirst (owned id accountId) (products db) with
  | None => Throw (App (new_NotFoundError "Product not found"))
  | Some existing =>
      let conflict :=
        match sku_changes data existing with
        | None => false
        | Some s =>
            match Sql.findFirst
                    (fun p => String.eqb (Product.sku p) s
                              && (Product.accountId p =? accountId))
                    (products db) with
            | Some _ => true
            | None => false
            end
        end in
      if conflict
      then Throw (App (new_ConflictError "Product with this SKU already exists"))
      else
        let violates :=
          match UpdateProductInput.sku data with
          | Some s => sku_taken_by_other db id s
          | None => false
          end in
        if violates
        then Throw (Driver "duplicate key value violates unique constraint products_sku_unique")
        else
          let rows :=
            map (fun p => if Product.id p =? id then updated_row data p else p)
              (products db) in
          let db' :=
            mkDb (accounts db) (users db) (customers db) rows
              (quotes db) (quoteLines db) (boilerSpecifications db)
              (next_account db) (next_user db) (next_customer db) (next_product db)
              (next_quote db) (next_quoteLine db) (next_boiler db) in
          Ok (mkStore db' (quote_stamps st)
                (upd (product_updatedAt st) id (Some (now clock)))
                (user_lastLoginAt st),
              Sql.findFirst (fun p => Product.id p =? id) rows)
  end.

(** [DELETE /api/products/:id]; [quote_lines.product_id] refers to the
    product without a delete rule, so the delete fails while a line uses
    it. *)
Definition delete (db : Db) (user : JwtPayload) (id : Z) : Result (Db * string) :=
  let accountId := requireAccountAccess user in
  match Sql.findFirst (owned id accountId) (products db) with
  | None => Throw (App (new_NotFoundError "Product not found"))
  | Some _ =>
      if existsb (fun l => match QuoteLine.productId l with
                           | Some p => p =? id
                           | None => false
                           end) (quoteLines db)
      then Throw (Driver "update or delete on table products violates foreign key constraint on table quote_lines")
      else
        Ok (mkDb (accounts db) (users db) (customers db)
              (filter (fun p => negb (Product.id p =? id)) (products db))
              (quotes db) (quoteLines db) (boilerSpecifications db)
              (next_account db) (next_user db) (next_customer db) (next_product db)
              (next_quote db) (next_quoteLine db) (next_boiler db),
            "Product deleted successfully")
  end.

End ProductRoutes.

(** ** middleware/auth.ts *)

Module Middleware.

Import Errors.

(** [authHeader.startsWith('Bearer ')], and [authHeader.substring(7)]. *)
Definition bearer_token (authHeader : string) : option string :=
  Js.strip_prefix "Bearer " authHeader.

(** [authMiddleware]: the token comes from the [Authorization] header when
    that starts with ["Bearer "], otherwise from the [accessToken] cookie; an
    absent or empty token is refused, any other one is handed to
    [verifyAccessToken], whose result or exception is passed on. *)
Definition authMiddleware (verifyAccessToken : string -> Result JwtPayload)
    (authHeader cookie : option string) : Result JwtPayload :=
  let token :=
    match authHeader with
    | Some header =>
        match bearer_token header with
        | Some t => Some t
        | None => cookie
        end
    | None => cookie
    end in
  match token with
  | None | Some EmptyString =>
      Throw (App (new_UnauthorizedError "No authentication token provided"))
  | Some t => verifyAccessToken t
  end.

(** [requireRole(...allowedRoles)] on the user of the context, if any. *)
Definition requireRole (allowedRoles : list string) (user : option JwtPayload)
  : Result unit :=
  match user with
  | None => Throw (App (new_UnauthorizedError "Authentication required"))
  | Some u =>
      if existsb (String.eqb (role u)) allowedRoles
      then Ok tt
      else Throw (App (new_ForbiddenError "Insufficient permissions"))
  end.

End Middleware.

(** ** routes/auth.ts: login, me, refresh *)

Module LoginInput.
Record t : Type := mk {
  email : string;
  password : string
}.
End LoginInput.

Module Auth.

Import Errors.

(** The payload [generateAccessToken(user)] and [generateRefreshToken(user)]
    sign. *)
Definition payload_of (u : User.row) : JwtPayload :=
  mkJwtPayload (User.id u) (User.accountId u) (User.email u) (User.role u).

(** [POST /api/auth/login]; [compare] is [bcrypt.compare].  The answer is
    the user found and the payload signed into the tokens. *)
Definition login (st : Store) (clock : Clock) (compare : string -> string -> bool)
    (data : LoginInput.t) : Result (Store * (User.row * JwtPayload)) :=
  let invalid := Throw (App (new_UnauthorizedError "Invalid email or password")) in
  match Sql.findFirst (fun u => String.eqb (User.email u) (LoginInput.email data))
          (users (base st)) with
  | None => invalid
  | Some user =>
      match User.passwordHash user with
      | None | Some EmptyString => invalid
      | Some hash =>
          if negb (User.isActive user)
          then Throw (App (new_UnauthorizedError "Account is disabled"))
          else if negb (compare (LoginInput.password data) hash)
          then invalid
          else
            Ok (mkStore (base st) (quote_stamps st) (product_updatedAt st)
                  (upd (user_lastLoginAt st) (User.id user) (Some (now clock))),
                (user, payload_of user))
      end
  end.

(** [GET /api/auth/me] for the payload the auth middleware stored. *)
Definition me (db : Db) (jwtUser : JwtPayload) : Result User.row :=
  match Sql.findFirst (fun u => User.id u =? userId jwtUser) (users db) with
  | None => Throw (App (new_UnauthorizedError "User not found or inactive"))
  | Some user =>
      if User.isActive user then Ok user
      else Throw (App (new_UnauthorizedError "User not found or inactive"))
  end.

(** [POST /api/auth/refresh]: the payload signed into the new tokens. *)
Definition refresh (db : Db) (verifyRefreshToken : string -> Result JwtPayload)
    (header : option string) : Result JwtPayload :=
  match header with
  | None | Some EmptyString =>
      Throw (App (new_UnauthorizedError "Refresh token not provided"))
  | Some refreshToken =>
      payload <- verifyRefreshToken refreshToken ;;
      match Sql.findFirst (fun u => User.id u =? userId payload) (users db) with
      | None => Throw (App (new_UnauthorizedError "User not found or inactive"))
      | Some user =>
          if User.isActive user then Ok (payload_of user)
          else Throw (App (new_UnauthorizedError "User not found or inactive"))
      end
  end.

End Auth.

(** ** routes/users.ts: update team member *)

Module UpdateUserInput.
Record t : Type := mk {
  name : option string;
  phone : option string;
  role : option string;
  isActive : option bool
}.
End UpdateUserInput.

Module UserRoutes.

Import Errors.

Definition updated_row (clock : Clock) (data : UpdateUserInput.t) (u : User.row) : User.row :=
  User.mk (User.id u) (User.accountId u) (User.email u)
    (Quotes.set_val (UpdateUserInput.name data) (User.name u))
    (User.passwordHash u) (User.authProvider u)
    (Quotes.set_val (UpdateUserInput.role data) (User.role u))
    (Quotes.set_opt (UpdateUserInput.phone data) (User.phone u))
    (Quotes.set_val (UpdateUserInput.isActive data) (User.isActive u))
    (now clock).

(** [PUT /api/users/:id] (update team member, admin only).  [user] and
    [data] are what the route's [authenticate] and
    [validate(updateUserSchema)] middleware left in the context. *)
Definition put (db : Db) (clock : Clock) (user : JwtPayload) (id : Z)
    (data : UpdateUserInput.t) : Result (Db * User.row) :=
  if negb (String.eqb (role user) "admin")
  then Throw (App (new_AppError (Js.Str "Only admins can update users") (Js.Num 403)
                     Js.Undefined))
  else
    let target u := (User.id u =? id) && (User.accountId u =? accountId user) in
    match filter target (users db) with
    | [] => Throw (App (new_AppError (Js.Str "User not found") (Js.Num 404) Js.Undefined))
    | first :: _ =>
        Ok (Users.set_users db
              (map (fun u => if target u then updated_row clock data u else u) (users db)),
            updated_row clock data first)
    end.

End UserRoutes.

(** ** routes/boilers.ts: get and soft delete *)

Module BoilerRoutes.

Import Errors.

Definition not_found : exn :=
  App (new_AppError (Js.Str "Boiler specification not found") (Js.Num 404) Js.Undefined).

(** [GET /api/boilers/:id]. *)
Definition get_by_id (db : Db) (id : Z) : Result Boiler.row :=
  match filter (fun b => Boiler.id b =? id) (boilerSpecifications db) with
  | [] => Throw not_found
  | boiler :: _ => Ok boiler
  end.

(** [DELETE /api/boilers/:id] (soft delete, admin only). *)
Definition delete (db : Db) (user : JwtPayload) (id : Z) : Result (Db * string) :=
  if negb (String.eqb (role user) "admin")
  then Throw (App (new_AppError (Js.Str "Unauthorized") (Js.Num 403) Js.Undefined))
  else
    match filter (fun b => Boiler.id b =? id) (boilerSpecifications db) with
    | [] => Throw not_found
    | _ :: _ =>
        Ok (mkDb (accounts db) (users db) (customers db) (products db)
              (quotes db) (quoteLines db)
              (map (fun b => if Boiler.id b =? id
                             then Boiler.mk (Boiler.id b) (Boiler.manufacturer b)
                                    (Boiler.model b) false
                             else b) (boilerSpecifications db))
              (next_account db) (next_user db) (next_customer db) (next_product db)
              (next_quote db) (next_quoteLine db) (next_boiler db),
            "Boiler specification deactivated successfully")
    end.

End BoilerRoutes.

(** ** Vocabulary of the further statements *)

(** The fields of a quote that say which quote it is and whose. *)
Definition quote_identity (q : Quote.row)
  : Z * Z * Z * option Z * string * Z * Z :=
  (Quote.id q, Quote.accountId q, Quote.customerId q, Quote.leadId q,
   Quote.quoteNumber q, Quote.createdBy q, Quote.createdAt q).




(** Latest first. *)
Definition latest_first (rows : list Quote.row) : Prop :=
  StronglySorted (fun a b => Quote.createdAt b <= Quote.createdAt a) rows.

(** Every quote belongs to a customer of its own account. *)
Definition quotes_linked (db : Db) : Prop :=
  forall q, In q (quotes db) ->
    exists c, In c (customers db)
              /\ Customer.id c = Quote.customerId q
              /\ Customer.accountId c = Quote.accountId q.






(** [t] occurs in [s] up to letter case: [s] is [a ++ t' ++ b] with [t']
    equal to [t] once both are in lower case. *)
Definition occurs_in (t s : string) : Prop :=
  exists a t' b, s = (a ++ t' ++ b)%string /\ Sql.lower t' = Sql.lower t.

(** The SKUs of the products table are pairwise different. *)
Definition skus_unique (db : Db) : Prop := NoDup (map Product.sku (products db)).

(** The e-mail addresses of the users table are pairwise different. *)
Definition emails_unique (db : Db) : Prop := NoDup (map User.email (users db)).

(** Ids in use are below the next values of the account and user
    sequences, and every tenant row belongs to an account id handed out. *)
Definition accounts_fresh (db : Db) : Prop :=
  (forall u, In u (users db) -> User.id u < next_user db /\ User.accountId u < next_account db)
  /\ (forall q, In q (quotes db) -> Quote.accountId q < next_account db)
  /\ (forall c, In c (customers db) -> Customer.accountId c < next_account db)
  /\ (forall p, In p (products db) -> Product.accountId p < next_account db).

(** ** The demo database with a product of the second account *)

Module Scenario.

Definition product2 : Product.row :=
  Product.mk 2 2 "Y1" "System boiler" None None None 900 1 1 true 40.

Definition db : Db :=
  mkDb (accounts Demo.db) (users Demo.db) (customers Demo.db)
    [Demo.product1; product2]
    (quotes Demo.db) (quoteLines Demo.db) (boilerSpecifications Demo.db)
    (next_account Demo.db) (next_user Demo.db) (next_customer Demo.db) 3
    (next_quote Demo.db) (next_quoteLine Demo.db) (next_boiler Demo.db).

(** An update that changes the SKU and nothing else. *)
Definition rename (sku : string) : UpdateProductInput.t :=
  UpdateProductInput.mk (Some sku) None None None None None None None None.

(** [bcrypt.compare] of a deployment where the hash of [pw<n>] is [h<n>]. *)
Definition compare (password hash : string) : bool :=
  match password, hash with
  | String "p" (String "w" n), String "h" m => String.eqb n m
  | _, _ => false
  end.

(** [verifyRefreshToken] of a deployment that has signed one refresh token,
    for bob; any other string is not a token. *)
Definition verifyRefreshToken (token : string) : Result JwtPayload :=
  if String.eqb token "bob-refresh" then Ok Demo.bob
  else Throw (Errors.App (Errors.new_UnauthorizedError "Invalid refresh token")).

End Scenario.

(** The primary keys of the users table. *)
Definition user_keys (db : Db) : Prop := NoDup (map User.id (users db)).


(** * Properties *)

(** ** Quote totals *)

Section TotalsFacts.
Import Totals.



End TotalsFacts.



(** ** Tenant isolation of the item routes *)

Section FindFirst.
Context {A : Type}.

Lemma findFirst_none (p : A -> bool) (rows : list A) :
  (forall r, In r rows -> p r = false) -> Sql.findFirst p rows = None.
Proof.
  intros H. unfold Sql.findFirst.
  induction rows as [|x rest IH]; simpl; [reflexivity|].
  rewrite (H x (or_introl eq_refl)).
  apply IH. intros r Hr. apply H. right. exact Hr.
Qed.

Lemma findFirst_some (p : A -> bool) (rows : list A) (r : A) :
  Sql.findFirst p rows = Some r -> In r rows /\ p r = true.
Proof.
  unfold Sql.findFirst. intros H.
  assert (Hin : In r (filter p rows)).
  { destruct (filter p rows); simpl in H; [discriminate|].
    injection H as ->. left. reflexivity. }
  apply filter_In in Hin. exact Hin.
Qed.

Lemma findFirst_exists (p : A -> bool) (rows : list A) (r : A) :
  In r rows -> p r = true -> exists r', Sql.findFirst p rows = Some r'.
Proof.
  intros Hin Hp. unfold Sql.findFirst.
  assert (H : In r (filter p rows)) by (apply filter_In; split; assumption).
  destruct (filter p rows) as [|x l]; [contradiction|].
  exists x. reflexivity.
Qed.

(** A primary key: no two rows of the table carry the same id. *)
Lemma primary_key_injective (id : A -> Z) (rows : list A) (x y : A) :
  NoDup (map id rows) -> In x rows -> In y rows -> id x = id y -> x = y.
Proof.
  induction rows as [|z rest IH]; simpl; intros Hnd Hx Hy Heq; [contradiction|].
  inversion Hnd as [|? ? Hnotin Hnd']; subst.
  destruct Hx as [<-|Hx], Hy as [<-|Hy].
  - reflexivity.
  - exfalso. apply Hnotin. rewrite Heq. apply in_map. exact Hy.
  - exfalso. apply Hnotin. rewrite <- Heq. apply in_map. exact Hx.
  - apply IH; assumption.
Qed.

(** The [where] of every item route, [id = :id AND account_id = caller],
    finds nothing when the id is the key of a row of another account. *)
Lemma findFirst_other_account (id acc : A -> Z) (rows : list A) (r : A) (i a : Z) :
  NoDup (map id rows) -> In r rows -> id r = i -> acc r <> a ->
  Sql.findFirst (fun x => (id x =? i) && (acc x =? a)) rows = None.
Proof.
  intros Hnd Hin Hid Hacc. apply findFirst_none. intros x Hx.
  destruct (Z.eqb_spec (id x) i) as [Hxi|]; [|reflexivity].
  assert (x = r) by (apply (primary_key_injective id rows); congruence).
  subst x. simpl. apply Z.eqb_neq. exact Hacc.
Qed.

Lemma findFirst_absent (id acc : A -> Z) (rows : list A) (i a : Z) :
  (forall x, In x rows -> id x <> i) ->
  Sql.findFirst (fun x => (id x =? i) && (acc x =? a)) rows = None.
Proof.
  intros H. apply findFirst_none. intros x Hx.
  specialize (H x Hx). apply Z.eqb_neq in H. rewrite H. reflexivity.
Qed.
End FindFirst.

(** C4. An authenticated get-by-id of a customer, a quote or a product whose
    id is that of a row of another account throws the [NotFoundError] (HTTP
    404) that the same request throws when no row has the id at all: the
    handler returns neither the row nor a 403. *)
Theorem get_by_id_other_account_not_found :
  forall (db : Db) (user : JwtPayload) (id : Z),
    primary_keys db ->
    let not_found what :=
      Errors.App (Errors.new_NotFoundError (what ++ " not found")) in
    ((exists c, In c (customers db) /\ Customer.id c = id
                /\ Customer.accountId c <> accountId user) ->
     Customers.get_by_id db user id = Throw (not_found "Customer"))
    /\ ((exists q, In q (quotes db) /\ Quote.id q = id
                   /\ Quote.accountId q <> accountId user) ->
        Quotes.get_by_id db user id = Throw (not_found "Quote"))
    /\ ((exists p, In p (products db) /\ Product.id p = id
                   /\ Product.accountId p <> accountId user) ->
        Products.get_by_id db user id = Throw (not_found "Product"))
    /\ ((forall c, In c (customers db) -> Customer.id c <> id) ->
        Customers.get_by_id db user id = Throw (not_found "Customer"))
    /\ ((forall q, In q (quotes db) -> Quote.id q <> id) ->
        Quotes.get_by_id db user id = Throw (not_found "Quote"))
    /\ ((forall p, In p (products db) -> Product.id p <> id) ->
        Products.get_by_id db user id = Throw (not_found "Product"))
    /\ (forall what,
          Errors.errorHandler_status (not_found what) = Js.Num 404
          /\ Errors.response_error_kind (not_found what) = Some "NotFoundError").
Proof.
  intros db user id (Hc & Hq & Hp) not_found.
  unfold Customers.get_by_id, Quotes.get_by_id, Products.get_by_id,
    Quotes.owned, requireAccountAccess.
  repeat split.
  - intros (c & Hin & Hid & Hacc).
    rewrite (findFirst_other_account Customer.id Customer.accountId _ c); auto.
  - intros (q & Hin & Hid & Hacc).
    rewrite (findFirst_other_account Quote.id Quote.accountId _ q); auto.
  - intros (p & Hin & Hid & Hacc).
    rewrite (findFirst_other_account Product.id Product.accountId _ p); auto.
  - intros H. rewrite (findFirst_absent Customer.id Customer.accountId); auto.
  - intros H. rewrite (findFirst_absent Quote.id Quote.accountId); auto.
  - intros H. rewrite (findFirst_absent Product.id Product.accountId); auto.
Qed.

Lemma demo_primary_keys : primary_keys Demo.db.
Proof.
  unfold primary_keys; simpl.
  repeat split; repeat constructor; simpl; intuition discriminate.
Qed.

(** Carol, of account 2, asks for customer 1, quote 1 and product 1, which
    all belong to account 1. *)
Lemma get_by_id_other_account_not_found_witness :
  Customers.get_by_id Demo.db Demo.carol 1
    = Throw (Errors.App (Errors.new_NotFoundError "Customer not found"))
  /\ Quotes.get_by_id Demo.db Demo.carol 1
     = Throw (Errors.App (Errors.new_NotFoundError "Quote not found"))
  /\ Products.get_by_id Demo.db Demo.carol 1
     = Throw (Errors.App (Errors.new_NotFoundError "Product not found")).
Proof.
  destruct (get_by_id_other_account_not_found Demo.db Demo.carol 1 demo_primary_keys)
    as (Hc & Hq & Hp & _).
  split; [|split].
  - apply Hc. exists Demo.customer1. simpl. repeat split; [tauto|lia].
  - apply Hq. exists Demo.quote1. simpl. repeat split; [tauto|lia].
  - apply Hp. exists Demo.product1. simpl. repeat split; [tauto|lia].
Defined.

(** ** Pagination of the list route *)

Section Pagination.



Context {A : Type} (key : A -> Z).

Lemma insert_desc_length (x : A) (l : list A) :
  List.length (Sql.insert_desc key x l) = S (List.length l).
Proof.
  induction l as [|y r IH]; simpl; [reflexivity|].
  destruct (key y <? key x); simpl; [reflexivity|].
  rewrite IH. reflexivity.
Qed.

Lemma orderBy_desc_length (l : list A) :
  List.length (Sql.orderBy_desc key l) = List.length l.
Proof.
  induction l as [|x r IH]; simpl; [reflexivity|].
  rewrite insert_desc_length, IH. reflexivity.
Qed.


End Pagination.

(** The bounds the list routes rely on are those [paginationSchema] lets
    through. *)
Lemma paginationSchema_bounds (raw : RawPagination.t) (page pageSize : Z) :
  Validation.paginationSchema raw = Some (page, pageSize) ->
  1 <= page /\ 1 <= pageSize <= 100.
Proof.
  unfold Validation.paginationSchema, Validation.obind, Validation.default.
  destruct (RawPagination.page raw) as [p|], (RawPagination.pageSize raw) as [z|];
    repeat match goal with
           | |- context [if ?c then _ else _] => destruct c eqn:?
           end;
    intros H; try discriminate H; injection H as <- <-; lia.
Qed.



(** ** Role checks of the boilers and users routes *)

Lemma not_admin_eqb (r : string) : r <> "admin" -> String.eqb r "admin" = false.
Proof. intros H. apply String.eqb_neq. exact H. Qed.

(** C6 (as the code behaves).  A caller with a valid session whose role is
    not admin is refused by both routes before anything is written, but not
    with a [ForbiddenError] of status 403: each route throws a plain
    [AppError] built with its arguments in the order (text, 403), so the
    object's [statusCode] is the text, its [message] is 403, its name is
    ["AppError"], and the status handed to the response is the text. *)
Theorem non_admin_rejection_is_plain_AppError :
  forall (db : Db) (clock : Clock) (user : JwtPayload)
         (data : CreateBoilerInput.t) (id : Z),
    role user <> "admin" ->
    Boilers.post db user data = Throw (Errors.App boilers_rejection)
    /\ Users.delete db clock user id = Throw (Errors.App deactivate_rejection)
    /\ Errors.name boilers_rejection = "AppError"
    /\ Errors.name deactivate_rejection = "AppError"
    /\ Errors.errorHandler_status (Errors.App boilers_rejection) = Js.Str "Unauthorized"
    /\ Errors.errorHandler_status (Errors.App deactivate_rejection)
       = Js.Str "Only admins can deactivate users"
    /\ (forall text,
          Errors.App boilers_rejection <> Errors.App (Errors.new_ForbiddenError text)
          /\ Errors.App deactivate_rejection <> Errors.App (Errors.new_ForbiddenError text)
          /\ Errors.errorHandler_status (Errors.App (Errors.new_ForbiddenError text))
             = Js.Num 403).
Proof.
  intros db clock user data id Hrole.
  unfold Boilers.post, Users.delete.
  rewrite (not_admin_eqb _ Hrole). simpl.
  repeat split; try reflexivity; discriminate.
Qed.

(** Bob, a surveyor, tries to create a boiler specification and to
    deactivate user 1. *)
Lemma non_admin_rejection_is_plain_AppError_witness :
  Boilers.post Demo.db Demo.bob (CreateBoilerInput.mk "Worcester" "Greenstar 2000")
    = Throw (Errors.App boilers_rejection)
  /\ Users.delete Demo.db Demo.clock Demo.bob 1
     = Throw (Errors.App deactivate_rejection).
Proof.
  destruct (non_admin_rejection_is_plain_AppError Demo.db Demo.clock Demo.bob
              (CreateBoilerInput.mk "Worcester" "Greenstar 2000") 1) as (Hb & Hd & _).
  - simpl. discriminate.
  - split; assumption.
Defined.

(** ** Uniqueness of SKUs and e-mail addresses *)

Lemma findFirst_present {A : Type} (p : A -> bool) (rows : list A) :
  (exists r, In r rows /\ p r = true) ->
  exists r, Sql.findFirst p rows = Some r.
Proof.
  intros (r & Hin & Hp). apply (findFirst_exists p rows r); assumption.
Qed.

Lemma existsb_sku (rows : list Product.row) (sku : string) :
  (exists p, In p rows /\ Product.sku p = sku) ->
  existsb (fun r => String.eqb (Product.sku r) sku) rows = true.
Proof.
  intros (p & Hin & Hsku). apply existsb_exists. exists p.
  split; [exact Hin|]. apply String.eqb_eq. exact Hsku.
Qed.

(** A product of the caller's account already has the SKU: the check of the
    handler finds it and nothing is inserted. *)
Lemma product_post_same_account :
  forall (db : Db) (clock : Clock) (user : JwtPayload) (data : CreateProductInput.t),
    (exists p, In p (products db)
               /\ Product.sku p = CreateProductInput.sku data
               /\ Product.accountId p = accountId user) ->
    Products.post db clock user data
    = Throw (Errors.App (Errors.new_ConflictError "Product with this SKU already exists")).
Proof.
  intros db clock user data (p & Hin & Hsku & Hacc).
  unfold Products.post, requireAccountAccess.
  assert (Hfound : exists r,
            Sql.findFirst
              (fun p => String.eqb (Product.sku p) (CreateProductInput.sku data)
                        && (Product.accountId p =? accountId user))
              (products db) = Some r).
  { apply findFirst_present. exists p. split; [exact Hin|].
    rewrite Hsku, Hacc, String.eqb_refl, Z.eqb_refl. reflexivity. }
  destruct Hfound as (r & ->). reflexivity.
Qed.

(** C7 (as the code behaves).  Of two product creations under one account
    with one SKU, the second throws the [ConflictError] (409) and inserts
    nothing whenever the first one succeeded, or whenever the account
    already holds the SKU.  But the same SKU under a different account is
    rejected too: the handler's per-account check passes, then the insert
    violates the UNIQUE constraint that the schema puts on [sku] alone, and the
    request ends in a driver error that the error handler answers with 500. *)
Theorem product_sku_conflicts :
  forall (db : Db) (clock clock' : Clock) (user : JwtPayload)
         (data data' : CreateProductInput.t),
    CreateProductInput.sku data' = CreateProductInput.sku data ->
    let conflict :=
      Errors.App (Errors.new_ConflictError "Product with this SKU already exists") in
    (forall db1 p, Products.post db clock user data = Ok (db1, p) ->
                   Products.post db1 clock' user data' = Throw conflict)
    /\ Errors.errorHandler_status conflict = Js.Num 409
    /\ ((exists p, In p (products db)
                   /\ Product.sku p = CreateProductInput.sku data
                   /\ Product.accountId p <> accountId user) ->
        (forall p, In p (products db) ->
                   Product.sku p = CreateProductInput.sku data ->
                   Product.accountId p <> accountId user) ->
        exists reason,
          Products.post db clock user data = Throw (Errors.Driver reason)
          /\ Errors.errorHandler_status (Errors.Driver reason) = Js.Num 500).
Proof.
  intros db clock clock' user data data' Hsame conflict.
  split; [|split; [reflexivity|]].
  - intros db1 p Hok.
    apply product_post_same_account.
    unfold Products.post, requireAccountAccess in Hok.
    destruct (Sql.findFirst _ (products db)); [discriminate|].
    unfold Products.insert_product in Hok.
    destruct (existsb _ (products db)); simpl in Hok; [discriminate|].
    injection Hok as <- <-. simpl.
    eexists. split; [apply in_or_app; right; left; reflexivity|].
    simpl. split; [symmetry; exact Hsame|reflexivity].
  - intros (p & Hin & Hsku & Hacc) Hnone.
    unfold Products.post, requireAccountAccess.
    rewrite findFirst_none.
    + unfold Products.insert_product. simpl.
      rewrite (existsb_sku (products db) (CreateProductInput.sku data))
        by (exists p; split; assumption).
      simpl. eexists. split; reflexivity.
    + intros r Hr.
      destruct (String.eqb_spec (Product.sku r) (CreateProductInput.sku data)) as [E|];
        [|reflexivity].
      simpl. apply Z.eqb_neq. apply Hnone; assumption.
Qed.

(** Carol, of account 2, creates SKU [X1], which account 1 already has; and
    Alice creates a new SKU twice. *)
Lemma product_sku_conflicts_witness :
  (exists reason,
     Products.post Demo.db Demo.clock Demo.carol Demo.product_X1
     = Throw (Errors.Driver reason))
  /\ (exists db1 p,
        Products.post Demo.db Demo.clock Demo.alice
          (CreateProductInput.mk "Y2" "Cylinder" None None None 300 0 0) = Ok (db1, p)
        /\ Products.post db1 Demo.clock Demo.alice
             (CreateProductInput.mk "Y2" "Cylinder" None None None 300 0 0)
           = Throw (Errors.App
                      (Errors.new_ConflictError "Product with this SKU already exists"))).
Proof.
  split.
  - destruct (product_sku_conflicts Demo.db Demo.clock Demo.clock Demo.carol
                Demo.product_X1 Demo.product_X1 eq_refl) as (_ & _ & H).
    destruct H as (reason & Hr & _).
    + exists Demo.product1. simpl. repeat split; [tauto|lia].
    + intros p [<-|[]] _. simpl. lia.
    + exists reason. exact Hr.
  - destruct (product_sku_conflicts Demo.db Demo.clock Demo.clock Demo.alice
                (CreateProductInput.mk "Y2" "Cylinder" None None None 300 0 0)
                (CreateProductInput.mk "Y2" "Cylinder" None None None 300 0 0)
                eq_refl) as (H & _).
    eexists. eexists. split; [reflexivity|].
    eapply H. reflexivity.
Defined.

(** C8 (as the code behaves).  When the e-mail address already belongs to a
    user, registration throws the [ConflictError] (409) and the admin route
    that creates a team member throws too, so neither creates a user; but
    the admin route throws a plain [AppError] built as (text, 400): its name
    is ["AppError"], its [message] is 400 and the status handed to the
    response is the text, not 409. *)
Theorem duplicate_email_rejections :
  forall (db : Db) (clock : Clock) (admin : JwtPayload)
         (reg : RegisterInput.t) (member : CreateUserInput.t) (hash : string),
    role admin = "admin" ->
    (exists u, In u (users db) /\ User.email u = RegisterInput.email reg) ->
    (exists u, In u (users db) /\ User.email u = CreateUserInput.email member) ->
    let conflict :=
      Errors.App (Errors.new_ConflictError "User with this email already exists") in
    Users.register db clock reg hash = Throw conflict
    /\ Errors.errorHandler_status conflict = Js.Num 409
    /\ Errors.response_error_kind conflict = Some "ConflictError"
    /\ Users.post db clock admin member hash = Throw (Errors.App email_in_use)
    /\ Errors.errorHandler_status (Errors.App email_in_use) = Js.Str "Email already in use"
    /\ Errors.message email_in_use = Js.Num 400
    /\ Errors.response_error_kind (Errors.App email_in_use) = Some "AppError".
Proof.
  intros db clock admin reg member hash Hrole (u & Hu & Hue) (v & Hv & Hve) conflict.
  repeat split.
  - unfold Users.register.
    assert (Hfound : exists r,
              Sql.findFirst (fun u => String.eqb (User.email u) (RegisterInput.email reg))
                (users db) = Some r).
    { apply findFirst_present. exists u. split; [exact Hu|].
      rewrite Hue. apply String.eqb_refl. }
    destruct Hfound as (r & ->). reflexivity.
  - unfold Users.post. rewrite Hrole. simpl.
    assert (Hin : In v (filter (fun u => String.eqb (User.email u)
                                           (CreateUserInput.email member)) (users db))).
    { apply filter_In. split; [exact Hv|]. rewrite Hve. apply String.eqb_refl. }
    destruct (filter _ (users db)); [contradiction|reflexivity].
Qed.

(** A second registration with Alice's address, and Alice adding a team
    member with Bob's address. *)
Lemma duplicate_email_rejections_witness :
  Users.register Demo.db Demo.clock
    (RegisterInput.mk "Three" "alice@one.example" "Alice" "Correct-Horse-1") "h"
  = Throw (Errors.App (Errors.new_ConflictError "User with this email already exists"))
  /\ Users.post Demo.db Demo.clock Demo.alice
       (CreateUserInput.mk "bob@one.example" "Bobby" "Correct-Horse-2" "office" None) "h"
     = Throw (Errors.App email_in_use).
Proof.
  destruct (duplicate_email_rejections Demo.db Demo.clock Demo.alice
              (RegisterInput.mk "Three" "alice@one.example" "Alice" "Correct-Horse-1")
              (CreateUserInput.mk "bob@one.example" "Bobby" "Correct-Horse-2" "office" None)
              "h") as (Hr & _ & _ & Hp & _).
  - reflexivity.
  - eexists. split; [left; reflexivity|reflexivity].
  - eexists. split; [right; left; reflexivity|reflexivity].
  - split; assumption.
Defined.

(** ** Quote numbers *)

Section Strings.

Lemma string_of_uint_digits (d : Decimal.uint) :
  all_digits (NilEmpty.string_of_uint d) = true.
Proof.
  induction d; simpl; try reflexivity; exact IHd.
Qed.

Lemma toString_digits (n : N) : all_digits (Js.toString n) = true.
Proof. apply string_of_uint_digits. Qed.













End Strings.

Section Like.

Lemma like_plain_prefix (p q s : string) :
  plain_string p = true -> Sql.like (p ++ q) (p ++ s) = Sql.like q s.
Proof.
  induction p as [|c r IH]; intros Hp; [reflexivity|].
  simpl in Hp. apply andb_prop in Hp as [Hc Hr].
  unfold plain in Hc.
  apply andb_prop in Hc as [Hc H3]. apply andb_prop in Hc as [H1 H2].
  apply negb_true_iff in H1, H2, H3.
  simpl. rewrite H1, H2, H3, Ascii.eqb_refl. simpl. apply IH. exact Hr.
Qed.

Lemma like_percent (s : string) : Sql.like "%" s = true.
Proof.
  induction s as [|c r IH]; [reflexivity|].
  simpl in *. exact IH.
Qed.

Lemma lower_app (s t : string) : Sql.lower (s ++ t) = (Sql.lower s ++ Sql.lower t)%string.
Proof.
  induction s as [|c r IH]; simpl; [reflexivity|]. rewrite IH. reflexivity.
Qed.




End Like.

Section OrderBy.
Context {A : Type} (key : A -> Z).

Lemma hd_insert_desc (x : A) (s : list A) :
  hd_error (Sql.insert_desc key x s)
  = match hd_error s with
    | None => Some x
    | Some y => if key y <? key x then Some x else Some y
    end.
Proof.
  destruct s as [|y r]; simpl; [reflexivity|].
  destruct (key y <? key x); reflexivity.
Qed.

Lemma In_insert_desc (x y : A) (s : list A) :
  In y (Sql.insert_desc key x s) <-> y = x \/ In y s.
Proof.
  induction s as [|z r IH]; simpl; [intuition|].
  destruct (key z <? key x); simpl; [intuition|].
  rewrite IH. intuition.
Qed.

Lemma In_orderBy_desc (y : A) (l : list A) :
  In y (Sql.orderBy_desc key l) <-> In y l.
Proof.
  induction l as [|x r IH]; simpl; [reflexivity|].
  rewrite In_insert_desc, IH. intuition.
Qed.


Lemma orderBy_desc_nil (l : list A) :
  hd_error (Sql.orderBy_desc key l) = None <-> l = [].
Proof.
  split; [|intros ->; reflexivity].
  destruct l as [|x r]; [reflexivity|]. simpl. rewrite hd_insert_desc.
  destruct (hd_error (Sql.orderBy_desc key r)); [|discriminate].
  destruct (_ <? _); discriminate.
Qed.
End OrderBy.


Lemma latestQuote_none (db : Db) (year : N) (a : Z) :
  Quotes.latestQuote db year a = None
  <-> forall q, In q (quotes db) -> Quotes.in_year year a q = false.
Proof.
  unfold Quotes.latestQuote. rewrite orderBy_desc_nil. split.
  - intros H q Hq. destruct (Quotes.in_year year a q) eqn:E; [|reflexivity].
    assert (Hin : In q (filter (Quotes.in_year year a) (quotes db)))
      by (apply filter_In; split; assumption).
    rewrite H in Hin. contradiction.
  - intros H. induction (quotes db) as [|x r IH]; [reflexivity|]. simpl.
    rewrite (H x (or_introl eq_refl)). apply IH. intros q Hq. apply H. right. exact Hq.
Qed.


Lemma generate_first (db : Db) (year : N) (a : Z) :
  Quotes.latestQuote db year a = None ->
  Quotes.generateQuoteNumber db year a = quote_number year 1.
Proof.
  intros H. unfold Quotes.generateQuoteNumber. rewrite H. reflexivity.
Qed.



(** ** What a successful create stores *)

Lemma filter_none {A : Type} (p : A -> bool) (l : list A) :
  (forall x, In x l -> p x = false) -> filter p l = [].
Proof.
  induction l as [|x r IH]; simpl; intros H; [reflexivity|].
  rewrite (H x (or_introl eq_refl)). apply IH. intros y Hy. apply H. right. exact Hy.
Qed.

Lemma filter_all {A : Type} (p : A -> bool) (l : list A) :
  (forall x, In x l -> p x = true) -> filter p l = l.
Proof.
  induction l as [|x r IH]; simpl; intros H; [reflexivity|].
  rewrite (H x (or_introl eq_refl)). f_equal. apply IH. intros y Hy. apply H. right. exact Hy.
Qed.

Lemma new_lines_quoteId (quoteId firstId index : Z) (lines : list QuoteLineInput.t) :
  forall l, In l (Quotes.new_lines quoteId firstId index lines) ->
            QuoteLine.quoteId l = quoteId.
Proof.
  revert firstId index. induction lines as [|x r IH]; simpl; intros firstId index l H;
    [contradiction|].
  destruct H as [<-|H]; [reflexivity|]. eapply IH. exact H.
Qed.

Lemma copied_lines_quoteId (quoteId firstId : Z) (lines : list QuoteLine.row) :
  forall l, In l (Quotes.copied_lines quoteId firstId lines) ->
            QuoteLine.quoteId l = quoteId.
Proof.
  revert firstId. induction lines as [|x r IH]; simpl; intros firstId l H;
    [contradiction|].
  destruct H as [<-|H]; [reflexivity|]. eapply IH. exact H.
Qed.

(** The database after a successful [POST /api/quotes]. *)
Lemma post_ok (db db' : Db) (clock : Clock) (user : JwtPayload)
    (data : CreateQuoteInput.t) (resp : option Quotes.QuoteWithLines) :
  Quotes.post db clock user data = Ok (db', resp) ->
  quotes db' = quotes db ++ [Quotes.new_quote db clock user data]
  /\ quoteLines db'
     = quoteLines db
       ++ Quotes.new_lines (next_quote db) (next_quoteLine db) 0
            (CreateQuoteInput.lines data)
  /\ next_quote db' = next_quote db + 1
  /\ resp = Quotes.fetch db' (next_quote db).
Proof.
  unfold Quotes.post. destruct (Sql.findFirst _ (customers db)); [|discriminate].
  unfold Quotes.insert_quote. destruct (existsb _ (quotes db)); simpl; [discriminate|].
  intros H. injection H as <- <-. simpl. repeat split.
Qed.

(** The database after a successful duplicate of [original]. *)
Lemma duplicate_ok (db db' : Db) (clock : Clock) (user : JwtPayload) (id : Z)
    (resp : option Quotes.QuoteWithLines) :
  Quotes.duplicate db clock user id = Ok (db', resp) ->
  exists original,
    Sql.findFirst (Quotes.owned id (accountId user)) (quotes db) = Some original
    /\ quotes db' = quotes db ++ [Quotes.duplicated_quote db clock user original]
    /\ quoteLines db'
       = quoteLines db
         ++ Quotes.copied_lines (next_quote db) (next_quoteLine db) (Quotes.lines_of db id)
    /\ next_quote db' = next_quote db + 1
    /\ resp = Quotes.fetch db' (next_quote db).
Proof.
  unfold Quotes.duplicate, requireAccountAccess.
  destruct (Sql.findFirst _ (quotes db)) as [original|]; [|discriminate].
  unfold Quotes.insert_quote. destruct (existsb _ (quotes db)); simpl; [discriminate|].
  intros H. injection H as <- <-. exists original. simpl. repeat split.
Qed.

(** Fetching the quote that was just inserted under a fresh id. *)
Lemma fetch_inserted (db db' : Db) (q : Quote.row) (rows : list QuoteLine.row) :
  serials_fresh db ->
  quotes db' = quotes db ++ [q] ->
  Quote.id q = next_quote db ->
  quoteLines db' = quoteLines db ++ rows ->
  (forall l, In l rows -> QuoteLine.quoteId l = next_quote db) ->
  Quotes.fetch db' (next_quote db) = Some (Quotes.mkQuoteWithLines q rows).
Proof.
  intros [Hq Hl] Hquotes Hid Hlines Hrows.
  unfold Quotes.fetch, Quotes.lines_of, Sql.findFirst.
  rewrite Hquotes, Hlines, !filter_app.
  rewrite (filter_none _ (quotes db)), (filter_none _ (quoteLines db)).
  - simpl. rewrite Hid, Z.eqb_refl. simpl. rewrite filter_all; [reflexivity|].
    intros l Hin. apply Z.eqb_eq. apply Hrows. exact Hin.
  - intros l Hin. apply Z.eqb_neq. specialize (Hl l Hin). lia.
  - intros x Hin. apply Z.eqb_neq. specialize (Hq x Hin). lia.
Qed.




(** What both creating routes store on success: one quote under the next
    id, stamped with the request's clock and numbered by the generator, and
    lines that all belong to it. *)
Lemma create_one_ok (db db' : Db) (clock : Clock) (user : JwtPayload) (c : creation)
    (resp : option Quotes.QuoteWithLines) :
  create_one db clock user c = Ok (db', resp) ->
  exists q rows,
    quotes db' = quotes db ++ [q]
    /\ quoteLines db' = quoteLines db ++ rows
    /\ (forall l, In l rows -> QuoteLine.quoteId l = next_quote db)
    /\ next_quote db' = next_quote db + 1
    /\ resp = Quotes.fetch db' (next_quote db)
    /\ Quote.id q = next_quote db
    /\ Quote.accountId q = accountId user
    /\ Quote.createdAt q = now clock
    /\ Quote.quoteNumber q
       = Quotes.generateQuoteNumber db (year clock) (accountId user).
Proof.
  destruct c as [data|id]; simpl; intros H.
  - apply post_ok in H as (Hquotes & Hlines & Hnext & Hresp).
    exists (Quotes.new_quote db clock user data),
      (Quotes.new_lines (next_quote db) (next_quoteLine db) 0
         (CreateQuoteInput.lines data)).
    repeat split; try assumption. apply new_lines_quoteId.
  - apply duplicate_ok in H as (original & _ & Hquotes & Hlines & Hnext & Hresp).
    exists (Quotes.duplicated_quote db clock user original),
      (Quotes.copied_lines (next_quote db) (next_quoteLine db) (Quotes.lines_of db id)).
    repeat split; try assumption. apply copied_lines_quoteId.
Qed.





Lemma demo_serials_fresh : serials_fresh Demo.db.
Proof.
  split.
  - intros q [<-|[]]. simpl. lia.
  - intros l [<-|[]]. simpl. lia.
Qed.



(** ** Stored totals *)






Lemma lines_of_app (db db' : Db) (rows : list QuoteLine.row) (id : Z) :
  quoteLines db' = quoteLines db ++ rows ->
  (forall l, In l rows -> QuoteLine.quoteId l <> id) ->
  Quotes.lines_of db' id = Quotes.lines_of db id.
Proof.
  intros Hlines Hrows. unfold Quotes.lines_of.
  rewrite Hlines, filter_app, (filter_none _ rows), app_nil_r; [reflexivity|].
  intros l Hl. apply Z.eqb_neq. apply Hrows. exact Hl.
Qed.

Lemma lines_of_inserted (db db' : Db) (rows : list QuoteLine.row) :
  serials_fresh db ->
  quoteLines db' = quoteLines db ++ rows ->
  (forall l, In l rows -> QuoteLine.quoteId l = next_quote db) ->
  Quotes.lines_of db' (next_quote db) = rows.
Proof.
  intros [_ Hl] Hlines Hrows. unfold Quotes.lines_of.
  rewrite Hlines, filter_app, (filter_none _ (quoteLines db)), filter_all; [reflexivity| |].
  - intros l Hin. apply Z.eqb_eq. apply Hrows. exact Hin.
  - intros l Hin. apply Z.eqb_neq. specialize (Hl l Hin). lia.
Qed.


(** The database after a successful [PUT /api/quotes/:id]. *)
Lemma put_ok (db db' : Db) (clock : Clock) (user : JwtPayload) (id : Z)
    (data : UpdateQuoteInput.t) (resp : option Quotes.QuoteWithLines) :
  Quotes.put db clock user id data = Ok (db', resp) ->
  exists existing,
    Sql.findFirst (Quotes.owned id (accountId user)) (quotes db) = Some existing
    /\ quotes db'
       = map (fun q => if Quote.id q =? id
                       then Quotes.updated_row clock data (update_totals data existing) q
                       else q) (quotes db)
    /\ quoteLines db'
       = match UpdateQuoteInput.lines data with
         | Some lines =>
             filter (fun l => negb (QuoteLine.quoteId l =? id)) (quoteLines db)
             ++ Quotes.new_lines id (next_quoteLine db) 0 lines
         | None => quoteLines db
         end
    /\ next_quote db' = next_quote db.
Proof.
  unfold Quotes.put, requireAccountAccess, update_totals.
  destruct (Sql.findFirst _ (quotes db)) as [existing|]; [|discriminate].
  intros H. exists existing. split; [reflexivity|].
  destruct (UpdateQuoteInput.lines data) as [lines|]; simpl in *;
    injection H as <- <-; simpl; repeat split.
Qed.


(** Deleting the lines of quote [id] leaves the lines of any other quote. *)
Lemma lines_kept (ls : list QuoteLine.row) (id j : Z) :
  j <> id ->
  filter (fun l => QuoteLine.quoteId l =? j)
    (filter (fun l => negb (QuoteLine.quoteId l =? id)) ls)
  = filter (fun l => QuoteLine.quoteId l =? j) ls.
Proof.
  intros Hne. induction ls as [|l r IH]; simpl; [reflexivity|].
  destruct (Z.eqb_spec (QuoteLine.quoteId l) id) as [E|E]; simpl.
  - rewrite E. destruct (Z.eqb_spec id j); [congruence|]. exact IH.
  - rewrite IH. reflexivity.
Qed.


Lemma demo_consistent : quotes_consistent Demo.db.
Proof.
  intros q [<-|[]]. repeat split; vm_compute; reflexivity.
Qed.

Lemma demo_quote_keys : NoDup (map Quote.id (quotes Demo.db)).
Proof. apply demo_primary_keys. Qed.




(** ** Duplication *)

Lemma copied_lines_content (quoteId firstId : Z) (lines : list QuoteLine.row) :
  map line_content (Quotes.copied_lines quoteId firstId lines) = map line_content lines.
Proof.
  revert firstId. induction lines as [|l r IH]; intros firstId; simpl; [reflexivity|].
  rewrite IH. reflexivity.
Qed.

Lemma insert_quote_fresh_number (db db1 : Db) (q : Quote.row) :
  Quotes.insert_quote db q = Ok db1 ->
  forall r, In r (quotes db) -> Quote.quoteNumber r <> Quote.quoteNumber q.
Proof.
  unfold Quotes.insert_quote.
  destruct (existsb _ (quotes db)) eqn:E; [discriminate|].
  intros _ r Hr Heq.
  assert (Ht : existsb (fun r => String.eqb (Quote.quoteNumber r) (Quote.quoteNumber q))
                 (quotes db) = true).
  { apply existsb_exists. exists r. split; [exact Hr|]. apply String.eqb_eq. exact Heq. }
  rewrite Ht in E. discriminate.
Qed.

Lemma duplicate_fresh_number (db db' : Db) (clock : Clock) (user : JwtPayload) (id : Z)
    (resp : option Quotes.QuoteWithLines) :
  Quotes.duplicate db clock user id = Ok (db', resp) ->
  forall r, In r (quotes db) ->
    Quote.quoteNumber r <> Quotes.generateQuoteNumber db (year clock) (accountId user).
Proof.
  unfold Quotes.duplicate, requireAccountAccess.
  destruct (Sql.findFirst _ (quotes db)) as [original|]; [|discriminate].
  destruct (Quotes.insert_quote db (Quotes.duplicated_quote db clock user original))
    as [db1|] eqn:E; simpl; [|discriminate].
  intros _. apply (insert_quote_fresh_number db db1 _ E).
Qed.

(** C5. A successful duplicate of a quote of the caller's account adds one
    quote, returned with its lines: its status is [draft] whatever the status
    of the source; its subtotal, tax amount and total are the stored values
    of the source, not recomputed; its number is the one the generator gives
    at that moment, which no stored quote carries; and its lines carry, in
    the same order, the productId, sortOrder, description, quantity,
    unitPrice, discount, lineTotal and notes of the lines of the source. *)
Theorem duplicate_copies_quote :
  forall (db db' : Db) (clock : Clock) (user : JwtPayload) (id : Z)
         (resp : option Quotes.QuoteWithLines),
    serials_fresh db ->
    Quotes.duplicate db clock user id = Ok (db', resp) ->
    exists original copy,
      Sql.findFirst (Quotes.owned id (accountId user)) (quotes db) = Some original
      /\ quotes db' = quotes db ++ [copy]
      /\ resp = Some (Quotes.mkQuoteWithLines copy (Quotes.lines_of db' (Quote.id copy)))
      /\ Quote.status copy = draft
      /\ Quote.subtotal copy = Quote.subtotal original
      /\ Quote.taxAmount copy = Quote.taxAmount original
      /\ Quote.total copy = Quote.total original
      /\ Quote.quoteNumber copy
         = Quotes.generateQuoteNumber db (year clock) (accountId user)
      /\ (forall q, In q (quotes db) -> Quote.quoteNumber q <> Quote.quoteNumber copy)
      /\ map line_content (Quotes.lines_of db' (Quote.id copy))
         = map line_content (Quotes.lines_of db id).
Proof.
  intros db db' clock user id resp Hfresh Hdup.
  pose proof (duplicate_fresh_number db db' clock user id resp Hdup) as Hnumber.
  apply duplicate_ok in Hdup as (original & Hfind & Hquotes & Hlines & Hnext & ->).
  pose proof (copied_lines_quoteId (next_quote db) (next_quoteLine db)
                (Quotes.lines_of db id)) as Hrows.
  exists original, (Quotes.duplicated_quote db clock user original).
  change (Quote.id (Quotes.duplicated_quote db clock user original)) with (next_quote db).
  rewrite (lines_of_inserted db db' _ Hfresh Hlines Hrows).
  repeat split; try assumption.
  - apply (fetch_inserted db db' _ _ Hfresh Hquotes eq_refl Hlines Hrows).
  - apply copied_lines_content.
Qed.

(** Alice duplicates quote 1, which is in status [sent]. *)
Lemma duplicate_copies_quote_witness :
  exists db' copy lines,
    Quotes.duplicate Demo.db Demo.clock Demo.alice 1
    = Ok (db', Some (Quotes.mkQuoteWithLines copy lines))
    /\ Quote.status Demo.quote1 = sent
    /\ Quote.status copy = draft
    /\ Quote.quoteNumber copy = "QUO-2026-002"
    /\ Quote.total copy = Quote.total Demo.quote1
    /\ map line_content lines = [line_content Demo.line1].
Proof.
  assert (Hrun : exists db' resp,
             Quotes.duplicate Demo.db Demo.clock Demo.alice 1 = Ok (db', resp)).
  { vm_compute. eexists. eexists. reflexivity. }
  destruct Hrun as (db' & resp & Hrun).
  destruct (duplicate_copies_quote Demo.db db' Demo.clock Demo.alice 1 resp
              demo_serials_fresh Hrun)
    as (original & copy & Hfind & _ & -> & Hstatus & _ & _ & Htotal & Hnum & _ & Hlines).
  vm_compute in Hfind. injection Hfind as <-.
  exists db', copy, (Quotes.lines_of db' (Quote.id copy)).
  split; [exact Hrun|]. split; [reflexivity|]. split; [exact Hstatus|].
  split; [rewrite Hnum; reflexivity|]. split; [exact Htotal|exact Hlines].
Defined.

(** ** The tax rate of a created quote *)





(** ** The assumptions on the database are invariants of the quote routes *)

Lemma create_one_keeps_keys (db db' : Db) (clock : Clock) (user : JwtPayload)
    (c : creation) (resp : option Quotes.QuoteWithLines) :
  serials_fresh db ->
  NoDup (map Quote.id (quotes db)) ->
  create_one db clock user c = Ok (db', resp) ->
  NoDup (map Quote.id (quotes db')).
Proof.
  intros [Hids _] Hkeys Hcreate.
  apply create_one_ok in Hcreate as (q & rows & Hquotes & _ & _ & _ & _ & Hid & _).
  rewrite Hquotes, map_app. simpl.
  apply Permutation.Permutation_NoDup with (l := Quote.id q :: map Quote.id (quotes db)).
  - apply Permutation.Permutation_cons_append.
  - constructor; [|exact Hkeys].
    intros Hin. apply in_map_iff in Hin as (x & Hx & Hin).
    specialize (Hids x Hin). lia.
Qed.

Lemma put_keeps_keys (db db' : Db) (clock : Clock) (user : JwtPayload) (id : Z)
    (data : UpdateQuoteInput.t) (resp : option Quotes.QuoteWithLines) :
  NoDup (map Quote.id (quotes db)) ->
  Quotes.put db clock user id data = Ok (db', resp) ->
  NoDup (map Quote.id (quotes db')).
Proof.
  intros Hkeys Hput.
  apply put_ok in Hput as (existing & _ & Hquotes & _ & _).
  rewrite Hquotes, map_map.
  erewrite map_ext; [exact Hkeys|].
  intros q. simpl. destruct (Quote.id q =? id); reflexivity.
Qed.

Lemma put_keeps_fresh (db db' : Db) (clock : Clock) (user : JwtPayload) (id : Z)
    (data : UpdateQuoteInput.t) (resp : option Quotes.QuoteWithLines) :
  serials_fresh db ->
  Quotes.put db clock user id data = Ok (db', resp) ->
  serials_fresh db'.
Proof.
  intros [Hids Hlines] Hput.
  apply put_ok in Hput as (existing & Hfind & Hquotes & Hrows & Hnext).
  apply findFirst_some in Hfind as [Hex Howned].
  unfold Quotes.owned in Howned. apply andb_prop in Howned as [Hexid _].
  apply Z.eqb_eq in Hexid.
  split.
  - intros q' Hq'. rewrite Hquotes in Hq'. apply in_map_iff in Hq' as (q & <- & Hq).
    rewrite Hnext. specialize (Hids q Hq).
    destruct (Quote.id q =? id); simpl; exact Hids.
  - intros l Hl. rewrite Hnext. rewrite Hrows in Hl.
    destruct (UpdateQuoteInput.lines data) as [lines|]; [|apply Hlines; exact Hl].
    apply in_app_or in Hl as [Hl|Hl].
    + apply filter_In in Hl as [Hl _]. apply Hlines. exact Hl.
    + rewrite (new_lines_quoteId _ _ _ _ l Hl), <- Hexid. apply Hids. exact Hex.
Qed.

(** * Further properties of the routes *)

(** ** Deleting a quote *)

Lemma quote_delete_ok (db db' : Db) (user : JwtPayload) (id : Z) (msg : string) :
  QuoteActions.delete db user id = Ok (db', msg) ->
  (exists q, In q (quotes db) /\ Quote.id q = id /\ Quote.accountId q = accountId user)
  /\ quotes db' = filter (fun q => negb (Quote.id q =? id)) (quotes db)
  /\ quoteLines db' = filter (fun l => negb (QuoteLine.quoteId l =? id)) (quoteLines db)
  /\ customers db' = customers db
  /\ products db' = products db
  /\ next_quote db' = next_quote db.
Proof.
  unfold QuoteActions.delete, requireAccountAccess.
  destruct (Sql.findFirst _ (quotes db)) as [q|] eqn:E; [|discriminate].
  intros H. injection H as <- _. simpl.
  apply findFirst_some in E as [Hin Howned].
  unfold Quotes.owned in Howned. apply andb_prop in Howned as [Hid Hacc].
  apply Z.eqb_eq in Hid, Hacc.
  split; [exists q; repeat split; assumption|]. repeat split.
Qed.

(** X1. A successful delete of a quote removes exactly the rows of that id
    from the quotes table and, by the cascade, exactly its lines; the lines
    of every other quote and the customers and products stay as they are,
    and the quotes that remain still agree with their lines. *)
Theorem quote_delete_cascades :
  forall (db db' : Db) (user : JwtPayload) (id : Z) (msg : string),
    QuoteActions.delete db user id = Ok (db', msg) ->
    (forall q, In q (quotes db') <-> In q (quotes db) /\ Quote.id q <> id)
    /\ (forall l, In l (quoteLines db') <->
                  In l (quoteLines db) /\ QuoteLine.quoteId l <> id)
    /\ Quotes.lines_of db' id = []
    /\ (forall j, j <> id -> Quotes.lines_of db' j = Quotes.lines_of db j)
    /\ customers db' = customers db
    /\ products db' = products db
    /\ (quotes_consistent db -> quotes_consistent db').
Proof.
  intros db db' user id msg H.
  apply quote_delete_ok in H as (_ & Hq & Hl & Hc & Hp & _).
  assert (Hother : forall j, j <> id -> Quotes.lines_of db' j = Quotes.lines_of db j).
  { intros j Hj. unfold Quotes.lines_of. rewrite Hl. apply lines_kept. exact Hj. }
  split; [|split; [|split; [|split; [|split; [|split]]]]]; try assumption.
  - intros q. rewrite Hq, filter_In, negb_true_iff, Z.eqb_neq. reflexivity.
  - intros l. rewrite Hl, filter_In, negb_true_iff, Z.eqb_neq. reflexivity.
  - unfold Quotes.lines_of. rewrite Hl. apply filter_none.
    intros l Hin. apply filter_In in Hin as [_ Hneq].
    apply negb_true_iff in Hneq. exact Hneq.
  - intros Hcons q Hin. rewrite Hq in Hin. apply filter_In in Hin as [Hin Hneq].
    apply negb_true_iff, Z.eqb_neq in Hneq.
    rewrite (Hother _ Hneq). apply Hcons. exact Hin.
Qed.

(** Alice deletes quote 1 of the demo database. *)
Lemma quote_delete_cascades_witness :
  exists db' msg,
    QuoteActions.delete Demo.db Demo.alice 1 = Ok (db', msg)
    /\ quotes db' = [] /\ quoteLines db' = [] /\ quotes_consistent db'.
Proof.
  eexists. eexists. split; [reflexivity|].
  split; [reflexivity|]. split; [reflexivity|].
  refine (proj2 (proj2 (proj2 (proj2 (proj2 (proj2
            (quote_delete_cascades Demo.db _ Demo.alice 1 _ eq_refl)))))) demo_consistent).
Defined.

(** ** Tenant isolation of the routes that write *)

Lemma owned_other_account (db : Db) (user : JwtPayload) (id : Z) :
  NoDup (map Quote.id (quotes db)) ->
  (exists q, In q (quotes db) /\ Quote.id q = id /\ Quote.accountId q <> accountId user) ->
  Sql.findFirst (Quotes.owned id (accountId user)) (quotes db) = None.
Proof.
  intros Hkeys (q & Hin & Hid & Hacc). unfold Quotes.owned.
  apply (findFirst_other_account Quote.id Quote.accountId _ q); assumption.
Qed.

(** X2. Every route that acts on one quote refuses the id of a quote of
    another account with the same [NotFoundError] (404) - update, delete,
    duplicate, send, accept and reject alike - and, having thrown, writes
    nothing. *)
Theorem quote_writes_other_account_not_found :
  forall (st : Store) (clock : Clock) (user : JwtPayload) (id : Z)
         (data : UpdateQuoteInput.t),
    NoDup (map Quote.id (quotes (base st))) ->
    (exists q, In q (quotes (base st)) /\ Quote.id q = id
               /\ Quote.accountId q <> accountId user) ->
    let not_found := Errors.App (Errors.new_NotFoundError "Quote not found") in
    Quotes.put (base st) clock user id data = Throw not_found
    /\ QuoteActions.delete (base st) user id = Throw not_found
    /\ Quotes.duplicate (base st) clock user id = Throw not_found
    /\ QuoteActions.send st clock user id = Throw not_found
    /\ QuoteActions.accept st clock user id = Throw not_found
    /\ QuoteActions.reject st clock user id = Throw not_found
    /\ Errors.errorHandler_status not_found = Js.Num 404.
Proof.
  intros st clock user id data Hkeys Hother not_found.
  pose proof (owned_other_account (base st) user id Hkeys Hother) as Hnone.
  unfold Quotes.put, QuoteActions.delete, Quotes.duplicate,
    QuoteActions.send, QuoteActions.accept, QuoteActions.reject, QuoteActions.act,
    requireAccountAccess.
  rewrite Hnone. repeat split.
Qed.

(** Carol, of account 2, aims each route at quote 1 of account 1. *)
Lemma quote_writes_other_account_not_found_witness :
  QuoteActions.delete Demo.db Demo.carol 1
    = Throw (Errors.App (Errors.new_NotFoundError "Quote not found"))
  /\ QuoteActions.accept (store_of Demo.db) Demo.clock Demo.carol 1
     = Throw (Errors.App (Errors.new_NotFoundError "Quote not found")).
Proof.
  destruct (quote_writes_other_account_not_found (store_of Demo.db) Demo.clock
              Demo.carol 1
              (UpdateQuoteInput.mk None None None None None None None None None None)
              demo_quote_keys) as (_ & Hd & _ & _ & Ha & _).
  - exists Demo.quote1. simpl. repeat split; [tauto|lia].
  - split; assumption.
Defined.

(** ** The status actions *)

Lemma findFirst_by_key {A : Type} (key : A -> Z) (rows : list A) (r : A) :
  NoDup (map key rows) -> In r rows ->
  Sql.findFirst (fun x => key x =? key r) rows = Some r.
Proof.
  intros Hnd Hin.
  destruct (findFirst_exists (fun x => key x =? key r) rows r Hin (Z.eqb_refl _))
    as (r' & Hr').
  rewrite Hr'. f_equal.
  apply findFirst_some in Hr' as [Hin' Hk]. apply Z.eqb_eq in Hk.
  apply (primary_key_injective key rows); assumption.
Qed.

Lemma findFirst_owned (db : Db) (user : JwtPayload) (q : Quote.row) :
  NoDup (map Quote.id (quotes db)) -> In q (quotes db) ->
  Quote.accountId q = accountId user ->
  Sql.findFirst (Quotes.owned (Quote.id q) (accountId user)) (quotes db) = Some q.
Proof.
  intros Hnd Hin Hacc.
  assert (Hex : exists r, Sql.findFirst (Quotes.owned (Quote.id q) (accountId user))
                            (quotes db) = Some r).
  { apply findFirst_present. exists q. split; [exact Hin|].
    unfold Quotes.owned. rewrite Hacc, !Z.eqb_refl. reflexivity. }
  destruct Hex as (r & Hr). rewrite Hr. f_equal.
  apply findFirst_some in Hr as [Hin' Ho]. unfold Quotes.owned in Ho.
  apply andb_prop in Ho as [Hid _]. apply Z.eqb_eq in Hid.
  apply (primary_key_injective Quote.id (quotes db)); assumption.
Qed.

Lemma map_update_in {A : Type} (key : A -> Z) (f : A -> A) (rows : list A) (r : A) :
  (forall x, key (f x) = key x) ->
  NoDup (map key rows) -> In r rows ->
  Sql.findFirst (fun x => key x =? key r)
    (map (fun x => if key x =? key r then f x else x) rows) = Some (f r).
Proof.
  intros Hkey Hnd Hin.
  assert (Hnd' : NoDup (map key (map (fun x => if key x =? key r then f x else x) rows))).
  { rewrite map_map. erewrite map_ext; [exact Hnd|].
    intros x. simpl. destruct (key x =? key r); [apply Hkey|reflexivity]. }
  assert (Hin' : In (f r) (map (fun x => if key x =? key r then f x else x) rows)).
  { apply in_map_iff. exists r. rewrite Z.eqb_refl. split; [reflexivity|exact Hin]. }
  pose proof (findFirst_by_key key _ (f r) Hnd' Hin') as H.
  rewrite Hkey in H. exact H.
Qed.

(** What a status action does to a quote of the caller's account. *)
Lemma act_ok (status : QuoteStatus) (stamp : Z -> QuoteStamps.t -> QuoteStamps.t)
    (st : Store) (clock : Clock) (user : JwtPayload) (q : Quote.row) :
  NoDup (map Quote.id (quotes (base st))) ->
  In q (quotes (base st)) ->
  Quote.accountId q = accountId user ->
  exists st',
    QuoteActions.act status stamp st clock user (Quote.id q)
    = Ok (st', Some (QuoteActions.set_status clock status q,
                     stamp (now clock) (quote_stamps st (Quote.id q))))
    /\ In (QuoteActions.set_status clock status q) (quotes (base st'))
    /\ quote_stamps st' (Quote.id q) = stamp (now clock) (quote_stamps st (Quote.id q))
    /\ (forall j, j <> Quote.id q -> quote_stamps st' j = quote_stamps st j)
    /\ quoteLines (base st') = quoteLines (base st)
    /\ (forall r, In r (quotes (base st)) -> Quote.id r <> Quote.id q ->
                  In r (quotes (base st')))
    /\ NoDup (map Quote.id (quotes (base st'))).
Proof.
  intros Hnd Hin Hacc.
  unfold QuoteActions.act, requireAccountAccess.
  rewrite (findFirst_owned (base st) user q Hnd Hin Hacc).
  rewrite (map_update_in Quote.id (QuoteActions.set_status clock status) _ q
             (fun _ => eq_refl) Hnd Hin).
  eexists. split.
  - simpl. unfold upd. rewrite Z.eqb_refl. reflexivity.
  - simpl. split; [|split; [|split; [|split; [|split]]]].
    + apply in_map_iff. exists q. rewrite Z.eqb_refl. split; [reflexivity|exact Hin].
    + unfold upd. rewrite Z.eqb_refl. reflexivity.
    + intros j Hj. unfold upd. apply Z.eqb_neq in Hj. rewrite Hj. reflexivity.
    + reflexivity.
    + intros r Hr Hne. apply in_map_iff. exists r. apply Z.eqb_neq in Hne.
      rewrite Hne. split; [reflexivity|exact Hr].
    + rewrite map_map. erewrite map_ext; [exact Hnd|].
      intros x. simpl. destruct (Quote.id x =? Quote.id q); reflexivity.
Qed.

(** X3. The status actions do not look at the current status: on any quote
    of the caller's account, whatever its status, send stores [sent] with
    [sentAt], accept stores [accepted] with [acceptedAt] and reject stores
    [rejected] with [rejectedAt], each stamped with the time of the request;
    the other fields of the quote except [updatedAt], its other timestamps
    and the lines are left alone.  In particular a quote that was rejected
    can be accepted afterwards, and then carries both timestamps. *)
Theorem status_actions_ignore_current_status :
  forall (st : Store) (clock clock' : Clock) (user : JwtPayload) (q : Quote.row),
    NoDup (map Quote.id (quotes (base st))) ->
    In q (quotes (base st)) ->
    Quote.accountId q = accountId user ->
    let id := Quote.id q in
    let old := quote_stamps st id in
    (exists st1,
       QuoteActions.send st clock user id
       = Ok (st1, Some (QuoteActions.set_status clock sent q,
                        QuoteStamps.mk (Some (now clock)) (QuoteStamps.viewedAt old)
                          (QuoteStamps.acceptedAt old) (QuoteStamps.rejectedAt old)))
       /\ quoteLines (base st1) = quoteLines (base st))
    /\ (exists st1,
          QuoteActions.accept st clock user id
          = Ok (st1, Some (QuoteActions.set_status clock accepted q,
                           QuoteStamps.mk (QuoteStamps.sentAt old) (QuoteStamps.viewedAt old)
                             (Some (now clock)) (QuoteStamps.rejectedAt old)))
          /\ quoteLines (base st1) = quoteLines (base st))
    /\ (exists st1 st2 q2 s2,
          QuoteActions.reject st clock user id
          = Ok (st1, Some (QuoteActions.set_status clock rejected q,
                           QuoteStamps.mk (QuoteStamps.sentAt old) (QuoteStamps.viewedAt old)
                             (QuoteStamps.acceptedAt old) (Some (now clock))))
          /\ QuoteActions.accept st1 clock' user id = Ok (st2, Some (q2, s2))
          /\ Quote.status q2 = accepted
          /\ QuoteStamps.rejectedAt s2 = Some (now clock)
          /\ QuoteStamps.acceptedAt s2 = Some (now clock')
          /\ Quote.total q2 = Quote.total q
          /\ Quote.quoteNumber q2 = Quote.quoteNumber q)
    /\ (forall status,
          let q' := QuoteActions.set_status clock status q in
          Quote.status q' = status /\ Quote.updatedAt q' = now clock
          /\ Quote.subtotal q' = Quote.subtotal q /\ Quote.taxRate q' = Quote.taxRate q
          /\ Quote.taxAmount q' = Quote.taxAmount q /\ Quote.total q' = Quote.total q
          /\ Quote.quoteNumber q' = Quote.quoteNumber q
          /\ Quote.customerId q' = Quote.customerId q
          /\ Quote.accountId q' = Quote.accountId q
          /\ Quote.createdAt q' = Quote.createdAt q).
Proof.
  intros st clock clock' user q Hnd Hin Hacc id old.
  unfold QuoteActions.send, QuoteActions.accept, QuoteActions.reject.
  split; [|split; [|split]].
  - match goal with
    | |- exists st1, QuoteActions.act ?s ?f _ _ _ _ = _ /\ _ =>
        destruct (act_ok s f st clock user q Hnd Hin Hacc)
          as (st1 & Hrun & _ & _ & _ & Hl & _)
    end.
    exists st1. split; [exact Hrun|exact Hl].
  - match goal with
    | |- exists st1, QuoteActions.act ?s ?f _ _ _ _ = _ /\ _ =>
        destruct (act_ok s f st clock user q Hnd Hin Hacc)
          as (st1 & Hrun & _ & _ & _ & Hl & _)
    end.
    exists st1. split; [exact Hrun|exact Hl].
  - match goal with
    | |- exists st1 st2 q2 s2,
           QuoteActions.act ?s ?f _ _ _ _ = _ /\ QuoteActions.act ?s' ?f' _ _ _ _ = _ /\ _ =>
        destruct (act_ok s f st clock user q Hnd Hin Hacc)
          as (st1 & Hrun & Hin1 & Hst1 & _ & _ & _ & Hnd1);
        destruct (act_ok s' f' st1 clock' user (QuoteActions.set_status clock s q)
                    Hnd1 Hin1 Hacc) as (st2 & Hrun2 & _)
    end.
    exists st1, st2. eexists. eexists.
    split; [exact Hrun|]. split; [exact Hrun2|].
    subst id old. simpl in *. rewrite Hst1. repeat split.
  - intros status. repeat split.
Qed.

(** Quote 1 of the demo database, which is in status [sent], is rejected and
    then accepted by Alice. *)
Lemma status_actions_ignore_current_status_witness :
  exists st1 st2 q2 s2,
    QuoteActions.reject (store_of Demo.db) Demo.clock Demo.alice 1
    = Ok (st1, Some (QuoteActions.set_status Demo.clock rejected Demo.quote1,
                     QuoteStamps.mk None None None (Some 200)))
    /\ QuoteActions.accept st1 (mkClock 250 2026) Demo.alice 1 = Ok (st2, Some (q2, s2))
    /\ Quote.status Demo.quote1 = sent
    /\ Quote.status q2 = accepted
    /\ QuoteStamps.rejectedAt s2 = Some 200
    /\ QuoteStamps.acceptedAt s2 = Some 250.
Proof.
  destruct (status_actions_ignore_current_status (store_of Demo.db) Demo.clock
              (mkClock 250 2026) Demo.alice Demo.quote1 demo_quote_keys
              (or_introl eq_refl) eq_refl)
    as (_ & _ & (st1 & st2 & q2 & s2 & Hr & Ha & Hs & Hrej & Hacc & _) & _).
  exists st1, st2, q2, s2.
  split; [exact Hr|]. split; [exact Ha|]. split; [reflexivity|].
  split; [exact Hs|]. split; [exact Hrej|exact Hacc].
Defined.

(** ** Creating and deleting; what an update leaves alone *)

Lemma generateQuoteNumber_quotes (db db' : Db) (year : N) (account : Z) :
  quotes db' = quotes db ->
  Quotes.generateQuoteNumber db' year account = Quotes.generateQuoteNumber db year account.
Proof.
  intros H. unfold Quotes.generateQuoteNumber, Quotes.latestQuote. rewrite H. reflexivity.
Qed.

(** X4. Deleting the quote that a create or duplicate request has just made
    gives back the quotes and lines tables as they were before it; so the
    generator hands out the deleted quote's number again. *)
Theorem create_then_delete_restores :
  forall (db db1 : Db) (clock : Clock) (user : JwtPayload) (c : creation)
         (resp : option Quotes.QuoteWithLines),
    serials_fresh db ->
    create_one db clock user c = Ok (db1, resp) ->
    exists created db2 msg,
      resp = Some created
      /\ QuoteActions.delete db1 user (Quote.id (Quotes.quote created)) = Ok (db2, msg)
      /\ quotes db2 = quotes db
      /\ quoteLines db2 = quoteLines db
      /\ Quotes.generateQuoteNumber db2 (year clock) (accountId user)
         = Quote.quoteNumber (Quotes.quote created).
Proof.
  intros db db1 clock user c resp Hfresh Hcreate.
  apply create_one_ok in Hcreate
    as (q & rows & Hquotes & Hlines & Hrows & Hnext & -> & Hid & Hacc & _ & Hgen).
  rewrite (fetch_inserted db db1 q rows Hfresh Hquotes Hid Hlines Hrows).
  exists (Quotes.mkQuoteWithLines q rows). simpl.
  destruct Hfresh as [Hids Hlids].
  assert (Hfound : exists r,
            Sql.findFirst (Quotes.owned (Quote.id q) (accountId user)) (quotes db1) = Some r).
  { apply findFirst_present. exists q. split.
    - rewrite Hquotes. apply in_or_app. right. left. reflexivity.
    - unfold Quotes.owned. rewrite Hacc, !Z.eqb_refl. reflexivity. }
  destruct Hfound as (r & Hr).
  unfold QuoteActions.delete, requireAccountAccess. rewrite Hr.
  eexists. eexists. split; [reflexivity|]. split; [reflexivity|]. simpl.
  assert (Hq2 : filter (fun x => negb (Quote.id x =? Quote.id q)) (quotes db1) = quotes db).
  { rewrite Hquotes, filter_app. simpl. rewrite Z.eqb_refl. simpl.
    rewrite app_nil_r. apply filter_all. intros x Hx.
    apply negb_true_iff, Z.eqb_neq. specialize (Hids x Hx). lia. }
  assert (Hl2 : filter (fun l => negb (QuoteLine.quoteId l =? Quote.id q)) (quoteLines db1)
                = quoteLines db).
  { rewrite Hlines, filter_app, (filter_none _ rows), app_nil_r.
    - apply filter_all. intros l Hl. apply negb_true_iff, Z.eqb_neq.
      specialize (Hlids l Hl). lia.
    - intros l Hl. apply negb_false_iff, Z.eqb_eq. rewrite Hid. apply Hrows. exact Hl. }
  split; [exact Hq2|]. split; [exact Hl2|].
  rewrite Hgen. apply generateQuoteNumber_quotes. simpl. exact Hq2.
Qed.

(** Alice creates a quote and deletes it again. *)
Lemma create_then_delete_restores_witness :
  exists db1 created db2 msg,
    Quotes.post Demo.db Demo.clock Demo.alice (Demo.create_quote 20) = Ok (db1, Some created)
    /\ Quote.quoteNumber (Quotes.quote created) = "QUO-2026-002"
    /\ QuoteActions.delete db1 Demo.alice (Quote.id (Quotes.quote created)) = Ok (db2, msg)
    /\ quotes db2 = quotes Demo.db
    /\ Quotes.generateQuoteNumber db2 2026 1 = "QUO-2026-002".
Proof.
  assert (Hrun : exists db1 resp,
             create_one Demo.db Demo.clock Demo.alice (ByPost (Demo.create_quote 20))
             = Ok (db1, resp)).
  { vm_compute. eexists. eexists. reflexivity. }
  destruct Hrun as (db1 & resp & Hrun).
  destruct (create_then_delete_restores Demo.db db1 Demo.clock Demo.alice _ resp
              demo_serials_fresh Hrun)
    as (created & db2 & msg & -> & Hdel & Hq & _ & Hgen).
  exists db1, created, db2, msg.
  assert (Hnum : Quote.quoteNumber (Quotes.quote created) = "QUO-2026-002").
  { rewrite <- Hgen. rewrite (generateQuoteNumber_quotes Demo.db db2 _ _ Hq). reflexivity. }
  split; [exact Hrun|]. split; [exact Hnum|]. split; [exact Hdel|].
  split; [exact Hq|]. rewrite <- Hnum. exact Hgen.
Defined.

(** X5. An update never changes which quote a row is or whose: the quotes
    table keeps its rows in their order with their id, account, customer,
    lead, number, creator and creation time, even when the body carries
    [customerId] or [leadId]; the rows of other ids are not touched at all,
    and neither are the lines of other quotes. *)
Theorem put_keeps_identity :
  forall (db db' : Db) (clock : Clock) (user : JwtPayload) (id : Z)
         (data : UpdateQuoteInput.t) (resp : option Quotes.QuoteWithLines),
    Quotes.put db clock user id data = Ok (db', resp) ->
    map quote_identity (quotes db') = map quote_identity (quotes db)
    /\ (forall q, In q (quotes db) -> Quote.id q <> id -> In q (quotes db'))
    /\ (forall j, j <> id -> Quotes.lines_of db' j = Quotes.lines_of db j).
Proof.
  intros db db' clock user id data resp Hput.
  apply put_ok in Hput as (existing & _ & Hquotes & Hlines & _).
  split; [|split].
  - rewrite Hquotes, map_map. apply map_ext.
    intros q. destruct (Quote.id q =? id); reflexivity.
  - intros q Hq Hne. rewrite Hquotes. apply in_map_iff. exists q.
    apply Z.eqb_neq in Hne. rewrite Hne. split; [reflexivity|exact Hq].
  - intros j Hj. unfold Quotes.lines_of. rewrite Hlines.
    destruct (UpdateQuoteInput.lines data) as [lines|]; [|reflexivity].
    rewrite filter_app, (filter_none _ (Quotes.new_lines _ _ _ _)), app_nil_r.
    + apply lines_kept. exact Hj.
    + intros l Hin. apply Z.eqb_neq.
      rewrite (new_lines_quoteId _ _ _ _ l Hin). congruence.
Qed.

(** Alice sends an update of quote 1 that names customer 2 and lead 7. *)
Lemma put_keeps_identity_witness :
  exists db' resp,
    Quotes.put Demo.db Demo.clock Demo.alice 1
      (UpdateQuoteInput.mk (Some 2) (Some 7) (Some "Renamed") None None None None None
         None None)
    = Ok (db', resp)
    /\ map quote_identity (quotes db') = [quote_identity Demo.quote1].
Proof.
  match goal with
  | |- exists db' resp, ?run = _ /\ _ =>
      assert (Hrun : exists db' resp, run = Ok (db', resp))
        by (vm_compute; eexists; eexists; reflexivity)
  end.
  destruct Hrun as (db' & resp & Hrun).
  exists db', resp. split; [exact Hrun|].
  exact (proj1 (put_keeps_identity Demo.db db' Demo.clock Demo.alice 1 _ resp Hrun)).
Defined.




(** ** The list route: scope, order and pages *)

Lemma In_firstn_like {A : Type} (n : nat) (l : list A) (z : A) :
  In z (firstn n l) -> In z l.
Proof.
  revert l. induction n as [|n IH]; intros l H; [contradiction|].
  destruct l as [|x r]; [contradiction|]. simpl in H.
  destruct H as [->|H]; [left; reflexivity|right; apply IH; exact H].
Qed.

Lemma In_skipn_like {A : Type} (n : nat) (l : list A) (z : A) :
  In z (skipn n l) -> In z l.
Proof.
  revert l. induction n as [|n IH]; intros l H; [exact H|].
  destruct l as [|x r]; [contradiction|]. right. apply IH. exact H.
Qed.

Section SortedRows.
Context {A : Type} (key : A -> Z).

Let later_first (a b : A) : Prop := key b <= key a.

Lemma insert_desc_sorted (x : A) (l : list A) :
  StronglySorted later_first l -> StronglySorted later_first (Sql.insert_desc key x l).
Proof.
  induction 1 as [|y r Hr IH Hall]; simpl.
  - constructor; constructor.
  - destruct (Z.ltb_spec (key y) (key x)).
    + constructor; [constructor; assumption|].
      constructor; [unfold later_first; lia|].
      eapply Forall_impl; [|exact Hall]. unfold later_first. intros z Hz. lia.
    + constructor; [exact IH|].
      apply Forall_forall. intros z Hz. apply In_insert_desc in Hz as [->|Hz].
      * unfold later_first. lia.
      * rewrite Forall_forall in Hall. apply Hall. exact Hz.
Qed.

Lemma orderBy_desc_sorted (l : list A) :
  StronglySorted later_first (Sql.orderBy_desc key l).
Proof.
  induction l as [|x r IH]; simpl; [constructor|].
  apply insert_desc_sorted. exact IH.
Qed.

Lemma sorted_skipn (n : nat) (l : list A) :
  StronglySorted later_first l -> StronglySorted later_first (skipn n l).
Proof.
  revert l. induction n as [|n IH]; intros l H; [exact H|].
  destruct l as [|x r]; [constructor|]. simpl. apply IH.
  inversion H; assumption.
Qed.

Lemma sorted_firstn (n : nat) (l : list A) :
  StronglySorted later_first l -> StronglySorted later_first (firstn n l).
Proof.
  revert l. induction n as [|n IH]; intros l H; [constructor|].
  destruct l as [|x r]; [constructor|]. simpl.
  inversion H as [|? ? Hr Hall]; subst. constructor; [apply IH; exact Hr|].
  apply Forall_forall. intros z Hz. rewrite Forall_forall in Hall. apply Hall.
  eapply In_firstn_like; exact Hz.
Qed.

End SortedRows.

(** X7. Whatever the page, the list route returns only quotes of the
    caller's account that satisfy the status and customer filters of the
    query, and returns them latest first. *)
Theorem list_page_scoped_and_sorted :
  forall (db : Db) (user : JwtPayload) (query : QuoteQueryInput.t),
    let r := Quotes.list_page db user query in
    latest_first (Quotes.data r)
    /\ forall q, In q (Quotes.data r) ->
         In q (quotes db)
         /\ Quote.accountId q = accountId user
         /\ (forall s, QuoteQueryInput.status query = Some s -> Quote.status q = s)
         /\ (forall c, QuoteQueryInput.customerId query = Some c -> Quote.customerId q = c).
Proof.
  intros db user query r. unfold r, Quotes.list_page, requireAccountAccess. simpl.
  split.
  - unfold latest_first, Sql.limit_offset.
    apply sorted_firstn, sorted_skipn, orderBy_desc_sorted.
  - intros q Hq. unfold Sql.limit_offset in Hq.
    apply In_firstn_like, In_skipn_like, In_orderBy_desc, filter_In in Hq as [Hin Hw].
    unfold Quotes.list_where in Hw.
    apply andb_prop in Hw as [Hw Hcust]. apply andb_prop in Hw as [Hw Hstat].
    apply andb_prop in Hw as [Hacc _]. apply Z.eqb_eq in Hacc.
    split; [exact Hin|]. split; [exact Hacc|]. split.
    + intros s Hs. rewrite Hs in Hstat.
      destruct (Quote.status q), s; try discriminate Hstat; reflexivity.
    + intros c Hc. rewrite Hc in Hcust. apply Z.eqb_eq. exact Hcust.
Qed.





(** ** The quote number generator beyond the sequence *)









Lemma digit_facts (c : ascii) :
  Js.is_digit c = true ->
  Js.to_lower c = c /\ plain c = true /\ Ascii.eqb c "-" = false /\ Ascii.eqb "-" c = false.
Proof.
  destruct c as [[] [] [] [] [] [] [] []]; intros H; try discriminate H;
    repeat split; reflexivity.
Qed.

Lemma lower_digits (s : string) : all_digits s = true -> Sql.lower s = s.
Proof.
  induction s as [|c r IH]; simpl; intros H; [reflexivity|].
  apply andb_prop in H as [Hc Hr].
  destruct (digit_facts c Hc) as (-> & _). rewrite (IH Hr). reflexivity.
Qed.

Lemma like_plain_cons (c : ascii) (p s : string) :
  plain c = true ->
  Sql.like (String c p) s
  = match s with
    | EmptyString => false
    | String d s' => Ascii.eqb c d && Sql.like p s'
    end.
Proof.
  intros Hc. unfold plain in Hc.
  apply andb_prop in Hc as [Hc H3]. apply andb_prop in Hc as [H1 H2].
  apply negb_true_iff in H1, H2, H3.
  simpl. rewrite H1, H2, H3. reflexivity.
Qed.

(** Two runs of digits, each followed by ["-"], match only when equal. *)
Lemma like_digits_then_dash (y y' rest : string) :
  all_digits y = true -> all_digits y' = true ->
  Sql.like (y ++ "-%") (y' ++ String "-" rest) = true -> y = y'.
Proof.
  revert y'. induction y as [|c r IH]; intros y' Hy Hy' H.
  - destruct y' as [|d r']; [reflexivity|].
    simpl in Hy'. apply andb_prop in Hy' as [Hd _].
    destruct (digit_facts d Hd) as (_ & _ & _ & Hdash).
    change (("" ++ "-%")%string) with (String "-" "%") in H.
    change ((String d r' ++ String "-" rest)%string)
      with (String d (r' ++ String "-" rest)) in H.
    rewrite like_plain_cons in H by reflexivity.
    cbv beta iota in H. rewrite Hdash in H. discriminate H.
  - simpl in Hy. apply andb_prop in Hy as [Hc Hr].
    destruct (digit_facts c Hc) as (_ & Hplain & Hdash & _).
    change ((String c r ++ "-%")%string) with (String c (r ++ "-%")) in H.
    rewrite (like_plain_cons c _ _ Hplain) in H.
    destruct y' as [|d r'].
    + change (("" ++ String "-" rest)%string) with (String "-" rest) in H.
      cbv beta iota in H. rewrite Hdash in H. discriminate H.
    + change ((String d r' ++ String "-" rest)%string)
        with (String d (r' ++ String "-" rest)) in H.
      cbv beta iota in H.
      apply andb_prop in H as [Heq H]. apply Ascii.eqb_eq in Heq. subst d.
      simpl in Hy'. apply andb_prop in Hy' as [_ Hr'].
      rewrite (IH r' Hr Hr' H). reflexivity.
Qed.

Lemma toString_inj (m n : N) : Js.toString m = Js.toString n -> m = n.
Proof.
  unfold Js.toString. intros H.
  apply DecimalN.Unsigned.to_uint_inj.
  pose proof (NilEmpty.usu (N.to_uint m)) as Hm. rewrite H, NilEmpty.usu in Hm.
  injection Hm as Hm. symmetry. exact Hm.
Qed.

(** A number made for one year matches the pattern of that year only. *)
Lemma ilike_other_year (y y' n : N) :
  Sql.ilike (quote_number y' n) (Quotes.year_pattern y) = true -> y = y'.
Proof.
  unfold Sql.ilike, Quotes.year_pattern, quote_number. intros H.
  change ("QUO-" ++ Js.toString y ++ "-%")%string
    with ("QUO-" ++ (Js.toString y ++ "-%"))%string in H.
  rewrite !(lower_app "QUO-"), !lower_app in H.
  rewrite (like_plain_prefix (Sql.lower "QUO-")) in H by reflexivity.
  rewrite !(lower_digits (Js.toString _)) in H by apply toString_digits.
  apply toString_inj.
  apply (like_digits_then_dash _ _ _ (toString_digits y) (toString_digits y') H).
Qed.

(** X11. The sequence starts again each year: when every quote of the
    account carries a number made for another year, the generator answers
    [QUO-<year>-001], however far the other years' sequences have run. *)
Theorem other_years_do_not_count :
  forall (db : Db) (year : N) (account : Z),
    (forall q, In q (quotes db) -> Quote.accountId q = account ->
       exists y' k, y' <> year /\ Quote.quoteNumber q = quote_number y' k) ->
    Quotes.generateQuoteNumber db year account
    = ("QUO-" ++ Js.toString year ++ "-001")%string.
Proof.
  intros db year account Hother.
  apply generate_first, latestQuote_none. intros q Hq.
  unfold Quotes.in_year. destruct (Z.eqb_spec (Quote.accountId q) account) as [Ha|];
    [|reflexivity].
  destruct (Hother q Hq Ha) as (y' & k & Hne & Hnum). rewrite Hnum. simpl.
  destruct (Sql.ilike (quote_number y' k) (Quotes.year_pattern year)) eqn:E; [|reflexivity].
  apply ilike_other_year in E. congruence.
Qed.

(** Account 1 of the demo database holds [QUO-2026-001]; in 2027 its
    sequence starts at 001. *)
Lemma other_years_do_not_count_witness :
  Quotes.generateQuoteNumber Demo.db 2027 1 = "QUO-2027-001".
Proof.
  apply (other_years_do_not_count Demo.db 2027 1).
  intros q [<-|[]] _. exists 2026%N, 1%N. split; [discriminate|reflexivity].
Defined.

(** ** Searching *)

Lemma like_percent_cons (q s : string) :
  Sql.like (String "%" q) s
  = Sql.like q s
    || match s with
       | EmptyString => false
       | String _ s' => Sql.like (String "%" q) s'
       end.
Proof. destruct s; reflexivity. Qed.

Lemma like_percent_skip (q a t : string) :
  Sql.like q t = true -> Sql.like (String "%" q) (a ++ t) = true.
Proof.
  intros H. induction a as [|c r IH].
  - simpl append. rewrite like_percent_cons, H. reflexivity.
  - change ((String c r ++ t)%string) with (String c (r ++ t)).
    rewrite like_percent_cons, IH. apply orb_true_r.
Qed.

(** A term without wildcards is found wherever it occurs. *)
Lemma ilike_substring (s x : string) :
  plain_string (Sql.lower s) = true -> occurs_in s x ->
  Sql.ilike x ("%" ++ s ++ "%") = true.
Proof.
  intros Hplain (a & t & b & -> & Ht). unfold Sql.ilike.
  change ("%" ++ s ++ "%")%string with (String "%" (s ++ "%")).
  rewrite !lower_app, Ht.
  change (Sql.lower (String "%" (s ++ "%"))) with (String "%" (Sql.lower (s ++ "%"))).
  rewrite lower_app. apply like_percent_skip.
  rewrite (like_plain_prefix _ _ _ Hplain). apply like_percent.
Qed.

Lemma list_where_search (account : Z) (query : QuoteQueryInput.t) (q : Quote.row)
    (s : string) :
  QuoteQueryInput.search query = Some s -> s <> EmptyString ->
  Quotes.list_where account query q
  = (Quote.accountId q =? account)
    && (Sql.ilike (Quote.quoteNumber q) ("%" ++ s ++ "%")
        || Sql.ilike_opt (Quote.title q) ("%" ++ s ++ "%")
        || Sql.ilike_opt (Quote.notes q) ("%" ++ s ++ "%"))
    && match QuoteQueryInput.status query with
       | None => true
       | Some status => QuoteStatus_eqb (Quote.status q) status
       end
    && match QuoteQueryInput.customerId query with
       | None => true
       | Some c => Quote.customerId q =? c
       end.
Proof.
  intros Hs Hne. unfold Quotes.list_where. rewrite Hs.
  destruct s; [contradiction|reflexivity].
Qed.

(** X12. The search of the list route finds a term wherever it occurs, up
    to letter case, in the number, the title or the notes of a quote,
    provided the term has none of the characters [%], [_] and backslash.
    Those are not escaped: the term [%] matches every quote. *)
Theorem search_finds_occurrences :
  forall (account : Z) (query : QuoteQueryInput.t) (q : Quote.row) (s : string),
    QuoteQueryInput.search query = Some s ->
    QuoteQueryInput.status query = None ->
    QuoteQueryInput.customerId query = None ->
    Quote.accountId q = account ->
    (plain_string (Sql.lower s) = true
     /\ (occurs_in s (Quote.quoteNumber q)
         \/ (exists t, Quote.title q = Some t /\ occurs_in s t)
         \/ (exists t, Quote.notes q = Some t /\ occurs_in s t)))
    \/ s = "%" ->
    Quotes.list_where account query q = true.
Proof.
  intros account query q s Hs Hst Hc Hacc Hcase.
  destruct (string_dec s EmptyString) as [E|E].
  - unfold Quotes.list_where. rewrite Hs, Hst, Hc, Hacc, Z.eqb_refl, E. reflexivity.
  - rewrite (list_where_search account query q s Hs E), Hst, Hc, Hacc, Z.eqb_refl.
    rewrite !andb_true_r, andb_true_l.
    destruct Hcase as [[Hplain Hocc]| ->].
    + destruct Hocc as [H|[(t & Ht & H)|(t & Ht & H)]].
      * rewrite (ilike_substring _ _ Hplain H). reflexivity.
      * rewrite Ht. unfold Sql.ilike_opt. rewrite (ilike_substring _ _ Hplain H).
        apply orb_true_iff. left. apply orb_true_r.
      * rewrite Ht. unfold Sql.ilike_opt. rewrite (ilike_substring _ _ Hplain H).
        apply orb_true_r.
    + assert (H : Sql.ilike (Quote.quoteNumber q) ("%" ++ "%" ++ "%") = true).
      { unfold Sql.ilike.
        change (Sql.lower ("%" ++ "%" ++ "%")) with (String "%" (String "%" "%")).
        rewrite like_percent_cons, like_percent_cons, like_percent. reflexivity. }
      rewrite H. reflexivity.
Qed.

(** Searching the demo quote for [boil], which its title has as [Boil]. *)
Lemma search_finds_occurrences_witness :
  Quotes.list_where 1 (QuoteQueryInput.mk 1 20 (Some "boil") None None) Demo.quote1 = true.
Proof.
  apply (search_finds_occurrences 1 _ Demo.quote1 "boil"); try reflexivity.
  left. split; [reflexivity|]. right. left. exists "Boiler". split; [reflexivity|].
  exists "", "Boil", "er". split; reflexivity.
Defined.

(** ** More invariants of the quote routes *)

Lemma copied_lines_amounts (quoteId firstId : Z) (lines : list QuoteLine.row) :
  map row_amounts (Quotes.copied_lines quoteId firstId lines) = map row_amounts lines.
Proof.
  revert firstId. induction lines as [|l r IH]; intros firstId; simpl; [reflexivity|].
  rewrite IH. reflexivity.
Qed.

(** X13. Duplicating keeps the totals true: in a database whose quotes all
    agree with their lines, they still all do after a successful duplicate,
    the copy included, although its totals are copied and not computed. *)
Theorem duplicate_keeps_consistent :
  forall (db db' : Db) (clock : Clock) (user : JwtPayload) (id : Z)
         (resp : option Quotes.QuoteWithLines),
    serials_fresh db ->
    quotes_consistent db ->
    Quotes.duplicate db clock user id = Ok (db', resp) ->
    quotes_consistent db'.
Proof.
  intros db db' clock user id resp Hfresh Hcons Hdup.
  apply duplicate_ok in Hdup as (original & Hfind & Hquotes & Hlines & _ & _).
  apply findFirst_some in Hfind as [Hin Howned].
  unfold Quotes.owned in Howned. apply andb_prop in Howned as [Hid _].
  apply Z.eqb_eq in Hid.
  pose proof (copied_lines_quoteId (next_quote db) (next_quoteLine db)
                (Quotes.lines_of db id)) as Hrows.
  intros q Hq. rewrite Hquotes in Hq. apply in_app_or in Hq as [Hq|[<-|[]]].
  - rewrite (lines_of_app db db' _ (Quote.id q) Hlines); [apply Hcons; exact Hq|].
    intros l Hl. rewrite (Hrows l Hl). destruct Hfresh as [Hids _].
    specialize (Hids q Hq). lia.
  - change (Quote.id (Quotes.duplicated_quote db clock user original)) with (next_quote db).
    rewrite (lines_of_inserted db db' _ Hfresh Hlines Hrows).
    specialize (Hcons original Hin). rewrite Hid in Hcons.
    unfold totals_consistent in *. simpl. rewrite copied_lines_amounts. exact Hcons.
Qed.

(** Alice duplicates quote 1 of the demo database. *)
Lemma duplicate_keeps_consistent_witness :
  exists db' resp,
    Quotes.duplicate Demo.db Demo.clock Demo.alice 1 = Ok (db', resp)
    /\ quotes_consistent db'.
Proof.
  match goal with
  | |- exists db' resp, ?run = _ /\ _ =>
      assert (Hrun : exists db' resp, run = Ok (db', resp))
        by (vm_compute; eexists; eexists; reflexivity)
  end.
  destruct Hrun as (db' & resp & Hrun).
  exists db', resp. split; [exact Hrun|].
  exact (duplicate_keeps_consistent Demo.db db' Demo.clock Demo.alice 1 resp
           demo_serials_fresh demo_consistent Hrun).
Defined.







(** ** Reading back what was created *)








(** ** Quotes and their customers *)

Lemma post_customers (db db' : Db) (clock : Clock) (user : JwtPayload)
    (data : CreateQuoteInput.t) (resp : option Quotes.QuoteWithLines) :
  Quotes.post db clock user data = Ok (db', resp) ->
  customers db' = customers db
  /\ exists c, In c (customers db)
               /\ Customer.id c = CreateQuoteInput.customerId data
               /\ Customer.accountId c = accountId user.
Proof.
  unfold Quotes.post, requireAccountAccess.
  destruct (Sql.findFirst _ (customers db)) as [c|] eqn:E; [|discriminate].
  unfold Quotes.insert_quote. destruct (existsb _ (quotes db)); simpl; [discriminate|].
  intros H. injection H as <- _. simpl. split; [reflexivity|].
  apply findFirst_some in E as [Hin Hc]. apply andb_prop in Hc as [Hid Hacc].
  apply Z.eqb_eq in Hid, Hacc. exists c. repeat split; assumption.
Qed.

Lemma duplicate_customers (db db' : Db) (clock : Clock) (user : JwtPayload) (id : Z)
    (resp : option Quotes.QuoteWithLines) :
  Quotes.duplicate db clock user id = Ok (db', resp) -> customers db' = customers db.
Proof.
  unfold Quotes.duplicate, requireAccountAccess.
  destruct (Sql.findFirst _ (quotes db)); [|discriminate].
  unfold Quotes.insert_quote. destruct (existsb _ (quotes db)); simpl; [discriminate|].
  intros H. injection H as <- _. reflexivity.
Qed.

Lemma put_customers (db db' : Db) (clock : Clock) (user : JwtPayload) (id : Z)
    (data : UpdateQuoteInput.t) (resp : option Quotes.QuoteWithLines) :
  Quotes.put db clock user id data = Ok (db', resp) -> customers db' = customers db.
Proof.
  unfold Quotes.put, requireAccountAccess.
  destruct (Sql.findFirst _ (quotes db)); [|discriminate].
  destruct (UpdateQuoteInput.lines data); simpl; intros H; injection H as <- _; reflexivity.
Qed.

Lemma customer_delete_ok (db db' : Db) (user : JwtPayload) (id : Z) (msg : string) :
  CustomerRoutes.delete db user id = Ok (db', msg) ->
  customers db' = filter (fun c => negb (Customer.id c =? id)) (customers db)
  /\ quotes db' = filter (fun q => negb (Quote.customerId q =? id)) (quotes db)
  /\ quoteLines db'
     = filter (fun l => negb (existsb (Z.eqb (QuoteLine.quoteId l))
                                (map Quote.id
                                   (filter (fun q => Quote.customerId q =? id) (quotes db)))))
         (quoteLines db)
  /\ products db' = products db.
Proof.
  unfold CustomerRoutes.delete, requireAccountAccess.
  destruct (Sql.findFirst _ (customers db)); [|discriminate].
  intros H. injection H as <- _. simpl. repeat split.
Qed.

(** X16. A quote always belongs to a customer of its own account: create
    checks it, duplicate and update cannot change either side, deleting a
    quote removes nothing else, and deleting a customer takes the customer's
    quotes with it, so no quote is left pointing at a missing customer. *)
Theorem quotes_stay_linked :
  forall (db : Db) (clock : Clock) (user : JwtPayload),
    quotes_linked db ->
    (forall c db' resp, create_one db clock user c = Ok (db', resp) -> quotes_linked db')
    /\ (forall id data db' resp,
          Quotes.put db clock user id data = Ok (db', resp) -> quotes_linked db')
    /\ (forall id db' msg,
          QuoteActions.delete db user id = Ok (db', msg) -> quotes_linked db')
    /\ (forall id db' msg,
          CustomerRoutes.delete db user id = Ok (db', msg) -> quotes_linked db').
Proof.
  intros db clock user Hlinked. split; [|split; [|split]].
  - intros c db' resp Hcreate q Hq. destruct c as [data|id]; simpl in Hcreate.
    + destruct (post_customers _ _ _ _ _ _ Hcreate) as (Hc & cust & Hin & Hid & Hacc).
      apply post_ok in Hcreate as (Hquotes & _).
      rewrite Hc. rewrite Hquotes in Hq. apply in_app_or in Hq as [Hq|[<-|[]]].
      * apply Hlinked. exact Hq.
      * exists cust. repeat split; assumption.
    + pose proof (duplicate_customers _ _ _ _ _ _ Hcreate) as Hc.
      apply duplicate_ok in Hcreate as (original & Hfind & Hquotes & _).
      apply findFirst_some in Hfind as [Hin Howned].
      unfold Quotes.owned in Howned. apply andb_prop in Howned as [_ Hacc].
      apply Z.eqb_eq in Hacc.
      rewrite Hc. rewrite Hquotes in Hq. apply in_app_or in Hq as [Hq|[<-|[]]].
      * apply Hlinked. exact Hq.
      * destruct (Hlinked original Hin) as (cust & Hcin & Hcid & Hcacc).
        exists cust. simpl. repeat split; try assumption.
        unfold requireAccountAccess. congruence.
  - intros id data db' resp Hput q' Hq'.
    rewrite (put_customers _ _ _ _ _ _ _ Hput).
    apply put_ok in Hput as (existing & _ & Hquotes & _).
    rewrite Hquotes in Hq'. apply in_map_iff in Hq' as (q & <- & Hq).
    destruct (Hlinked q Hq) as (cust & Hin & Hid & Hacc).
    exists cust. destruct (Quote.id q =? id); repeat split; assumption.
  - intros id db' msg Hdel q Hq.
    apply quote_delete_ok in Hdel as (_ & Hquotes & _ & Hc & _).
    rewrite Hc. rewrite Hquotes in Hq. apply filter_In in Hq as [Hq _].
    apply Hlinked. exact Hq.
  - intros id db' msg Hdel q Hq.
    apply customer_delete_ok in Hdel as (Hc & Hquotes & _).
    rewrite Hquotes in Hq. apply filter_In in Hq as [Hq Hne].
    destruct (Hlinked q Hq) as (cust & Hin & Hid & Hacc).
    exists cust. split; [|split; assumption].
    rewrite Hc. apply filter_In. split; [exact Hin|]. rewrite Hid. exact Hne.
Qed.

Lemma demo_linked : quotes_linked Demo.db.
Proof.
  intros q [<-|[]]. exists Demo.customer1. repeat split. left. reflexivity.
Qed.

(** Alice deletes customer 1, who has the only quote of the demo database. *)
Lemma quotes_stay_linked_witness :
  exists db' msg,
    CustomerRoutes.delete Demo.db Demo.alice 1 = Ok (db', msg)
    /\ quotes db' = [] /\ quotes_linked db'.
Proof.
  destruct (quotes_stay_linked Demo.db Demo.clock Demo.alice demo_linked)
    as (_ & _ & _ & Hdel).
  eexists. eexists. split; [reflexivity|]. split; [reflexivity|].
  exact (Hdel 1 _ _ eq_refl).
Defined.

(** ** Products: the SKU on update, and deleting *)

Lemma sku_injective (db : Db) (x y : Product.row) :
  skus_unique db -> In x (products db) -> In y (products db) ->
  Product.sku x = Product.sku y -> x = y.
Proof.
  unfold skus_unique. induction (products db) as [|a r IH]; intros Hnd Hx Hy Heq;
    [destruct Hx|].
  simpl in Hnd. inversion Hnd as [|? ? Hnotin Hnd']; subst.
  destruct Hx as [<-|Hx], Hy as [<-|Hy].
  - reflexivity.
  - exfalso. apply Hnotin. rewrite Heq. apply in_map. exact Hy.
  - exfalso. apply Hnotin. rewrite <- Heq. apply in_map. exact Hx.
  - apply IH; assumption.
Qed.

Lemma product_put_found (st : Store) (clock : Clock) (user : JwtPayload) (id : Z)
    (data : UpdateProductInput.t) (existing : Product.row) :
  NoDup (map Product.id (products (base st))) ->
  In existing (products (base st)) -> Product.id existing = id ->
  Sql.findFirst (fun p => Product.id p =? id)
    (map (fun p => if Product.id p =? id then ProductRoutes.updated_row data p else p)
       (products (base st)))
  = Some (ProductRoutes.updated_row data existing).
Proof.
  intros Hnd Hin <-.
  apply (map_update_in Product.id (ProductRoutes.updated_row data)); auto.
Qed.

(** X17. Updating a product with a SKU in the body, on a table whose ids
    and SKUs are unique: the update goes through exactly when the SKU is the
    product's own or is used by no product at all, and the row returned then
    carries it.  Otherwise the one product that has the SKU decides the
    error: a product of the caller's account gives the ConflictError (409),
    a product of another account passes the route's check and fails on the
    column's UNIQUE constraint, which is not an AppError (500). *)
Theorem product_update_sku_outcomes :
  forall (st : Store) (clock : Clock) (user : JwtPayload) (id : Z)
         (data : UpdateProductInput.t) (existing : Product.row) (s : string),
    primary_keys (base st) -> skus_unique (base st) ->
    Sql.findFirst (ProductRoutes.owned id (accountId user)) (products (base st))
    = Some existing ->
    UpdateProductInput.sku data = Some s -> s <> EmptyString ->
    match ProductRoutes.put st clock user id data with
    | Ok (_, updated) =>
        (s = Product.sku existing
         \/ forall p, In p (products (base st)) -> Product.sku p <> s)
        /\ exists p, updated = Some p /\ Product.id p = id /\ Product.sku p = s
    | Throw e =>
        exists other,
          In other (products (base st)) /\ Product.sku other = s
          /\ Product.id other <> id
          /\ e = if Product.accountId other =? accountId user
                 then Errors.App
                        (Errors.new_ConflictError "Product with this SKU already exists")
                 else Errors.Driver
                        "duplicate key value violates unique constraint products_sku_unique"
    end.
Proof.
  intros st clock user id data existing s (_ & _ & Hids) Hskus Hfind Hsku Hne.
  pose proof (findFirst_some _ _ _ Hfind) as [Hin Howned].
  unfold ProductRoutes.owned in Howned. apply andb_prop in Howned as [Hid Hacc].
  apply Z.eqb_eq in Hid, Hacc.
  assert (Hother : forall p, In p (products (base st)) -> Product.sku p = s ->
                             s <> Product.sku existing -> Product.id p <> id).
  { intros p Hp Hps Hdiff Hpid. apply Hdiff.
    rewrite (primary_key_injective Product.id _ p existing Hids Hp Hin) in Hps;
      congruence. }
  assert (Hupdated : exists p,
             Sql.findFirst (fun p => Product.id p =? id)
               (map (fun p => if Product.id p =? id
                              then ProductRoutes.updated_row data p else p)
                  (products (base st))) = Some p
             /\ Product.id p = id /\ Product.sku p = s).
  { exists (ProductRoutes.updated_row data existing). split; [|split].
    - apply product_put_found; assumption.
    - exact Hid.
    - simpl. rewrite Hsku. reflexivity. }
  unfold ProductRoutes.put, requireAccountAccess. rewrite Hfind.
  unfold ProductRoutes.sku_changes. rewrite Hsku.
  destruct s as [|c0 s0]; [contradiction|].
  cbv beta iota zeta.
  set (s := String c0 s0) in *.
  destruct (String.eqb s (Product.sku existing)) eqn:Esame.
  - apply String.eqb_eq in Esame.
    assert (Hfree : ProductRoutes.sku_taken_by_other (base st) id s = false).
    { unfold ProductRoutes.sku_taken_by_other.
      destruct (existsb _ (products (base st))) eqn:E; [|reflexivity].
      apply existsb_exists in E as (r & Hr & Hcond).
      apply andb_prop in Hcond as [Hrid Hrs].
      apply String.eqb_eq in Hrs.
      rewrite (sku_injective _ r existing Hskus Hr Hin) in Hrid by congruence.
      rewrite Hid, Z.eqb_refl in Hrid. discriminate. }
    rewrite Hfree. destruct Hupdated as (p & -> & Hp).
    split; [left; exact Esame|]. exists p. split; [reflexivity|exact Hp].
  - apply String.eqb_neq in Esame.
    destruct (Sql.findFirst
                (fun p => String.eqb (Product.sku p) s
                          && (Product.accountId p =? accountId user))
                (products (base st))) as [c|] eqn:Econflict.
    + apply findFirst_some in Econflict as [Hc Hcond].
      apply andb_prop in Hcond as [Hcs Hca]. apply String.eqb_eq in Hcs.
      exists c. rewrite Hca. repeat split; auto.
    + destruct (ProductRoutes.sku_taken_by_other (base st) id s) eqn:Etaken.
      * unfold ProductRoutes.sku_taken_by_other in Etaken.
        apply existsb_exists in Etaken as (r & Hr & Hcond).
        apply andb_prop in Hcond as [Hrid Hrs].
        apply String.eqb_eq in Hrs. apply negb_true_iff, Z.eqb_neq in Hrid.
        exists r. repeat split; auto.
        destruct (Product.accountId r =? accountId user) eqn:Era; [|reflexivity].
        exfalso.
        destruct (findFirst_exists
                    (fun p => String.eqb (Product.sku p) s
                              && (Product.accountId p =? accountId user))
                    (products (base st)) r Hr) as (r' & Hr').
        { rewrite Era, andb_true_r. apply String.eqb_eq. exact Hrs. }
        rewrite Hr' in Econflict. discriminate.
      * destruct Hupdated as (p & -> & Hp). split.
        -- right. intros p' Hp' Hps.
           assert (E : ProductRoutes.sku_taken_by_other (base st) id s = true).
           { apply existsb_exists. exists p'. split; [exact Hp'|].
             apply andb_true_intro. split.
             - apply negb_true_iff, Z.eqb_neq. apply Hother; assumption.
             - apply String.eqb_eq. exact Hps. }
           rewrite E in Etaken. discriminate.
        -- exists p. split; [reflexivity|exact Hp].
Qed.

Lemma scenario_primary_keys : primary_keys Scenario.db.
Proof.
  destruct demo_primary_keys as (Hc & Hq & _).
  split; [exact Hc|split; [exact Hq|]].
  simpl. repeat constructor; simpl; intuition discriminate.
Qed.

Lemma scenario_skus_unique : skus_unique Scenario.db.
Proof.
  unfold skus_unique. simpl. repeat constructor; simpl; intuition discriminate.
Qed.

(** Alice renames her product to the SKU of carol's product: a driver
    error, answered with status 500. *)
Lemma product_update_sku_outcomes_witness :
  exists e,
    ProductRoutes.put (store_of Scenario.db) Demo.clock Demo.alice 1 (Scenario.rename "Y1")
    = Throw e
    /\ Errors.errorHandler_status e = Js.Num 500.
Proof.
  pose proof (product_update_sku_outcomes (store_of Scenario.db) Demo.clock Demo.alice 1
                (Scenario.rename "Y1") Demo.product1 "Y1"
                scenario_primary_keys scenario_skus_unique eq_refl eq_refl) as H.
  assert (Hne : "Y1" <> EmptyString) by discriminate.
  specialize (H Hne). revert H.
  destruct (ProductRoutes.put (store_of Scenario.db) Demo.clock Demo.alice 1
              (Scenario.rename "Y1")) as [[st' updated]|e] eqn:E.
  - vm_compute in E. discriminate.
  - intros (other & Hin & Hs & _ & ->). eexists. split; [reflexivity|].
    destruct Hin as [<-|[<-|[]]]; [discriminate Hs|reflexivity].
Defined.

Lemma new_lines_product (quoteId firstId index : Z) (lines : list QuoteLineInput.t)
    (line : QuoteLineInput.t) :
  In line lines ->
  exists l, In l (Quotes.new_lines quoteId firstId index lines)
            /\ QuoteLine.productId l = QuoteLineInput.productId line.
Proof.
  revert firstId index. induction lines as [|x r IH]; intros firstId index Hin;
    [destruct Hin|].
  destruct Hin as [<-|Hin].
  - eexists. split; [left; reflexivity|reflexivity].
  - destruct (IH (firstId + 1) (index + 1) Hin) as (l & Hl & Hp).
    exists l. split; [right; exact Hl|exact Hp].
Qed.

Lemma product_delete_blocked (db : Db) (user : JwtPayload) (id : Z) (l : QuoteLine.row) :
  In l (quoteLines db) -> QuoteLine.productId l = Some id ->
  exists e, ProductRoutes.delete db user id = Throw e.
Proof.
  intros Hl Hp. unfold ProductRoutes.delete.
  destruct (Sql.findFirst _ (products db)); [|eexists; reflexivity].
  assert (E : existsb (fun l => match QuoteLine.productId l with
                                | Some p => p =? id
                                | None => false
                                end) (quoteLines db) = true).
  { apply existsb_exists. exists l. split; [exact Hl|].
    rewrite Hp. apply Z.eqb_refl. }
  rewrite E. eexists. reflexivity.
Qed.

(** X18. Deleting a product: it succeeds only when no quote line refers to
    the product, and then removes that row and nothing else, after which the
    product is no longer found; when it fails, either the product is not one
    of the caller's (404) or a quote line still refers to it, which the
    route does not check and the database refuses (500). *)
Theorem product_delete_restricted :
  forall (db : Db) (user : JwtPayload) (id : Z),
    match ProductRoutes.delete db user id with
    | Ok (db', _) =>
        (forall l, In l (quoteLines db) -> QuoteLine.productId l <> Some id)
        /\ products db' = filter (fun p => negb (Product.id p =? id)) (products db)
        /\ quotes db' = quotes db /\ quoteLines db' = quoteLines db
        /\ customers db' = customers db
        /\ Products.get_by_id db' user id
           = Throw (Errors.App (Errors.new_NotFoundError "Product not found"))
    | Throw e =>
        (e = Errors.App (Errors.new_NotFoundError "Product not found")
         /\ Products.get_by_id db user id = Throw e)
        \/ (Errors.errorHandler_status e = Js.Num 500
            /\ exists l, In l (quoteLines db) /\ QuoteLine.productId l = Some id)
    end.
Proof.
  intros db user id. unfold ProductRoutes.delete, Products.get_by_id, requireAccountAccess.
  change (fun p => (Product.id p =? id) && (Product.accountId p =? accountId user))
    with (ProductRoutes.owned id (accountId user)).
  destruct (Sql.findFirst _ (products db)) as [existing|] eqn:Hfind.
  - destruct (existsb _ (quoteLines db)) eqn:Eused.
    + right. split; [reflexivity|].
      apply existsb_exists in Eused as (l & Hl & Hp). exists l. split; [exact Hl|].
      destruct (QuoteLine.productId l) as [p|]; [|discriminate].
      apply Z.eqb_eq in Hp. congruence.
    + simpl. repeat split.
      * intros l Hl Hp.
        assert (E : existsb (fun l => match QuoteLine.productId l with
                                      | Some p => p =? id
                                      | None => false
                                      end) (quoteLines db) = true).
        { apply existsb_exists. exists l. split; [exact Hl|].
          rewrite Hp. apply Z.eqb_refl. }
        rewrite E in Eused. discriminate.
      * rewrite findFirst_none; [reflexivity|].
        intros r Hr. apply filter_In in Hr as [_ Hr].
        unfold ProductRoutes.owned. apply negb_true_iff in Hr. rewrite Hr. reflexivity.
  - left. split; reflexivity.
Qed.

(** X19. The product of a quote line is not checked against the caller's
    account when a quote is created, and a line blocks the deletion of its
    product: once any caller has created a quote with a line on product [p],
    nobody's request to delete [p] succeeds, the owner's included. *)
Theorem quoted_product_cannot_be_deleted :
  forall (db db' : Db) (clock : Clock) (user owner : JwtPayload)
         (data : CreateQuoteInput.t) (resp : option Quotes.QuoteWithLines)
         (line : QuoteLineInput.t) (p : Z),
    Quotes.post db clock user data = Ok (db', resp) ->
    In line (CreateQuoteInput.lines data) ->
    QuoteLineInput.productId line = Some p ->
    products db' = products db
    /\ exists e, ProductRoutes.delete db' owner p = Throw e.
Proof.
  intros db db' clock user owner data resp line p Hpost Hline Hp.
  pose proof Hpost as Hpost'.
  apply post_ok in Hpost as (_ & Hlines & _).
  split.
  - revert Hpost'. unfold Quotes.post, requireAccountAccess.
    destruct (Sql.findFirst _ (customers db)); [|discriminate].
    unfold Quotes.insert_quote. destruct (existsb _ (quotes db)); simpl; [discriminate|].
    intros H. injection H as <- _. reflexivity.
  - destruct (new_lines_product (next_quote db) (next_quoteLine db) 0 _ line Hline)
      as (l & Hl & Hlp).
    apply (product_delete_blocked db' owner p l).
    + rewrite Hlines. apply in_or_app. right. exact Hl.
    + congruence.
Qed.

(** Carol quotes alice's product 1 to her own customer; alice can then not
    delete the product, even once her own quote is gone. *)
Lemma quoted_product_cannot_be_deleted_witness :
  exists db1 msg,
    QuoteActions.delete Scenario.db Demo.alice 1 = Ok (db1, msg)
    /\ exists db2 resp e,
         Quotes.post db1 Demo.clock Demo.carol
           (CreateQuoteInput.mk 2 None None None 20 None None None
              [QuoteLineInput.mk (Some 1) "Boiler" 1 1200 0 None])
         = Ok (db2, resp)
         /\ ProductRoutes.delete db2 Demo.alice 1 = Throw e.
Proof.
  eexists. eexists. split; [vm_compute; reflexivity|].
  match goal with
  | |- exists db2 resp e, ?run = _ /\ _ =>
      assert (Hrun : exists db2 resp, run = Ok (db2, resp))
        by (vm_compute; eexists; eexists; reflexivity)
  end.
  destruct Hrun as (db2 & resp & Hrun).
  destruct (quoted_product_cannot_be_deleted _ db2 Demo.clock Demo.carol Demo.alice _ resp
              (QuoteLineInput.mk (Some 1) "Boiler" 1 1200 0 None) 1 Hrun
              (or_introl eq_refl) eq_refl) as (_ & e & He).
  exists db2, resp, e. split; [exact Hrun|exact He].
Defined.

(** ** Logging in, and what deactivating a user does to it *)

Lemma key_injective {A K : Type} (key : A -> K) (rows : list A) (x y : A) :
  NoDup (map key rows) -> In x rows -> In y rows -> key x = key y -> x = y.
Proof.
  induction rows as [|a r IH]; intros Hnd Hx Hy Heq; [destruct Hx|].
  simpl in Hnd. inversion Hnd as [|? ? Hnotin Hnd']; subst.
  destruct Hx as [<-|Hx], Hy as [<-|Hy].
  - reflexivity.
  - exfalso. apply Hnotin. rewrite Heq. apply in_map. exact Hy.
  - exfalso. apply Hnotin. rewrite <- Heq. apply in_map. exact Hx.
  - apply IH; assumption.
Qed.

(** The one row that satisfies a condition is the row [findFirst] gives. *)
Lemma findFirst_unique {A : Type} (p : A -> bool) (rows : list A) (r : A) :
  In r rows -> p r = true ->
  (forall x, In x rows -> p x = true -> x = r) ->
  Sql.findFirst p rows = Some r.
Proof.
  unfold Sql.findFirst. induction rows as [|a l IH]; intros Hin Hp Huniq; [destruct Hin|].
  simpl. destruct (p a) eqn:Ea.
  - simpl. f_equal. apply Huniq; [left; reflexivity|exact Ea].
  - destruct Hin as [->|Hin]; [congruence|].
    apply IH; [exact Hin|exact Hp|].
    intros x Hx. apply Huniq. right. exact Hx.
Qed.

(** The same after an update that does not change what the condition
    reads. *)
Lemma findFirst_map_unique {A : Type} (p : A -> bool) (g : A -> A) (rows : list A)
    (r : A) :
  In r rows -> p r = true ->
  (forall x, p (g x) = p x) ->
  (forall x, In x rows -> p x = true -> x = r) ->
  Sql.findFirst p (map g rows) = Some (g r).
Proof.
  intros Hin Hp Hkeep Huniq. apply findFirst_unique.
  - apply in_map. exact Hin.
  - rewrite Hkeep. exact Hp.
  - intros x' Hx' Hpx'. apply in_map_iff in Hx' as (x & <- & Hx).
    rewrite Hkeep in Hpx'. f_equal. apply Huniq; assumption.
Qed.

Lemma findFirst_nil {A : Type} (p : A -> bool) (rows : list A) :
  Sql.findFirst p rows = None -> filter p rows = [].
Proof.
  unfold Sql.findFirst. destruct (filter p rows); [reflexivity|discriminate].
Qed.

Lemma login_ok (st st' : Store) (clock : Clock) (compare : string -> string -> bool)
    (data : LoginInput.t) (u : User.row) (p : JwtPayload) :
  Auth.login st clock compare data = Ok (st', (u, p)) ->
  Sql.findFirst (fun x => String.eqb (User.email x) (LoginInput.email data))
    (users (base st)) = Some u
  /\ User.isActive u = true
  /\ (exists h, User.passwordHash u = Some h /\ h <> EmptyString
                /\ compare (LoginInput.password data) h = true)
  /\ p = Auth.payload_of u
  /\ st' = mkStore (base st) (quote_stamps st) (product_updatedAt st)
             (upd (user_lastLoginAt st) (User.id u) (Some (now clock))).
Proof.
  unfold Auth.login.
  destruct (Sql.findFirst _ (users (base st))) as [user|]; [|discriminate].
  destruct (User.passwordHash user) as [[|c h]|] eqn:Eh; try discriminate.
  destruct (User.isActive user) eqn:Ea; simpl; [|discriminate].
  destruct (compare (LoginInput.password data) (String c h)) eqn:Ec; simpl; [|discriminate].
  intros H. injection H as <- <- <-.
  repeat split; try assumption.
  exists (String c h). split; [exact Eh|]. split; [discriminate|exact Ec].
Qed.

Lemma login_throw (st : Store) (clock : Clock) (compare : string -> string -> bool)
    (data : LoginInput.t) (e : Errors.exn) :
  Auth.login st clock compare data = Throw e ->
  e = Errors.App (Errors.new_UnauthorizedError "Invalid email or password")
  \/ (e = Errors.App (Errors.new_UnauthorizedError "Account is disabled")
      /\ exists u h,
           Sql.findFirst (fun x => String.eqb (User.email x) (LoginInput.email data))
             (users (base st)) = Some u
           /\ User.isActive u = false
           /\ User.passwordHash u = Some h /\ h <> EmptyString).
Proof.
  unfold Auth.login.
  destruct (Sql.findFirst _ (users (base st))) as [user|];
    [|intros H; injection H as <-; left; reflexivity].
  destruct (User.passwordHash user) as [[|c h]|] eqn:Eh;
    try (intros H; injection H as <-; left; reflexivity).
  destruct (User.isActive user) eqn:Ea; simpl.
  - destruct (compare (LoginInput.password data) (String c h)); simpl;
      [discriminate|intros H; injection H as <-; left; reflexivity].
  - intros H. injection H as <-. right. split; [reflexivity|].
    exists user, (String c h). repeat split; try assumption. discriminate.
Qed.

(** X20. Logging in: a login succeeds only for a stored user with exactly
    the e-mail address of the request, who is active and has a password hash
    that [bcrypt.compare] accepts for the password; it signs that user's id,
    account, e-mail and role, writes nothing to the tables and stamps
    [lastLoginAt] of that user alone.  Every failure is an
    [UnauthorizedError] (401) with one of two messages, and the message
    about a disabled account is given only for an address that belongs to a
    stored, deactivated user with a password, before the password is looked
    at. *)
Theorem login_outcomes :
  forall (st : Store) (clock : Clock) (compare : string -> string -> bool)
         (data : LoginInput.t),
    match Auth.login st clock compare data with
    | Ok (st', (u, p)) =>
        In u (users (base st))
        /\ User.email u = LoginInput.email data
        /\ User.isActive u = true
        /\ (exists h, User.passwordHash u = Some h
                      /\ compare (LoginInput.password data) h = true)
        /\ p = mkJwtPayload (User.id u) (User.accountId u) (User.email u) (User.role u)
        /\ base st' = base st
        /\ user_lastLoginAt st' (User.id u) = Some (now clock)
        /\ (forall i, i <> User.id u -> user_lastLoginAt st' i = user_lastLoginAt st i)
    | Throw e =>
        Errors.errorHandler_status e = Js.Num 401
        /\ Errors.response_error_kind e = Some "UnauthorizedError"
        /\ (e = Errors.App (Errors.new_UnauthorizedError "Invalid email or password")
            \/ (e = Errors.App (Errors.new_UnauthorizedError "Account is disabled")
                /\ exists u,
                     In u (users (base st))
                     /\ User.email u = LoginInput.email data
                     /\ User.isActive u = false
                     /\ forall password compare',
                          Auth.login st clock compare'
                            (LoginInput.mk (LoginInput.email data) password)
                          = Throw e))
    end.
Proof.
  intros st clock compare data.
  destruct (Auth.login st clock compare data) as [[st' [u p]]|e] eqn:E.
  - apply login_ok in E as (Hfind & Hactive & (h & Hh & _ & Hc) & -> & ->).
    apply findFirst_some in Hfind as [Hin Hemail]. apply String.eqb_eq in Hemail.
    repeat split; try assumption.
    + exists h. split; assumption.
    + simpl. unfold upd. rewrite Z.eqb_refl. reflexivity.
    + intros i Hi. simpl. unfold upd.
      destruct (Z.eqb_spec i (User.id u)); [contradiction|reflexivity].
  - apply login_throw in E as [->|(-> & u & h & Hfind & Hactive & Hh & Hne)].
    + repeat split. left. reflexivity.
    + repeat split. right. split; [reflexivity|].
      pose proof (findFirst_some _ _ _ Hfind) as [Hin Hemail].
      apply String.eqb_eq in Hemail.
      exists u. repeat split; try assumption.
      intros password compare'. unfold Auth.login. simpl. rewrite Hfind, Hh.
      destruct h as [|c h']; [contradiction|]. rewrite Hactive. reflexivity.
Qed.

Lemma NoDup_map_keep {A K : Type} (key : A -> K) (g : A -> A) (rows : list A) :
  (forall x, key (g x) = key x) ->
  NoDup (map key rows) -> NoDup (map key (map g rows)).
Proof.
  intros Hkeep Hnd. rewrite map_map.
  rewrite (map_ext (fun x => key (g x)) key Hkeep). exact Hnd.
Qed.

Lemma user_delete_ok (db db' : Db) (clock : Clock) (admin : JwtPayload) (id : Z)
    (msg : string) :
  Users.delete db clock admin id = Ok (db', msg) ->
  role admin = "admin"
  /\ (exists u, In u (users db) /\ User.id u = id /\ User.accountId u = accountId admin)
  /\ exists deactivate,
       users db' = map deactivate (users db)
       /\ (forall u, User.id (deactivate u) = User.id u
                     /\ User.email (deactivate u) = User.email u)
       /\ (forall u, User.id u = id -> User.accountId u = accountId admin ->
                     User.isActive (deactivate u) = false)
       /\ (forall u, User.id u <> id -> deactivate u = u).
Proof.
  unfold Users.delete.
  destruct (String.eqb (role admin) "admin") eqn:Erole; simpl; [|discriminate].
  apply String.eqb_eq in Erole.
  destruct (filter _ (users db)) as [|first rest] eqn:Efilter; [discriminate|].
  intros H. injection H as <- _. split; [exact Erole|]. split.
  - assert (Hin : In first (first :: rest)) by (left; reflexivity).
    rewrite <- Efilter in Hin. apply filter_In in Hin as [Hin Ht].
    apply andb_prop in Ht as [Hid Hacc]. apply Z.eqb_eq in Hid, Hacc.
    exists first. repeat split; assumption.
  - eexists. split; [reflexivity|]. split; [|split].
    + intros u. destruct ((User.id u =? id) && (User.accountId u =? accountId admin));
        split; reflexivity.
    + intros u Hid Hacc. rewrite Hid, Hacc, !Z.eqb_refl. reflexivity.
    + intros u Hid. apply Z.eqb_neq in Hid. rewrite Hid. reflexivity.
Qed.

(** X21. Deactivating a team member locks that user out: where user ids
    and e-mail addresses are unique, after a successful deactivation no
    password logs the user in, the user's access token no longer reads the
    profile and the user's refresh token is refused; the other users are
    left exactly as they were. *)
Theorem deactivated_user_locked_out :
  forall (db db' : Db) (clock : Clock) (admin : JwtPayload) (id : Z) (msg : string),
    user_keys db -> emails_unique db ->
    Users.delete db clock admin id = Ok (db', msg) ->
    exists u,
      In u (users db) /\ User.id u = id /\ User.accountId u = accountId admin
      /\ (forall (st : Store) (clock' : Clock) (compare : string -> string -> bool)
                 (password : string),
            base st = db' ->
            exists e,
              Auth.login st clock' compare (LoginInput.mk (User.email u) password)
              = Throw e
              /\ Errors.errorHandler_status e = Js.Num 401)
      /\ (forall payload, userId payload = id ->
            Auth.me db' payload
            = Throw (Errors.App (Errors.new_UnauthorizedError "User not found or inactive")))
      /\ (forall verify token payload,
            token <> EmptyString -> verify token = Ok payload -> userId payload = id ->
            Auth.refresh db' verify (Some token)
            = Throw (Errors.App (Errors.new_UnauthorizedError "User not found or inactive")))
      /\ (forall other, In other (users db) -> User.id other <> id -> In other (users db')).
Proof.
  intros db db' clock admin id msg Hkeys Hemails Hdel.
  apply user_delete_ok in Hdel
    as (_ & (u & Hin & Hid & Hacc) & deactivate & Husers & Hkeep & Hoff & Hrest).
  assert (Hbyid : forall i, i = id ->
            Sql.findFirst (fun x => User.id x =? i) (users db') = Some (deactivate u)).
  { intros i ->. rewrite Husers. apply findFirst_map_unique.
    - exact Hin.
    - apply Z.eqb_eq. exact Hid.
    - intros x. destruct (Hkeep x) as [-> _]. reflexivity.
    - intros x Hx Hxid. apply Z.eqb_eq in Hxid.
      apply (key_injective User.id (users db)); auto. congruence. }
  assert (Hbyemail :
            Sql.findFirst (fun x => String.eqb (User.email x) (User.email u)) (users db')
            = Some (deactivate u)).
  { rewrite Husers. apply findFirst_map_unique.
    - exact Hin.
    - apply String.eqb_refl.
    - intros x. destruct (Hkeep x) as [_ ->]. reflexivity.
    - intros x Hx Hxe. apply String.eqb_eq in Hxe.
      apply (key_injective User.email (users db)); auto. }
  pose proof (Hoff u Hid Hacc) as Hinactive.
  exists u. repeat split; try assumption.
  - intros st clock' compare password Hbase.
    destruct (Auth.login st clock' compare (LoginInput.mk (User.email u) password))
      as [[st' [u' p]]|e] eqn:E.
    + exfalso. apply login_ok in E as (Hfind & Hactive & _).
      simpl in Hfind. rewrite Hbase, Hbyemail in Hfind. injection Hfind as <-.
      congruence.
    + exists e. split; [reflexivity|].
      apply login_throw in E as [->|(-> & _)]; reflexivity.
  - intros payload Hp. unfold Auth.me. rewrite (Hbyid _ Hp), Hinactive. reflexivity.
  - intros verify token payload Hne Hv Hp. unfold Auth.refresh.
    destruct token as [|c t]; [contradiction|].
    rewrite Hv. simpl. rewrite (Hbyid _ Hp), Hinactive. reflexivity.
  - intros other Hother Hoid. rewrite Husers, <- (Hrest other Hoid).
    apply in_map. exact Hother.
Qed.

Lemma demo_user_keys : user_keys Demo.db.
Proof.
  unfold user_keys. simpl. repeat constructor; simpl; intuition discriminate.
Qed.

Lemma demo_emails_unique : emails_unique Demo.db.
Proof.
  unfold emails_unique. simpl. repeat constructor; simpl; intuition discriminate.
Qed.

(** Alice deactivates bob; bob's own password no longer logs him in. *)
Lemma deactivated_user_locked_out_witness :
  exists db' msg e,
    Users.delete Demo.db Demo.clock Demo.alice 2 = Ok (db', msg)
    /\ Auth.login (store_of Demo.db) Demo.clock Scenario.compare
         (LoginInput.mk "bob@one.example" "pw2")
       = Ok (mkStore Demo.db (fun _ => QuoteStamps.none) (fun _ => None)
               (upd (fun _ => None) 2 (Some 200)),
             (User.mk 2 1 "bob@one.example" "Bob" (Some "h2") "local" "surveyor" None true 2,
              Demo.bob))
    /\ Auth.login (store_of db') Demo.clock Scenario.compare
         (LoginInput.mk "bob@one.example" "pw2")
       = Throw e
    /\ Errors.errorHandler_status e = Js.Num 401.
Proof.
  assert (Hrun : exists db' msg,
             Users.delete Demo.db Demo.clock Demo.alice 2 = Ok (db', msg))
    by (vm_compute; eexists; eexists; reflexivity).
  destruct Hrun as (db' & msg & Hrun).
  destruct (deactivated_user_locked_out Demo.db db' Demo.clock Demo.alice 2 msg
              demo_user_keys demo_emails_unique Hrun)
    as (u & Hin & Hid & _ & Hlogin & _).
  assert (Hu : User.email u = "bob@one.example").
  { destruct Hin as [<-|[<-|[<-|[]]]]; try discriminate Hid. reflexivity. }
  destruct (Hlogin (store_of db') Demo.clock Scenario.compare "pw2" eq_refl)
    as (e & He & Hstatus).
  rewrite Hu in He.
  exists db', msg, e. split; [exact Hrun|]. split; [reflexivity|].
  split; [exact He|exact Hstatus].
Defined.

(** ** Registering *)

Lemma register_ok (db db' : Db) (clock : Clock) (data : RegisterInput.t)
    (hash : string) (u : User.row) :
  Users.register db clock data hash = Ok (db', u) ->
  Sql.findFirst (fun x => String.eqb (User.email x) (RegisterInput.email data)) (users db)
  = None
  /\ u = User.mk (next_user db) (next_account db) (RegisterInput.email data)
           (RegisterInput.name data) (Some hash) "local" "admin" None true (now clock)
  /\ users db' = users db ++ [u]
  /\ accounts db' = accounts db
                    ++ [Account.mk (next_account db) (RegisterInput.accountName data)
                          "free" true]
  /\ customers db' = customers db /\ products db' = products db
  /\ quotes db' = quotes db /\ quoteLines db' = quoteLines db
  /\ next_account db' = next_account db + 1 /\ next_user db' = next_user db + 1.
Proof.
  unfold Users.register.
  destruct (Sql.findFirst _ (users db)) eqn:Hfind; [discriminate|].
  unfold Users.insert_user. simpl.
  destruct (existsb _ (users db)); simpl; [discriminate|].
  intros H. injection H as <- <-. simpl. repeat split.
Qed.

(** X22. Registering opens an account of its own: after a successful
    registration the new user logs in with the password registered, as the
    admin of an account that no earlier row belongs to, so that user finds no
    quote, customer or product of anyone else under any id, and is the
    account's only user. *)
Theorem register_then_login :
  forall (db db' : Db) (clock clock' : Clock) (data : RegisterInput.t) (hash : string)
         (u : User.row) (compare : string -> string -> bool) (st : Store),
    accounts_fresh db ->
    Users.register db clock data hash = Ok (db', u) ->
    hash <> EmptyString ->
    compare (RegisterInput.password data) hash = true ->
    base st = db' ->
    exists st',
      Auth.login st clock' compare
        (LoginInput.mk (RegisterInput.email data) (RegisterInput.password data))
      = Ok (st', (u, Auth.payload_of u))
      /\ role (Auth.payload_of u) = "admin"
      /\ accountId (Auth.payload_of u) = next_account db
      /\ (forall id,
            Quotes.get_by_id db' (Auth.payload_of u) id
            = Throw (Errors.App (Errors.new_NotFoundError "Quote not found"))
            /\ Customers.get_by_id db' (Auth.payload_of u) id
               = Throw (Errors.App (Errors.new_NotFoundError "Customer not found"))
            /\ Products.get_by_id db' (Auth.payload_of u) id
               = Throw (Errors.App (Errors.new_NotFoundError "Product not found")))
      /\ (forall v, In v (users db') -> User.accountId v = next_account db -> v = u).
Proof.
  intros db db' clock clock' data hash u compare st (Hu & Hq & Hc & Hp) Hreg Hne Hcmp Hbase.
  apply register_ok in Hreg
    as (Hfind & Hrow & Husers & _ & Hcust & Hprod & Hquotes & _).
  assert (Hacc : accountId (Auth.payload_of u) = next_account db)
    by (rewrite Hrow; reflexivity).
  assert (Hlogin : Sql.findFirst
                     (fun x => String.eqb (User.email x) (RegisterInput.email data))
                     (users db') = Some u).
  { unfold Sql.findFirst. rewrite Husers, filter_app, (findFirst_nil _ _ Hfind).
    assert (Hemail : User.email u = RegisterInput.email data) by (rewrite Hrow; reflexivity).
    simpl. rewrite Hemail, String.eqb_refl. reflexivity. }
  assert (Hhash : User.passwordHash u = Some hash) by (rewrite Hrow; reflexivity).
  assert (Hactive : User.isActive u = true) by (rewrite Hrow; reflexivity).
  eexists. split; [|split; [|split; [|split]]].
  - unfold Auth.login. simpl. rewrite Hbase, Hlogin, Hhash, Hactive.
    destruct hash as [|c h]; [contradiction|]. rewrite Hcmp. simpl. reflexivity.
  - rewrite Hrow. reflexivity.
  - exact Hacc.
  - intros id. split; [|split].
    + unfold Quotes.get_by_id, requireAccountAccess.
      rewrite findFirst_none; [reflexivity|].
      intros q Hin. rewrite Hquotes in Hin. specialize (Hq q Hin).
      unfold Quotes.owned. rewrite Hacc.
      destruct (Z.eqb_spec (Quote.accountId q) (next_account db)); [lia|].
      apply andb_false_r.
    + unfold Customers.get_by_id, requireAccountAccess.
      rewrite findFirst_none; [reflexivity|].
      intros c Hin. rewrite Hcust in Hin. specialize (Hc c Hin). rewrite Hacc.
      destruct (Z.eqb_spec (Customer.accountId c) (next_account db)); [lia|].
      apply andb_false_r.
    + unfold Products.get_by_id, requireAccountAccess.
      rewrite findFirst_none; [reflexivity|].
      intros p Hin. rewrite Hprod in Hin. specialize (Hp p Hin). rewrite Hacc.
      destruct (Z.eqb_spec (Product.accountId p) (next_account db)); [lia|].
      apply andb_false_r.
  - intros v Hv Hvacc. rewrite Husers in Hv. apply in_app_or in Hv as [Hv|[<-|[]]].
    + destruct (Hu v Hv) as [_ Hlt]. lia.
    + reflexivity.
Qed.

Lemma demo_accounts_fresh : accounts_fresh Demo.db.
Proof.
  unfold accounts_fresh. split; [|split; [|split]]; intros r Hr; simpl in Hr;
    repeat match goal with
           | H : _ \/ _ |- _ => destruct H as [<-|H]
           | H : False |- _ => destruct H
           end; vm_compute; intuition congruence.
Qed.

(** Dave registers a third account on the demo database and logs in. *)
Lemma register_then_login_witness :
  exists db' u st',
    Users.register Demo.db Demo.clock
      (RegisterInput.mk "Three" "dave@three.example" "Dave" "pw4") "h4"
    = Ok (db', u)
    /\ Auth.login (store_of db') Demo.clock Scenario.compare
         (LoginInput.mk "dave@three.example" "pw4")
       = Ok (st', (u, mkJwtPayload 4 3 "dave@three.example" "admin"))
    /\ Quotes.get_by_id db' (mkJwtPayload 4 3 "dave@three.example" "admin") 1
       = Throw (Errors.App (Errors.new_NotFoundError "Quote not found")).
Proof.
  assert (Hrun : exists db' u,
             Users.register Demo.db Demo.clock
               (RegisterInput.mk "Three" "dave@three.example" "Dave" "pw4") "h4"
             = Ok (db', u)
             /\ Auth.payload_of u = mkJwtPayload 4 3 "dave@three.example" "admin")
    by (vm_compute; eexists; eexists; split; reflexivity).
  destruct Hrun as (db' & u & Hrun & Hpayload).
  assert (Hne : "h4" <> EmptyString) by discriminate.
  destruct (register_then_login Demo.db db' Demo.clock Demo.clock _ "h4" u
              Scenario.compare (store_of db') demo_accounts_fresh Hrun Hne eq_refl eq_refl)
    as (st' & Hlogin & _ & _ & Hnothing & _).
  exists db', u, st'. rewrite <- Hpayload.
  split; [exact Hrun|]. split; [exact Hlogin|]. apply (Hnothing 1).
Defined.

(** ** Refreshing after an admin has changed the user *)

Lemma user_put_ok (db db' : Db) (clock : Clock) (admin : JwtPayload) (id : Z)
    (data : UpdateUserInput.t) (u' : User.row) :
  UserRoutes.put db clock admin id data = Ok (db', u') ->
  role admin = "admin"
  /\ exists u,
       In u (users db) /\ User.id u = id /\ User.accountId u = accountId admin
       /\ u' = UserRoutes.updated_row clock data u
       /\ users db'
          = map (fun x => if (User.id x =? id) && (User.accountId x =? accountId admin)
                          then UserRoutes.updated_row clock data x else x) (users db).
Proof.
  unfold UserRoutes.put.
  destruct (String.eqb (role admin) "admin") eqn:Erole; simpl; [|discriminate].
  apply String.eqb_eq in Erole.
  destruct (filter _ (users db)) as [|first rest] eqn:Efilter; [discriminate|].
  intros H. injection H as <- <-. split; [exact Erole|].
  assert (Hin : In first (first :: rest)) by (left; reflexivity).
  rewrite <- Efilter in Hin. apply filter_In in Hin as [Hin Ht].
  apply andb_prop in Ht as [Hid Hacc]. apply Z.eqb_eq in Hid, Hacc.
  exists first. repeat split; assumption.
Qed.

(** X23. A refresh signs what is stored, not what the token says: after an
    admin has updated a user, that user's refresh token - whatever role,
    account and address it was signed with - is answered with tokens for the
    stored id, account, address and the role the update left, or is refused
    if the update switched the user off.  The update itself cannot change
    the user's id, account, address or password. *)
Theorem refresh_after_update :
  forall (db db' : Db) (clock : Clock) (admin : JwtPayload) (id : Z)
         (data : UpdateUserInput.t) (u' : User.row)
         (verify : string -> Result JwtPayload) (token : string) (payload : JwtPayload),
    user_keys db ->
    UserRoutes.put db clock admin id data = Ok (db', u') ->
    token <> EmptyString -> verify token = Ok payload -> userId payload = id ->
    exists u,
      In u (users db) /\ User.id u = id
      /\ Auth.refresh db' verify (Some token)
         = (if Quotes.set_val (UpdateUserInput.isActive data) (User.isActive u)
            then Ok (mkJwtPayload id (User.accountId u) (User.email u)
                       (Quotes.set_val (UpdateUserInput.role data) (User.role u)))
            else Throw (Errors.App
                          (Errors.new_UnauthorizedError "User not found or inactive")))
      /\ User.id u' = User.id u /\ User.accountId u' = User.accountId u
      /\ User.email u' = User.email u /\ User.passwordHash u' = User.passwordHash u.
Proof.
  intros db db' clock admin id data u' verify token payload Hkeys Hput Hne Hv Hp.
  apply user_put_ok in Hput as (_ & u & Hin & Hid & Hacc & -> & Husers).
  exists u. split; [exact Hin|]. split; [exact Hid|]. split; [|repeat split].
  unfold Auth.refresh. destruct token as [|c t]; [contradiction|].
  rewrite Hv. simpl. rewrite Hp, Husers.
  rewrite (findFirst_map_unique (fun x => User.id x =? id)
             (fun x => if (User.id x =? id) && (User.accountId x =? accountId admin)
                       then UserRoutes.updated_row clock data x else x)
             (users db) u Hin).
  - assert (Ht : (User.id u =? id) && (User.accountId u =? accountId admin) = true)
      by (rewrite Hid, Hacc, !Z.eqb_refl; reflexivity).
    rewrite Ht. simpl.
    destruct (Quotes.set_val (UpdateUserInput.isActive data) (User.isActive u));
      [|reflexivity].
    unfold Auth.payload_of. simpl. rewrite Hid. reflexivity.
  - apply Z.eqb_eq. exact Hid.
  - intros x. destruct ((User.id x =? id) && (User.accountId x =? accountId admin));
      reflexivity.
  - intros x Hx Hxid. apply Z.eqb_eq in Hxid.
    apply (key_injective User.id (users db)); auto. congruence.
Qed.

(** Alice makes bob a manager; bob's refresh token, signed for a surveyor,
    now gets tokens for a manager. *)
Lemma refresh_after_update_witness :
  exists db' u',
    UserRoutes.put Demo.db Demo.clock Demo.alice 2
      (UpdateUserInput.mk None None (Some "manager") None)
    = Ok (db', u')
    /\ Auth.refresh db' Scenario.verifyRefreshToken (Some "bob-refresh")
       = Ok (mkJwtPayload 2 1 "bob@one.example" "manager").
Proof.
  assert (Hrun : exists db' u',
             UserRoutes.put Demo.db Demo.clock Demo.alice 2
               (UpdateUserInput.mk None None (Some "manager") None)
             = Ok (db', u'))
    by (vm_compute; eexists; eexists; reflexivity).
  destruct Hrun as (db' & u' & Hrun).
  assert (Hne : "bob-refresh" <> EmptyString) by discriminate.
  destruct (refresh_after_update Demo.db db' Demo.clock Demo.alice 2 _ u'
              Scenario.verifyRefreshToken "bob-refresh" Demo.bob
              demo_user_keys Hrun Hne eq_refl eq_refl)
    as (u & Hin & Hid & Hrefresh & _).
  exists db', u'. split; [exact Hrun|]. rewrite Hrefresh.
  destruct Hin as [<-|[<-|[<-|[]]]]; try discriminate Hid. reflexivity.
Defined.

(** ** The auth middleware *)

Lemma strip_prefix_app (p t : string) : Js.strip_prefix p (p ++ t) = Some t.
Proof.
  induction p as [|a p IH]; simpl; [reflexivity|].
  rewrite Ascii.eqb_refl. exact IH.
Qed.

Lemma strip_prefix_some (p s t : string) :
  Js.strip_prefix p s = Some t -> s = (p ++ t)%string.
Proof.
  revert s. induction p as [|a p IH]; intros s; simpl.
  - intros H. injection H as ->. reflexivity.
  - destruct s as [|b s]; [discriminate|].
    destruct (Ascii.eqb_spec a b) as [->|]; [|discriminate].
    intros H. rewrite (IH s H). reflexivity.
Qed.

(** X24. Where the auth middleware takes the token from: an
    [Authorization] header that starts with [Bearer ] decides alone - its
    token is verified and the cookie is not looked at, and when nothing
    follows [Bearer ] the request is refused even if it carries a cookie;
    any other header counts as absent and the cookie is used.  The verifier
    is never given an empty token, and a request gets through only with the
    payload the verifier returned for the token of the header or the
    cookie. *)
Theorem authMiddleware_token_source :
  forall (verifyAccessToken : string -> Result JwtPayload),
    (forall token cookie,
       Middleware.authMiddleware verifyAccessToken (Some ("Bearer " ++ token)%string) cookie
       = match token with
         | EmptyString =>
             Throw (Errors.App
                      (Errors.new_UnauthorizedError "No authentication token provided"))
         | _ => verifyAccessToken token
         end)
    /\ (forall header cookie,
          (forall token, header <> ("Bearer " ++ token)%string) ->
          Middleware.authMiddleware verifyAccessToken (Some header) cookie
          = Middleware.authMiddleware verifyAccessToken None cookie)
    /\ (forall header cookie payload,
          Middleware.authMiddleware verifyAccessToken header cookie = Ok payload ->
          exists token,
            token <> EmptyString /\ verifyAccessToken token = Ok payload
            /\ (header = Some ("Bearer " ++ token)%string \/ cookie = Some token)).
Proof.
  intros verify. split; [|split].
  - intros token cookie. unfold Middleware.authMiddleware, Middleware.bearer_token.
    rewrite strip_prefix_app. destruct token; reflexivity.
  - intros header cookie Hnot. unfold Middleware.authMiddleware, Middleware.bearer_token.
    destruct (Js.strip_prefix "Bearer " header) as [t|] eqn:E; [|reflexivity].
    apply strip_prefix_some in E. exfalso. exact (Hnot t E).
  - intros header cookie payload. unfold Middleware.authMiddleware, Middleware.bearer_token.
    destruct header as [header|].
    + destruct (Js.strip_prefix "Bearer " header) as [t|] eqn:E.
      * apply strip_prefix_some in E. destruct t as [|c t]; [discriminate|].
        intros Hv. exists (String c t). split; [discriminate|]. split; [exact Hv|].
        left. rewrite E. reflexivity.
      * destruct cookie as [[|c t]|]; try discriminate.
        intros Hv. exists (String c t). split; [discriminate|]. split; [exact Hv|].
        right. reflexivity.
    + destruct cookie as [[|c t]|]; try discriminate.
      intros Hv. exists (String c t). split; [discriminate|]. split; [exact Hv|].
      right. reflexivity.
Qed.

(** A request with the header [Bearer ] and a cookie is refused; with the
    header [Basic x] the cookie is used. *)
Lemma authMiddleware_token_source_witness :
  Middleware.authMiddleware (fun _ => Ok Demo.alice) (Some "Bearer ") (Some "cookie")
  = Throw (Errors.App (Errors.new_UnauthorizedError "No authentication token provided"))
  /\ Middleware.authMiddleware (fun _ => Ok Demo.alice) (Some "Basic x") (Some "cookie")
     = Ok Demo.alice.
Proof.
  destruct (authMiddleware_token_source (fun _ => Ok Demo.alice)) as (Hbearer & Hother & _).
  split.
  - exact (Hbearer EmptyString (Some "cookie")).
  - rewrite Hother; [reflexivity|].
    intros token H. discriminate H.
Defined.

(** ** Boiler specifications are switched off, not removed *)

Lemma filter_map_keep {A : Type} (p : A -> bool) (g : A -> A) (rows : list A) :
  (forall x, p (g x) = p x) -> filter p (map g rows) = map g (filter p rows).
Proof.
  intros Hkeep. induction rows as [|x r IH]; simpl; [reflexivity|].
  rewrite Hkeep. destruct (p x); simpl; rewrite IH; reflexivity.
Qed.

(** X25. Deleting a boiler specification is a soft delete: after a
    successful delete the specification is still returned by the get route,
    with the same id, manufacturer and model and [isActive] false; no row
    leaves the table and the other specifications are untouched; and the
    route does not look at [isActive], so deleting again succeeds again and
    changes nothing. *)
Theorem boiler_delete_is_soft :
  forall (db db' : Db) (admin : JwtPayload) (id : Z) (msg : string),
    BoilerRoutes.delete db admin id = Ok (db', msg) ->
    (exists b,
       BoilerRoutes.get_by_id db id = Ok b
       /\ BoilerRoutes.get_by_id db' id
          = Ok (Boiler.mk (Boiler.id b) (Boiler.manufacturer b) (Boiler.model b) false))
    /\ map Boiler.id (boilerSpecifications db') = map Boiler.id (boilerSpecifications db)
    /\ (forall b, In b (boilerSpecifications db) -> Boiler.id b <> id ->
                  In b (boilerSpecifications db'))
    /\ BoilerRoutes.delete db' admin id = Ok (db', msg).
Proof.
  intros db db' admin id msg. unfold BoilerRoutes.delete, BoilerRoutes.get_by_id.
  destruct (String.eqb (role admin) "admin") eqn:Erole; simpl; [|discriminate].
  set (off := fun b => if Boiler.id b =? id
                       then Boiler.mk (Boiler.id b) (Boiler.manufacturer b)
                              (Boiler.model b) false
                       else b).
  assert (Hkeep : forall x, (Boiler.id (off x) =? id) = (Boiler.id x =? id)).
  { intros x. unfold off. destruct (Boiler.id x =? id) eqn:E; [simpl|]; exact E. }
  assert (Hidem : forall x, off (off x) = off x).
  { intros x. unfold off at 1. rewrite Hkeep. unfold off.
    destruct (Boiler.id x =? id); reflexivity. }
  destruct (filter (fun b => Boiler.id b =? id) (boilerSpecifications db))
    as [|first rest] eqn:Efilter; [discriminate|].
  intros H. injection H as <- <-. simpl.
  rewrite (filter_map_keep (fun b => Boiler.id b =? id) off _ Hkeep), Efilter. simpl.
  split; [|split; [|split]].
  - exists first. split; [reflexivity|].
    assert (Hin : In first (first :: rest)) by (left; reflexivity).
    rewrite <- Efilter in Hin. apply filter_In in Hin as [_ Hid].
    unfold off. rewrite Hid. reflexivity.
  - rewrite map_map. apply map_ext. intros x. unfold off.
    destruct (Boiler.id x =? id); reflexivity.
  - intros b Hb Hne. apply Z.eqb_neq in Hne.
    replace b with (off b) by (unfold off; rewrite Hne; reflexivity).
    apply in_map. exact Hb.
  - rewrite map_map, (map_ext (fun x => off (off x)) off Hidem). reflexivity.
Qed.

(** Alice adds a boiler specification and deletes it twice. *)
Lemma boiler_delete_is_soft_witness :
  exists db1 b,
    Boilers.post Demo.db Demo.alice (CreateBoilerInput.mk "Acme" "B1") = Ok (db1, b)
    /\ exists db2 msg,
         BoilerRoutes.delete db1 Demo.alice 1 = Ok (db2, msg)
         /\ BoilerRoutes.get_by_id db2 1 = Ok (Boiler.mk 1 "Acme" "B1" false)
         /\ BoilerRoutes.delete db2 Demo.alice 1 = Ok (db2, msg).
Proof.
  eexists. eexists. split; [vm_compute; reflexivity|].
  match goal with
  | |- exists db2 msg, ?run = _ /\ _ =>
      assert (Hrun : exists db2 msg, run = Ok (db2, msg))
        by (vm_compute; eexists; eexists; reflexivity)
  end.
  destruct Hrun as (db2 & msg & Hrun).
  destruct (boiler_delete_is_soft _ db2 Demo.alice 1 msg Hrun)
    as ((b & Hb & Hget) & _ & _ & Hagain).
  exists db2, msg. split; [exact Hrun|]. split; [|exact Hagain].
  rewrite Hget. vm_compute in Hb. injection Hb as <-. reflexivity.
Defined.

(** ** Customers: deleting, and the quotes of a customer *)





(** X27. The customer and product routes that write, and the quotes of a
    customer, refuse the id of a row of another account with the
    [NotFoundError] (404) of an id that does not exist, before anything is
    checked or written: an update of another account's product is refused
    whatever its body, a delete of it even if quote lines refer to it. *)
Theorem customer_product_writes_other_account_not_found :
  forall (st : Store) (clock : Clock) (user : JwtPayload) (id : Z),
    primary_keys (base st) ->
    let not_found what :=
      Errors.App (Errors.new_NotFoundError (what ++ " not found")) in
    ((exists c, In c (customers (base st)) /\ Customer.id c = id
                /\ Customer.accountId c <> accountId user) ->
     CustomerRoutes.delete (base st) user id = Throw (not_found "Customer")
     /\ CustomerRoutes.quotes_of (base st) user id = Throw (not_found "Customer"))
    /\ ((exists p, In p (products (base st)) /\ Product.id p = id
                   /\ Product.accountId p <> accountId user) ->
        ProductRoutes.delete (base st) user id = Throw (not_found "Product")
        /\ forall data,
             ProductRoutes.put st clock user id data = Throw (not_found "Product")).
Proof.
  intros st clock user id (Hc & _ & Hp) not_found. split.
  - intros (c & Hin & Hid & Hacc).
    unfold CustomerRoutes.delete, CustomerRoutes.quotes_of, CustomerRoutes.owned,
      requireAccountAccess.
    rewrite (findFirst_other_account Customer.id Customer.accountId _ c); auto.
  - intros (p & Hin & Hid & Hacc).
    unfold ProductRoutes.delete, ProductRoutes.put, ProductRoutes.owned,
      requireAccountAccess.
    rewrite (findFirst_other_account Product.id Product.accountId _ p); auto.
Qed.

(** Carol asks for alice's customer 1 and product 1. *)
Lemma customer_product_writes_other_account_not_found_witness :
  CustomerRoutes.delete Scenario.db Demo.carol 1
  = Throw (Errors.App (Errors.new_NotFoundError "Customer not found"))
  /\ ProductRoutes.put (store_of Scenario.db) Demo.clock Demo.carol 1 (Scenario.rename "Z9")
     = Throw (Errors.App (Errors.new_NotFoundError "Product not found")).
Proof.
  destruct (customer_product_writes_other_account_not_found (store_of Scenario.db)
              Demo.clock Demo.carol 1 scenario_primary_keys) as (Hc & Hp).
  split.
  - apply Hc. exists Demo.customer1. split; [left; reflexivity|]. split; [reflexivity|].
    discriminate.
  - apply Hp. exists Demo.product1. split; [left; reflexivity|]. split; [reflexivity|].
    discriminate.
Defined.

(** X28. The quotes of a customer: the route answers with exactly the
    quotes stored for that customer, latest first; it filters by customer
    only, and it is because every quote belongs to a customer of its own
    account that all of them are quotes of the caller's account. *)
Theorem customer_quotes_scoped_and_sorted :
  forall (db : Db) (user : JwtPayload) (id : Z) (rows : list Quote.row),
    primary_keys db -> quotes_linked db ->
    CustomerRoutes.quotes_of db user id = Ok rows ->
    (forall q, In q rows <-> In q (quotes db) /\ Quote.customerId q = id)
    /\ (forall q, In q rows -> Quote.accountId q = accountId user)
    /\ latest_first rows
    /\ List.length rows
       = List.length (filter (fun q => Quote.customerId q =? id) (quotes db)).
Proof.
  intros db user id rows (Hkeys & _) Hlinked. unfold CustomerRoutes.quotes_of,
    requireAccountAccess.
  destruct (Sql.findFirst _ (customers db)) as [c|] eqn:Hfind; [|discriminate].
  intros H. injection H as <-.
  apply findFirst_some in Hfind as [Hc Howned].
  unfold CustomerRoutes.owned in Howned. apply andb_prop in Howned as [Hcid Hcacc].
  apply Z.eqb_eq in Hcid, Hcacc.
  assert (Hin : forall q, In q (Sql.orderBy_desc Quote.createdAt
                                  (filter (fun q => Quote.customerId q =? id) (quotes db)))
                          <-> In q (quotes db) /\ Quote.customerId q = id).
  { intros q. rewrite In_orderBy_desc, filter_In, Z.eqb_eq. reflexivity. }
  split; [exact Hin|]. split; [|split].
  - intros q Hq. apply Hin in Hq as [Hq Hqc].
    destruct (Hlinked q Hq) as (c' & Hc' & Hid' & Hacc').
    rewrite <- Hacc', <- Hcacc. f_equal.
    apply (key_injective Customer.id (customers db)); auto. congruence.
  - apply orderBy_desc_sorted.
  - apply orderBy_desc_length.
Qed.

(** Alice asks for the quotes of customer 1. *)
Lemma customer_quotes_scoped_and_sorted_witness :
  CustomerRoutes.quotes_of Demo.db Demo.alice 1 = Ok [Demo.quote1]
  /\ forall q, In q [Demo.quote1] -> Quote.accountId q = accountId Demo.alice.
Proof.
  split; [reflexivity|].
  apply (customer_quotes_scoped_and_sorted Demo.db Demo.alice 1 [Demo.quote1]
           demo_primary_keys demo_linked eq_refl).
Defined.

(** ** What validation guarantees about the rows of a created quote *)






(** ** The role middleware and the role checks written into the routes *)

(** X30. [requireRole] lets a caller through exactly when the caller's
    role is one of those listed, compared letter for letter; listed with
    [admin] alone it admits the callers that the check written into the
    boilers route admits.  What it throws is a [ForbiddenError] with status
    403, and an [UnauthorizedError] with status 401 when no user was set. *)
Theorem requireRole_admits_listed_roles :
  forall (db : Db) (user : JwtPayload) (data : CreateBoilerInput.t),
    (forall roles, Middleware.requireRole roles (Some user) = Ok tt <-> In (role user) roles)
    /\ (Middleware.requireRole ["admin"] (Some user) = Ok tt
        <-> exists r, Boilers.post db user data = Ok r)
    /\ (forall roles e,
          Middleware.requireRole roles (Some user) = Throw e ->
          Errors.errorHandler_status e = Js.Num 403
          /\ Errors.response_error_kind e = Some "ForbiddenError")
    /\ (forall roles,
          exists e, Middleware.requireRole roles None = Throw e
                    /\ Errors.errorHandler_status e = Js.Num 401
                    /\ Errors.response_error_kind e = Some "UnauthorizedError").
Proof.
  intros db user data.
  assert (Hlisted : forall roles,
            Middleware.requireRole roles (Some user) = Ok tt <-> In (role user) roles).
  { intros roles. unfold Middleware.requireRole.
    destruct (existsb (String.eqb (role user)) roles) eqn:E.
    - split; [intros _|reflexivity].
      apply existsb_exists in E as (r & Hr & Heq). apply String.eqb_eq in Heq.
      rewrite Heq. exact Hr.
    - split; [discriminate|]. intros Hin. exfalso.
      assert (E' : existsb (String.eqb (role user)) roles = true).
      { apply existsb_exists. exists (role user). split; [exact Hin|].
        apply String.eqb_refl. }
      rewrite E' in E. discriminate. }
  split; [exact Hlisted|]. split; [|split].
  - rewrite Hlisted. unfold Boilers.post.
    destruct (String.eqb_spec (role user) "admin") as [Hadmin|Hother]; simpl.
    + split; [intros _; eexists; reflexivity|intros _; left; symmetry; exact Hadmin].
    + split.
      * intros [Heq|[]]. exfalso. apply Hother. symmetry. exact Heq.
      * intros (r & Hr). discriminate Hr.
  - intros roles e. unfold Middleware.requireRole.
    destruct (existsb (String.eqb (role user)) roles); [discriminate|].
    intros H. injection H as <-. split; reflexivity.
  - intros roles. eexists. split; [reflexivity|]. split; reflexivity.
Qed.
